(** * create_patches_fp.py: the batch orchestrator [seg_and_patch]

    A shallow embedding of [src/create_patches_fp.py] (CLAM, fork of
    kaczmarj) and the properties of its per-slide loop.

    Conventions of the embedding:
    - Python [int] values are [Z]; Python [float] values are exact
      rationals [Q] (no rounding error, no NaN or infinity), so an equation
      between two floats is stated here with [==] or as the equality of the
      integers they are converted to;
    - the pandas data frame is a list of rows addressed by position, which is
      what [df.loc[idx, col]] does on the default range index; the numeric
      parameter columns hold integers and the [keep_ids] / [exclude_ids]
      columns hold strings, as [initialize_df] makes them;
    - [seg_and_patch] starts here from the data frame that [initialize_df]
      returns ([wsi_core.batch_process_utils] is not part of the file);
    - everything outside the file (the slide reader, the segmentation,
      patching and stitching routines, TiffSlide, OpenSlide and the file
      system) is an explicit [World] whose answers the orchestrator consumes;
    - the calls the orchestrator makes are recorded as a list of [event]s,
      [print] apart;
    - an exception that no handler of [seg_and_patch] catches ends the run
      with [Raise]. *)

From Stdlib Require Import ZArith QArith Qround String Ascii List Bool Lia.
From stdpp Require Import base list.
Import ListNotations.

Local Open Scope string_scope.
Local Open Scope Z_scope.

(** ** Python primitives used by the orchestrator *)

Module Py.

Inductive exn :=
| KeyError
| IndexError
| ValueError
| ZeroDivisionError
| CollaboratorError.

(** A computation that either returns or raises. *)
Inductive result (A : Type) :=
| Ok (a : A)
| Err (e : exn).
Arguments Ok {A} a.
Arguments Err {A} e.

(** [xs[i]] on a Python list or tuple: negative indexes count from the end,
    anything out of range raises [IndexError]. *)
Definition index {A} (xs : list A) (i : Z) : result A :=
  let n := Z.of_nat (length xs) in
  let j := if i <? 0 then i + n else i in
  if (0 <=? j) && (j <? n) then
    match xs !! Z.to_nat j with
    | Some x => Ok x
    | None => Err IndexError
    end
  else Err IndexError.

(** [int(x)] on a float: truncation towards zero. *)
Definition int (x : Q) : Z := Z.quot (Qnum x) (Zpos (Qden x)).

(** [round(x)] on a float: nearest integer, ties to the even one. *)
Definition round (x : Q) : Z :=
  let n := Qnum x in
  let d := Zpos (Qden x) in
  let f := n / d in
  match (2 * (n mod d)) ?= d with
  | Lt => f
  | Gt => f + 1
  | Eq => if Z.even f then f else f + 1
  end.

(** [s.split(c)] for a one-character separator: never the empty list. *)
Fixpoint split (c : ascii) (s : string) : list string :=
  match s with
  | EmptyString => [EmptyString]
  | String x s' =>
      if Ascii.eqb x c then EmptyString :: split c s'
      else match split c s' with
           | h :: t => String x h :: t
           | [] => [String x EmptyString]
           end
  end.


Definition is_space (x : ascii) : bool :=
  let n := nat_of_ascii x in
  ((9 <=? n) && (n <=? 13))%nat || (n =? 32)%nat || ((28 <=? n) && (n <=? 31))%nat.

Fixpoint lstrip (s : string) : string :=
  match s with
  | String x s' => if is_space x then lstrip s' else s
  | EmptyString => EmptyString
  end.

Fixpoint rstrip (s : string) : string :=
  match s with
  | EmptyString => EmptyString
  | String x s' =>
      match rstrip s' with
      | EmptyString => if is_space x then EmptyString else String x EmptyString
      | r => String x r
      end
  end.

Definition digit (x : ascii) : option Z :=
  let n := nat_of_ascii x in
  if ((48 <=? n) && (n <=? 57))%nat then Some (Z.of_nat n - 48) else None.

(** Decimal digits, a single underscore allowed between two digits.
    [prev] tells whether the previous character was a digit. *)
Fixpoint digits (acc : Z) (prev : bool) (s : string) : option Z :=
  match s with
  | EmptyString => if prev then Some acc else None
  | String x s' =>
      match digit x with
      | Some d => digits (10 * acc + d) true s'
      | None =>
          if Ascii.eqb x "_"%char && prev then digits acc false s' else None
      end
  end.

(** [int(s)] on a string, base 10: surrounding white space, an optional
    sign, then digits.  [None] stands for [ValueError]. *)
Definition int_of_str (s : string) : option Z :=
  match rstrip (lstrip s) with
  | EmptyString => None
  | String x body =>
      if Ascii.eqb x "-" then option_map Z.opp (digits 0 false body)
      else if Ascii.eqb x "+" then digits 0 false body
      else digits 0 false (String x body)
  end.

(** [numpy.array(parts).astype(int)]: every element converted, the first
    failure raises. *)
Fixpoint astype_int (parts : list string) : result (list Z) :=
  match parts with
  | [] => Ok []
  | p :: rest =>
      match int_of_str p with
      | None => Err ValueError
      | Some z =>
          match astype_int rest with
          | Ok zs => Ok (z :: zs)
          | Err e => Err e
          end
      end
  end.

(** [s.rfind(c)]: the last position of [c], or [-1]. *)
Fixpoint rfind_from (c : ascii) (s : string) (i acc : Z) : Z :=
  match s with
  | EmptyString => acc
  | String x s' => rfind_from c s' (i + 1) (if Ascii.eqb x c then i else acc)
  end.
Definition rfind (c : ascii) (s : string) : Z := rfind_from c s 0 (-1).

Fixpoint endswith_char (c : ascii) (s : string) : bool :=
  match s with
  | EmptyString => false
  | String x EmptyString => Ascii.eqb x c
  | String _ s' => endswith_char c s'
  end.

(** [os.path.join(a, b)] (posixpath). *)
Definition path_join (a b : string) : string :=
  match b with
  | String "/" _ => b
  | _ =>
      match a with
      | EmptyString => b
      | _ => if endswith_char "/" a then a ++ b else a ++ String "/" b
      end
  end.

(** [os.path.splitext(p)[0]] (posixpath): the extension starts at the last
    dot of the last component, leading dots of the component apart. *)
Definition splitext_root (p : string) : string :=
  let sepIndex := rfind "/" p in
  let dotIndex := rfind "." p in
  if sepIndex <? dotIndex then
    let name := substring (Z.to_nat (sepIndex + 1))
                          (Z.to_nat (dotIndex - sepIndex - 1)) p in
    if existsb (fun x => negb (Ascii.eqb x ".")) (list_ascii_of_string name)
    then substring 0 (Z.to_nat dotIndex) p
    else p
  else p.

(** [os.path.isfile] against the list of regular files that exist. *)
Definition isfile (files : list string) (p : string) : bool :=
  existsb (String.eqb p) files.

End Py.

Local Open Scope list_scope.

(** ** Data model *)

(** The four parameter dictionaries of [seg_and_patch], with the keys that
    the signature and the command line give them. *)
Record SegParams := {
  seg_level : Z;
  sthresh : Z;
  mthresh : Z;
  close : Z;
  use_otsu : bool;
  keep_ids : string;
  exclude_ids : string }.

Record FilterParams := { a_t : Z; a_h : Z; max_n_holes : Z }.

Record VisParams := { vis_level : Z; line_thickness : Z }.

Record PatchParams := { use_padding : bool; contour_fn : string }.

(** One row of the data frame.  [a] is the cell of the legacy column; it is
    read only when the frame has that column, and [None] is a missing value
    (NaN). *)
Record SlideRecord := {
  slide_id : string;
  process : Z;
  status : string;
  seg : SegParams;
  filt : FilterParams;
  vis : VisParams;
  pat : PatchParams;
  a : option Q }.

(** The data frame: whether it has the legacy column ["a"], and its rows. *)
Record DataFrame := { has_a : bool; rows : list SlideRecord }.

(** Column writers, one per column that [seg_and_patch] assigns. *)
Definition set_process (v : Z) (r : SlideRecord) : SlideRecord :=
  {| slide_id := slide_id r; process := v; status := status r; seg := seg r;
     filt := filt r; vis := vis r; pat := pat r; a := a r |}.

Definition set_status (v : string) (r : SlideRecord) : SlideRecord :=
  {| slide_id := slide_id r; process := process r; status := v; seg := seg r;
     filt := filt r; vis := vis r; pat := pat r; a := a r |}.

Definition set_seg_level (v : Z) (r : SlideRecord) : SlideRecord :=
  {| slide_id := slide_id r; process := process r; status := status r;
     seg := {| seg_level := v; sthresh := sthresh (seg r); mthresh := mthresh (seg r);
               close := close (seg r); use_otsu := use_otsu (seg r);
               keep_ids := keep_ids (seg r); exclude_ids := exclude_ids (seg r) |};
     filt := filt r; vis := vis r; pat := pat r; a := a r |}.

Definition set_vis_level (v : Z) (r : SlideRecord) : SlideRecord :=
  {| slide_id := slide_id r; process := process r; status := status r; seg := seg r;
     filt := filt r;
     vis := {| vis_level := v; line_thickness := line_thickness (vis r) |};
     pat := pat r; a := a r |}.

Definition set_a_t (v : Z) (r : SlideRecord) : SlideRecord :=
  {| slide_id := slide_id r; process := process r; status := status r; seg := seg r;
     filt := {| a_t := v; a_h := a_h (filt r); max_n_holes := max_n_holes (filt r) |};
     vis := vis r; pat := pat r; a := a r |}.

(** [df.loc[idx, col] = v] *)
Definition loc_set (f : SlideRecord -> SlideRecord) (idx : nat) (df : DataFrame) : DataFrame :=
  {| has_a := has_a df; rows := alter f idx (rows df) |}.

(** [df.loc[idx, ...]]: the row, [KeyError] when there is none. *)
Definition loc (df : DataFrame) (idx : nat) : Py.result SlideRecord :=
  match rows df !! idx with
  | Some r => Py.Ok r
  | None => Py.Err Py.KeyError
  end.

(** ** The collaborators *)

(** What the orchestrator reads from an opened [WholeSlideImage]. *)
Record WSI := {
  level_dim : list (Z * Z);
  level_downsamples : list (Q * Q);
  get_best_level_for_downsample_64 : Z }.

(** The value of a slide property under [float(...)]. *)
Inductive PropVal :=
| PNone                (* the property is [None] *)
| PFloat (q : Q)       (* [float] succeeds *)
| PBad.                (* [float] raises *)

(** The two properties the metadata readers look at; [None] is a key that
    is not in [slide.properties]. *)
Record Properties := { mpp_x : option PropVal; mpp_y : option PropVal }.

(** The arguments [segment] receives: the segmentation dictionary with the
    two id lists parsed. *)
Record SegArgs := {
  sa_seg_level : Z;
  sa_sthresh : Z;
  sa_mthresh : Z;
  sa_close : Z;
  sa_use_otsu : bool;
  sa_keep_ids : list Z;
  sa_exclude_ids : list Z }.

(** The keyword arguments [patching] receives. *)
Record PatchArgs := {
  pa_use_padding : bool;
  pa_contour_fn : string;
  pa_patch_level : Z;
  pa_patch_size : Z;
  pa_step_size : Z;
  pa_save_path : string }.

(** The answers of everything outside the file.  [None] (or [false]) is a
    call that raises; the [Q] results are the elapsed seconds that the
    wrappers [segment], [patching] and [stitching] measure. *)
Record World := {
  WholeSlideImage : string -> option WSI;
  segmentTissue : string -> SegArgs -> FilterParams -> option Q;
  (* [visWSI] and [mask.save] *)
  visWSI : string -> VisParams -> bool;
  (* the files it wrote, and the elapsed time *)
  process_contours : string -> PatchArgs -> option (list string * Q);
  (* [StitchCoords] and [heatmap.save] *)
  StitchCoords : string -> option Q;
  TiffSlide : string -> option Properties;
  OpenSlide : string -> option Properties;
  (* regular files present when the run starts *)
  files : list string }.

(** The calls the orchestrator makes, in order. *)
Inductive event :=
| EvToCsv (path : string) (df : DataFrame)
| EvOpen (full_path : string)
| EvSegment (full_path : string) (sa : SegArgs) (fp : FilterParams)
| EvSaveMask (full_path : string) (vp : VisParams) (mask_path : string)
| EvMppTiffslide (full_path : string)
| EvMppOpenslide (full_path : string)
| EvPatching (full_path : string) (pa : PatchArgs)
| EvStitching (file_path : string) (stitch_path : string).

(** The arguments of [seg_and_patch] other than the data frame. *)
Record Config := {
  source : string;
  save_dir : string;
  patch_save_dir : string;
  mask_save_dir : string;
  stitch_save_dir : string;
  patch_size : Z;
  step_size : Z;
  seg_params : SegParams;
  filter_params : FilterParams;
  vis_params : VisParams;
  patch_params : PatchParams;
  patch_level : Z;
  use_default_params : bool;
  do_seg : bool;
  save_mask : bool;
  do_stitch : bool;
  do_patch : bool;
  auto_skip : bool;
  patch_spacing : option Q }.

(** ** The metadata readers *)

Definition float (v : PropVal) : option Q :=
  match v with
  | PFloat q => Some q
  | _ => None
  end.

(** [_get_mpp_openslide]: opening the slide is outside the [try]; any
    failure inside it (missing key, [None], not a number) gives [None]. *)
Definition _get_mpp_openslide (w : World) (slide_path : string) : Py.result (option Q) :=
  match OpenSlide w slide_path with
  | None => Py.Err Py.CollaboratorError
  | Some props =>
      match mpp_x props, mpp_y props with
      | Some vx, Some vy =>
          match float vx, float vy with
          | Some mppx, Some mppy => Py.Ok (Some ((mppx + mppy) / 2)%Q)
          | _, _ => Py.Ok None
          end
      | _, _ => Py.Ok None
      end
  end.

(** [_get_mpp_tiffslide]: opening the slide is outside the [try] too. *)
Definition _get_mpp_tiffslide (w : World) (slide_path : string) : Py.result (option Q) :=
  match TiffSlide w slide_path with
  | None => Py.Err Py.CollaboratorError
  | Some props =>
      match mpp_x props, mpp_y props with
      | Some vx, Some vy =>
          match vx, vy with
          | PNone, _ | _, PNone => Py.Ok None
          | _, _ =>
              match float vx, float vy with
              | Some mppx, Some mppy => Py.Ok (Some ((mppx + mppy) / 2)%Q)
              | _, _ => Py.Ok None
              end
          end
      | _, _ => Py.Ok None
      end
  end.

(** ** The loop state *)

(** The variables of [seg_and_patch] that change from one iteration to the
    next: the data frame, the three timers and [patch_size] / [step_size]
    (physical-spacing mode overwrites both); [fs] is the list of regular
    files, which [process_contours] extends. *)
Record State := {
  df : DataFrame;
  fs : list string;
  seg_times : Q;
  patch_times : Q;
  stitch_times : Q;
  st_patch_size : Z;
  st_step_size : Z }.

Definition set_df (d : DataFrame) (st : State) : State :=
  {| df := d; fs := fs st; seg_times := seg_times st; patch_times := patch_times st;
     stitch_times := stitch_times st; st_patch_size := st_patch_size st;
     st_step_size := st_step_size st |}.

Definition set_geometry (p s : Z) (st : State) : State :=
  {| df := df st; fs := fs st; seg_times := seg_times st; patch_times := patch_times st;
     stitch_times := stitch_times st; st_patch_size := p; st_step_size := s |}.

Definition add_files (new : list string) (st : State) : State :=
  {| df := df st; fs := new ++ fs st; seg_times := seg_times st;
     patch_times := patch_times st; stitch_times := stitch_times st;
     st_patch_size := st_patch_size st; st_step_size := st_step_size st |}.

Definition add_times (s p t : Q) (st : State) : State :=
  {| df := df st; fs := fs st; seg_times := (seg_times st + s)%Q;
     patch_times := (patch_times st + p)%Q; stitch_times := (stitch_times st + t)%Q;
     st_patch_size := st_patch_size st; st_step_size := st_step_size st |}.

(** How one iteration ends: with [continue] or by falling off the end of the
    body ([Next], with the reason), or with an exception nobody catches. *)
Inductive disposition :=
| AlreadyExist                       (* auto-skip *)
| OpenFailed                         (* [WholeSlideImage(full_path)] raised *)
| FailedSeg                          (* the size guard *)
| SegmentFailed                      (* [segment] raised *)
| MppRaised                          (* [_get_mpp_tiffslide] raised *)
| NoSpacing                          (* no reader gave a spacing *)
| Processed (seg_t patch_t stitch_t : Q).

Inductive flow :=
| Next (d : disposition)
| Raise (e : Py.exn).

(** ** Parameter resolution (lines 189-254) *)

Record Current := {
  c_vis : VisParams;
  c_filter : FilterParams;
  c_seg : SegParams;
  c_patch : PatchParams }.

(** The legacy branch of the filter loop (lines 208-211), on the row as it
    is when the loop runs. *)
Definition adjusted_area (wsi : WSI) (r : SlideRecord) : Py.result Z :=
  match Py.index (level_downsamples wsi) (seg_level (seg r)) with
  | Py.Err e => Py.Err e
  | Py.Ok scale =>
      match a r with
      | None => Py.Err Py.ValueError
      | Some old_area =>
          Py.Ok (Py.int (old_area * (fst scale * snd scale) / inject_Z (512 * 512))%Q)
      end
  end.

(** Lines 189-222.  The data frame comes back in both cases: the writes made
    before an exception stay. *)
Definition resolve_params (cfg : Config) (legacy_support : bool) (wsi : WSI)
    (d : DataFrame) (idx : nat) : DataFrame * Py.result Current :=
  if use_default_params cfg then
    (d, Py.Ok {| c_vis := vis_params cfg; c_filter := filter_params cfg;
                 c_seg := seg_params cfg; c_patch := patch_params cfg |})
  else
    (* for key in vis_params.keys() *)
    let d1 := if legacy_support then loc_set (set_vis_level (-1)) idx d else d in
    match loc d1 idx with
    | Py.Err e => (d1, Py.Err e)
    | Py.Ok r1 =>
        (* for key in filter_params.keys() *)
        let area := if legacy_support then
                      match adjusted_area wsi r1 with
                      | Py.Ok v => Py.Ok (loc_set (set_a_t v) idx d1)
                      | Py.Err e => Py.Err e
                      end
                    else Py.Ok d1 in
        match area with
        | Py.Err e => (d1, Py.Err e)
        | Py.Ok d2 =>
            match loc d2 idx with
            | Py.Err e => (d2, Py.Err e)
            | Py.Ok r2 =>
                (* for key in seg_params.keys() *)
                let d3 := if legacy_support then loc_set (set_seg_level (-1)) idx d2 else d2 in
                match loc d3 idx with
                | Py.Err e => (d3, Py.Err e)
                | Py.Ok r3 =>
                    (d3, Py.Ok {| c_vis := vis r1; c_filter := filt r2;
                                  c_seg := seg r3; c_patch := pat r3 |})
                end
            end
        end
    end.

(** Lines 224-240: a negative level is chosen automatically. *)
Definition auto_level (wsi : WSI) (lvl : Z) : Z :=
  if lvl <? 0 then
    if (length (level_dim wsi) =? 1)%nat then 0
    else get_best_level_for_downsample_64 wsi
  else lvl.

(** Lines 242-254, for one of the two keys. *)
Definition resolve_ids (ids : string) : Py.result (list Z) :=
  if negb (String.eqb ids "none") && (0 <? String.length ids)%nat
  then Py.astype_int (Py.split "," ids)
  else Py.Ok [].

Definition seg_args (c : SegParams) (lvl : Z) (keep excl : list Z) : SegArgs :=
  {| sa_seg_level := lvl; sa_sthresh := sthresh c; sa_mthresh := mthresh c;
     sa_close := close c; sa_use_otsu := use_otsu c;
     sa_keep_ids := keep; sa_exclude_ids := excl |}.

(** [w * h > 1e8] *)
Definition too_large (dim : Z * Z) : bool := 100000000 <? fst dim * snd dim.

(** ** Physical spacing (lines 290-328) *)

Inductive spacing :=
| SpacingRaised                 (* the first reader raised: [continue] *)
| SpacingNone                   (* [slide_mpp is None]: [continue] *)
| SpacingFound (slide_mpp : Q).

(** The two readers in the order of the source, with the events of the
    calls made. *)
Definition get_spacing (w : World) (full_path : string) : list event * spacing :=
  match _get_mpp_tiffslide w full_path with
  | Py.Err _ => ([EvMppTiffslide full_path], SpacingRaised)
  | Py.Ok (Some slide_mpp) => ([EvMppTiffslide full_path], SpacingFound slide_mpp)
  | Py.Ok None =>
      ([EvMppTiffslide full_path; EvMppOpenslide full_path],
       match _get_mpp_openslide w full_path with
       | Py.Ok (Some slide_mpp) => SpacingFound slide_mpp
       | _ => SpacingNone
       end)
  end.

(** Lines 316-317. *)
Definition spaced_patch_size (orig_patch_size : Z) (patch_spacing slide_mpp : Q) : Z :=
  Py.round (inject_Z orig_patch_size * patch_spacing / slide_mpp)%Q.

(** ** The stages (lines 269-361) *)

Definition h5_path (cfg : Config) (slide : string) : string :=
  Py.path_join (patch_save_dir cfg) (Py.splitext_root slide ++ ".h5")%string.

Definition full_path_of (cfg : Config) (slide : string) : string :=
  Py.path_join (source cfg) slide.

(** Lines 269-277.  [None] is the [except] branch. *)
Definition stage_segment (cfg : Config) (w : World) (full_path : string)
    (sa : SegArgs) (fp : FilterParams) : list event * option Q :=
  if do_seg cfg then ([EvSegment full_path sa fp], segmentTissue w full_path sa fp)
  else ([], Some (-1 # 1)).

(** Lines 279-282.  [false] is an exception of [visWSI] or [mask.save]. *)
Definition stage_mask (cfg : Config) (w : World) (slide full_path : string)
    (vp : VisParams) : list event * bool :=
  if save_mask cfg then
    ([EvSaveMask full_path vp
        (Py.path_join (mask_save_dir cfg) (Py.splitext_root slide ++ ".jpg")%string)],
     visWSI w full_path vp)
  else ([], true).

Definition patch_args (cfg : Config) (st : State) (cp : PatchParams) : PatchArgs :=
  {| pa_use_padding := use_padding cp; pa_contour_fn := contour_fn cp;
     pa_patch_level := patch_level cfg; pa_patch_size := st_patch_size st;
     pa_step_size := st_step_size st; pa_save_path := patch_save_dir cfg |}.

(** Lines 290-328: the geometry of this slide, or the way the iteration
    ends. *)
Definition stage_geometry (cfg : Config) (w : World) (st : State)
    (full_path : string) : list event * (State + flow) :=
  match patch_spacing cfg with
  | None => ([], inl st)
  | Some sp =>
      let '(evs, s) := get_spacing w full_path in
      match s with
      | SpacingRaised => (evs, inr (Next MppRaised))
      | SpacingNone => (evs, inr (Next NoSpacing))
      | SpacingFound slide_mpp =>
          if Qeq_bool slide_mpp 0 then (evs, inr (Raise Py.ZeroDivisionError))
          else
            let p := spaced_patch_size (patch_size cfg) sp slide_mpp in
            (evs, inl (set_geometry p p st))
      end
  end.

(** Lines 284-342.  On the left the elapsed time of the stage. *)
Definition stage_patch (cfg : Config) (w : World) (st : State)
    (full_path : string) (cp : PatchParams) : State * list event * (Q + flow) :=
  if do_patch cfg then
    match stage_geometry cfg w st full_path with
    | (evs, inr fl) => (st, evs, inr fl)
    | (evs, inl st1) =>
        let args := patch_args cfg st1 cp in
        match process_contours w full_path args with
        | None => (st1, evs ++ [EvPatching full_path args], inr (Raise Py.CollaboratorError))
        | Some (created, t) =>
            (add_files created st1, evs ++ [EvPatching full_path args], inl t)
        end
    end
  else (st, [], inl (-1 # 1)%Q).

(** Lines 344-352.  [None] is an exception of [stitching] or of the save. *)
Definition stage_stitch (cfg : Config) (w : World) (st : State)
    (slide : string) : list event * option Q :=
  if do_stitch cfg then
    let file_path := h5_path cfg slide in
    if Py.isfile (fs st) file_path then
      ([EvStitching file_path
          (Py.path_join (stitch_save_dir cfg) (Py.splitext_root slide ++ ".jpg")%string)],
       StitchCoords w file_path)
    else ([], Some (-1 # 1))
  else ([], Some (-1 # 1)).

(** Lines 269-361: everything after the levels are written back. *)
Definition run_stages (cfg : Config) (w : World) (st : State) (idx : nat)
    (slide : string) (vp : VisParams) (sa : SegArgs) (fp : FilterParams)
    (cp : PatchParams) : State * list event * flow :=
  let full_path := full_path_of cfg slide in
  match stage_segment cfg w full_path sa fp with
  | (ev_seg, None) => (st, ev_seg, Next SegmentFailed)
  | (ev_seg, Some seg_time_elapsed) =>
      match stage_mask cfg w slide full_path vp with
      | (ev_mask, false) => (st, ev_seg ++ ev_mask, Raise Py.CollaboratorError)
      | (ev_mask, true) =>
          match stage_patch cfg w st full_path cp with
          | (st1, ev_patch, inr fl) => (st1, ev_seg ++ ev_mask ++ ev_patch, fl)
          | (st1, ev_patch, inl patch_time_elapsed) =>
              match stage_stitch cfg w st1 slide with
              | (ev_stitch, None) =>
                  (st1, ev_seg ++ ev_mask ++ ev_patch ++ ev_stitch,
                   Raise Py.CollaboratorError)
              | (ev_stitch, Some stitch_time_elapsed) =>
                  let st2 := set_df (loc_set (set_status "processed") idx (df st1)) st1 in
                  (add_times seg_time_elapsed patch_time_elapsed stitch_time_elapsed st2,
                   ev_seg ++ ev_mask ++ ev_patch ++ ev_stitch,
                   Next (Processed seg_time_elapsed patch_time_elapsed stitch_time_elapsed))
              end
          end
      end
  end.

(** ** One iteration (lines 165-361) *)

(** What lines 189-256 compute for a slide that opened. *)
Record Resolved := {
  rs_wsi : WSI;
  rs_cur : Current;
  rs_vis_level : Z;
  rs_seg_level : Z;
  rs_keep_ids : list Z;
  rs_exclude_ids : list Z;
  rs_dim : Z * Z }.

(** Lines 170-256: the flag, auto-skip, the slide, the parameters, the
    levels, the id lists and the dimensions of the segmentation level. *)
Definition prepare (cfg : Config) (w : World) (legacy_support : bool)
    (st : State) (idx : nat) (slide : string) : State * list event * (Resolved + flow) :=
  let st := set_df (loc_set (set_process 0) idx (df st)) st in
  if auto_skip cfg && Py.isfile (fs st) (h5_path cfg slide) then
    (set_df (loc_set (set_status "already_exist") idx (df st)) st, [], inr (Next AlreadyExist))
  else
    let full_path := full_path_of cfg slide in
    match WholeSlideImage w full_path with
    | None => (st, [EvOpen full_path], inr (Next OpenFailed))
    | Some wsi =>
        let '(d1, cur) := resolve_params cfg legacy_support wsi (df st) idx in
        let st := set_df d1 st in
        match cur with
        | Py.Err e => (st, [EvOpen full_path], inr (Raise e))
        | Py.Ok cur =>
            let vis_lvl := auto_level wsi (vis_level (c_vis cur)) in
            let seg_lvl := auto_level wsi (seg_level (c_seg cur)) in
            match resolve_ids (keep_ids (c_seg cur)) with
            | Py.Err e => (st, [EvOpen full_path], inr (Raise e))
            | Py.Ok keep =>
                match resolve_ids (exclude_ids (c_seg cur)) with
                | Py.Err e => (st, [EvOpen full_path], inr (Raise e))
                | Py.Ok excl =>
                    match Py.index (level_dim wsi) seg_lvl with
                    | Py.Err e => (st, [EvOpen full_path], inr (Raise e))
                    | Py.Ok dim =>
                        (st, [EvOpen full_path],
                         inl {| rs_wsi := wsi; rs_cur := cur; rs_vis_level := vis_lvl;
                                rs_seg_level := seg_lvl; rs_keep_ids := keep;
                                rs_exclude_ids := excl; rs_dim := dim |})
                    end
                end
            end
        end
    end.

(** The arguments of the stages, from what was resolved. *)
Definition vis_args (R : Resolved) : VisParams :=
  {| vis_level := rs_vis_level R; line_thickness := line_thickness (c_vis (rs_cur R)) |}.

Definition segment_args (R : Resolved) : SegArgs :=
  seg_args (c_seg (rs_cur R)) (rs_seg_level R) (rs_keep_ids R) (rs_exclude_ids R).

(** Lines 266-267. *)
Definition write_back (R : Resolved) (idx : nat) (st : State) : State :=
  set_df (loc_set (set_seg_level (rs_seg_level R)) idx
            (loc_set (set_vis_level (rs_vis_level R)) idx (df st))) st.

Definition process_item (cfg : Config) (w : World) (legacy_support : bool)
    (st : State) (idx : nat) (slide : string) : State * list event * flow :=
  match prepare cfg w legacy_support st idx slide with
  | (st1, evs, inr fl) => (st1, evs, fl)
  | (st1, evs, inl R) =>
      (* lines 256-264 *)
      if too_large (rs_dim R) then
        (set_df (loc_set (set_status "failed_seg") idx (df st1)) st1, evs, Next FailedSeg)
      else
        let '(st2, evs', fl) :=
          run_stages cfg w (write_back R idx st1) idx slide
            (vis_args R) (segment_args R) (c_filter (rs_cur R)) (c_patch (rs_cur R)) in
        (st2, evs ++ evs', fl)
  end.

(** ** The loop and the run (lines 126-372) *)

(** [process_stack = df[df["process"] == 1]]: row labels and slide names. *)
Fixpoint select_from (i : nat) (rs : list SlideRecord) : list (nat * string) :=
  match rs with
  | [] => []
  | r :: rs' =>
      if process r =? 1 then (i, slide_id r) :: select_from (S i) rs'
      else select_from (S i) rs'
  end.

Definition process_stack (d : DataFrame) : list (nat * string) :=
  select_from 0 (rows d).

(** [numpy.full(n, int(v), dtype=numpy.uint32)]: 32 bits, wrapping. *)
Definition uint32 (v : Z) : Z := v mod 2 ^ 32.

(** Lines 143-155: with the legacy column, five columns are overwritten
    with the defaults, in every row. *)
Definition legacy_assign (cfg : Config) (r : SlideRecord) : SlideRecord :=
  {| slide_id := slide_id r; process := process r; status := status r; seg := seg r;
     filt := {| a_t := uint32 (a_t (filter_params cfg));
                a_h := uint32 (a_h (filter_params cfg));
                max_n_holes := uint32 (max_n_holes (filter_params cfg)) |};
     vis := {| vis_level := vis_level (vis r);
               line_thickness := uint32 (line_thickness (vis_params cfg)) |};
     pat := {| use_padding := use_padding (pat r);
               contour_fn := contour_fn (patch_params cfg) |};
     a := a r |}.

(** One iteration as the loop ran it: where it started, the calls it made,
    how it ended and what it left. *)
Record Step := {
  s_idx : nat;
  s_slide : string;
  s_pre : State;
  s_events : list event;
  s_flow : flow;
  s_post : State }.

Fixpoint loop (cfg : Config) (w : World) (legacy_support : bool)
    (stack : list (nat * string)) (st : State) : list Step :=
  match stack with
  | [] => []
  | (idx, slide) :: rest =>
      let '(st', evs, fl) := process_item cfg w legacy_support st idx slide in
      let step := {| s_idx := idx; s_slide := slide; s_pre := st; s_events := evs;
                     s_flow := fl; s_post := st' |} in
      match fl with
      | Raise _ => [step]
      | Next _ => step :: loop cfg w legacy_support rest st'
      end
  end.

Definition final_state (st0 : State) (steps : list Step) : State :=
  match last steps with
  | Some s => s_post s
  | None => st0
  end.

Definition raised (steps : list Step) : option Py.exn :=
  match last steps with
  | Some s => match s_flow s with Raise e => Some e | Next _ => None end
  | None => None
  end.

(** What the run prints at its end (and returns, for the first two). *)
Record Averages := { avg_seg : Q; avg_patch : Q; avg_stitch : Q }.

Inductive outcome :=
| Returned (avg : Averages)
| Raised (e : Py.exn).

Record Run := {
  r_total : nat;
  r_init : State;
  r_steps : list Step;
  r_final : State;
  r_outcome : outcome }.

Definition initial_state (cfg : Config) (w : World) (df0 : DataFrame) : State :=
  {| df := if has_a df0
           then {| has_a := has_a df0; rows := map (legacy_assign cfg) (rows df0) |}
           else df0;
     fs := files w; seg_times := 0; patch_times := 0; stitch_times := 0;
     st_patch_size := patch_size cfg; st_step_size := step_size cfg |}.

(** [seg_and_patch], from the data frame that [initialize_df] returns. *)
Definition seg_and_patch (cfg : Config) (w : World) (df0 : DataFrame) : Run :=
  let stack := process_stack df0 in
  let total := length stack in
  let legacy_support := has_a df0 in
  let st0 := initial_state cfg w df0 in
  let steps := loop cfg w legacy_support stack st0 in
  let st := final_state st0 steps in
  {| r_total := total; r_init := st0; r_steps := steps; r_final := st;
     r_outcome :=
       match raised steps with
       | Some e => Raised e
       | None =>
           if (total =? 0)%nat then Raised Py.ZeroDivisionError
           else
             let n := inject_Z (Z.of_nat total) in
             Returned {| avg_seg := (seg_times st / n)%Q;
                         avg_patch := (patch_times st / n)%Q;
                         avg_stitch := (stitch_times st / n)%Q |}
       end |}.

(** The file the data frame is written to (lines 164 and 367). *)
Definition csv_path (cfg : Config) : string :=
  Py.path_join (save_dir cfg) "process_list_autogen.csv".

(** The calls of one iteration, the write of line 164 first. *)
Definition step_trace (cfg : Config) (s : Step) : list event :=
  EvToCsv (csv_path cfg) (df (s_pre s)) :: s_events s.

(** The calls of a run whose loop made the iterations [steps] and whose
    last write, if line 367 was reached, carried [fin]. *)
Definition trace_of (cfg : Config) (steps : list Step) (fin : option DataFrame) : list event :=
  concat (map (step_trace cfg) steps) ++
  match fin with
  | Some d => [EvToCsv (csv_path cfg) d]
  | None => []
  end.

(** The data frame that line 367 writes, when the run gets there. *)
Definition final_write (r : Run) : option DataFrame :=
  match r_outcome r with
  | Returned _ => Some (df (r_final r))
  | Raised _ => None
  end.

(** Every call of the run, in order. *)
Definition trace (cfg : Config) (r : Run) : list event :=
  trace_of cfg (r_steps r) (final_write r).

(** ** A concrete batch

    Three slides in [slides/]: [a.svs] has its coordinate file already,
    [b.svs] does not open, [c.svs] goes through every enabled stage.  The
    arguments are those of the command line (segmentation and patching on,
    stitching off, spacing 0.5). *)

Module Demo.

Definition seg0 : SegParams :=
  {| seg_level := -1; sthresh := 8; mthresh := 7; close := 4; use_otsu := false;
     keep_ids := "none"; exclude_ids := "none" |}.
Definition filter0 : FilterParams := {| a_t := 100; a_h := 16; max_n_holes := 8 |}.
Definition vis0 : VisParams := {| vis_level := -1; line_thickness := 250 |}.
Definition patch0 : PatchParams := {| use_padding := true; contour_fn := "four_pt" |}.

Definition cfg : Config :=
  {| source := "slides"; save_dir := "out"; patch_save_dir := "out/patches";
     mask_save_dir := "out/masks"; stitch_save_dir := "out/stitches";
     patch_size := 256; step_size := 256;
     seg_params := seg0; filter_params := filter0; vis_params := vis0;
     patch_params := patch0; patch_level := 0; use_default_params := false;
     do_seg := true; save_mask := true; do_stitch := false; do_patch := true;
     auto_skip := true; patch_spacing := Some (1 # 2) |}.

(** The row [initialize_df] makes for a slide. *)
Definition row (name : string) : SlideRecord :=
  {| slide_id := name; process := 1; status := "tbp"; seg := seg0; filt := filter0;
     vis := vis0; pat := patch0; a := None |}.

Definition df0 : DataFrame :=
  {| has_a := false; rows := [row "a.svs"; row "b.svs"; row "c.svs"] |}.

(** A three-level pyramid, the lowest level 2500 x 1875. *)
Definition pyramid : WSI :=
  {| level_dim := [(40000, 30000); (10000, 7500); (2500, 1875)];
     level_downsamples := [(1, 1); (4, 4); (16, 16)]%Q;
     get_best_level_for_downsample_64 := 2 |}.

Definition mpp_quarter : Properties :=
  {| mpp_x := Some (PFloat (1 # 4)); mpp_y := Some (PFloat (1 # 4)) |}.

Definition world : World :=
  {| WholeSlideImage := fun p => if String.eqb p "slides/b.svs" then None else Some pyramid;
     segmentTissue := fun _ _ _ => Some (6 # 1);
     visWSI := fun _ _ => true;
     process_contours := fun _ _ => Some (["out/patches/c.h5"], 3 # 1);
     StitchCoords := fun _ => Some (1 # 1);
     TiffSlide := fun _ => Some mpp_quarter;
     OpenSlide := fun _ => Some mpp_quarter;
     files := ["out/patches/a.h5"] |}.

Definition run : Run := seg_and_patch cfg world df0.


(** A legacy data frame: the column [a] holds an absolute area; [lvl] is
    the stored segmentation level (-1 when the file had no such column and
    [initialize_df] filled in the default). *)
Definition legacy_row (name : string) (area : Q) (lvl : Z) : SlideRecord :=
  {| slide_id := name; process := 1; status := "tbp";
     seg := {| seg_level := lvl; sthresh := 8; mthresh := 7; close := 4;
               use_otsu := false; keep_ids := "3,5,9"; exclude_ids := "" |};
     filt := filter0; vis := vis0; pat := patch0; a := Some area |}.

Definition legacy_df (area : Q) (lvl : Z) : DataFrame :=
  {| has_a := true; rows := [legacy_row "c.svs" area lvl] |}.

(** A two-level pyramid, the last level with downsample 4 x 4. *)
Definition two_levels : WSI :=
  {| level_dim := [(40000, 30000); (10000, 7500)];
     level_downsamples := [(1, 1); (4, 4)]%Q;
     get_best_level_for_downsample_64 := 1 |}.

Definition world_two_levels : World :=
  {| WholeSlideImage := fun _ => Some two_levels; segmentTissue := segmentTissue world;
     visWSI := visWSI world; process_contours := process_contours world;
     StitchCoords := StitchCoords world; TiffSlide := TiffSlide world;
     OpenSlide := OpenSlide world; files := [] |}.

(** A slide with a single level of 20000 x 20000 pixels. *)
Definition huge : WSI :=
  {| level_dim := [(20000, 20000)]; level_downsamples := [(1, 1)]%Q;
     get_best_level_for_downsample_64 := 0 |}.

Definition world_huge : World :=
  {| WholeSlideImage := fun _ => Some huge; segmentTissue := segmentTissue world;
     visWSI := visWSI world; process_contours := process_contours world;
     StitchCoords := StitchCoords world; TiffSlide := TiffSlide world;
     OpenSlide := OpenSlide world; files := [] |}.

End Demo.

(** ** Predicates used in the statements *)

(** Two data frames that differ at most in row [idx]. *)
Definition same_elsewhere (idx : nat) (d d' : DataFrame) : Prop :=
  has_a d' = has_a d /\
  length (rows d') = length (rows d) /\
  forall j, j <> idx -> rows d' !! j = rows d !! j.

(** A row after writes to the level and threshold columns only. *)
Definition keeps (r r' : SlideRecord) : Prop :=
  slide_id r' = slide_id r /\ process r' = process r /\
  status r' = status r /\ a r' = a r.

(** The status column of a row before ([r]) and after ([r']) an iteration
    that ended with [fl]. *)
Definition status_after (fl : flow) (r r' : SlideRecord) : Prop :=
  match fl with
  | Next AlreadyExist => status r' = "already_exist"
  | Next FailedSeg => status r' = "failed_seg"
  | Next (Processed _ _ _) => status r' = "processed"
  | _ => status r' = status r
  end.

(** What an iteration that ended with [fl] adds to the three timers. *)
Definition added_times (fl : flow) : Q * Q * Q :=
  match fl with
  | Next (Processed s p t) => (s, p, t)
  | _ => (0, 0, 0)%Q
  end.

(** The timers of [st'] are those of [st] plus what [fl] adds; an iteration
    that does not reach line 359 leaves them as they are. *)
Definition timers_after (fl : flow) (st st' : State) : Prop :=
  match fl with
  | Next (Processed s p t) =>
      seg_times st' = (seg_times st + s)%Q /\
      patch_times st' = (patch_times st + p)%Q /\
      stitch_times st' = (stitch_times st + t)%Q
  | _ =>
      seg_times st' = seg_times st /\ patch_times st' = patch_times st /\
      stitch_times st' = stitch_times st
  end.

(** An entry of [loop] is an iteration of the body. *)
Definition step_ok (cfg : Config) (w : World) (legacy_support : bool) (s : Step) : Prop :=
  process_item cfg w legacy_support (s_pre s) (s_idx s) (s_slide s)
  = (s_post s, s_events s, s_flow s).

(** The calls of the two metadata readers, and the calls of [patching]. *)
Definition is_spacing_call (e : event) : bool :=
  match e with
  | EvMppTiffslide _ | EvMppOpenslide _ => true
  | _ => false
  end.

Definition is_patching_call (e : event) : bool :=
  match e with
  | EvPatching _ _ => true
  | _ => false
  end.

Definition is_write (e : event) : bool :=
  match e with
  | EvToCsv _ _ => true
  | _ => false
  end.

(** Calls that are none of these. *)
Definition other_calls (evs : list event) : Prop :=
  forall e, In e evs ->
    is_spacing_call e = false /\ is_patching_call e = false /\ is_write e = false.

(** The content of the checkpoint file after the calls [evs], when it was
    [cur] before them ([None]: not written yet in this run). *)
Fixpoint stored_after (cur : option DataFrame) (evs : list event) : option DataFrame :=
  match evs with
  | [] => cur
  | EvToCsv _ d :: rest => stored_after (Some d) rest
  | _ :: rest => stored_after cur rest
  end.

Definition stored (evs : list event) : option DataFrame := stored_after None evs.

(** How many times the data frame was written during [evs]. *)
Definition writes (evs : list event) : nat := length (List.filter is_write evs).



(** Sums of elapsed times. *)
Definition Qsum (l : list Q) : Q := fold_right Qplus 0%Q l.

Definition seg_added (s : Step) : Q := (added_times (s_flow s)).1.1.
Definition patch_added (s : Step) : Q := (added_times (s_flow s)).1.2.
Definition stitch_added (s : Step) : Q := (added_times (s_flow s)).2.

(** The reading of the specification, to compare with [added_times]: an
    iteration that does not complete counts as -1 for each stage. *)
Definition claimed_times (fl : flow) : Q * Q * Q :=
  match fl with
  | Next (Processed s p t) => (s, p, t)
  | _ => (-1 # 1, -1 # 1, -1 # 1)
  end.

From Stdlib Require Import Sorted.

(** ** The command line (lines 375-484) *)

(** The namespace that [parser.parse_args()] returns; [save_dir] and
    [source] are the strings the user gave. *)
Record Args := {
  arg_source : string;
  arg_step_size : Z;
  arg_patch_size : Z;
  arg_patch : bool;
  arg_seg : bool;
  arg_stitch : bool;
  arg_no_auto_skip : bool;
  arg_save_dir : string;
  arg_preset : option string;
  arg_patch_level : Z;
  arg_process_list : option string;
  arg_patch_spacing : Q }.

(** The defaults of lines 376-401, for a given [--source] and
    [--save_dir]. *)
Definition default_args (src dir : string) : Args :=
  {| arg_source := src; arg_step_size := 256; arg_patch_size := 256;
     arg_patch := false; arg_seg := false; arg_stitch := false;
     arg_no_auto_skip := true; arg_save_dir := dir; arg_preset := None;
     arg_patch_level := 0; arg_process_list := None; arg_patch_spacing := 1 # 4 |}.





(** ** More of the concrete batch *)

Module Demo2.

(** Two slides with the same stem, and nothing on disk yet. *)
Definition twins : DataFrame :=
  {| has_a := false; rows := [Demo.row "c.svs"; Demo.row "c.tif"] |}.

Definition world_empty : World :=
  {| WholeSlideImage := fun _ => Some Demo.pyramid;
     segmentTissue := segmentTissue Demo.world;
     visWSI := visWSI Demo.world; process_contours := process_contours Demo.world;
     StitchCoords := StitchCoords Demo.world; TiffSlide := TiffSlide Demo.world;
     OpenSlide := OpenSlide Demo.world; files := [] |}.

(** A row whose [keep_ids] has an empty element. *)
Definition bad_ids_row (name : string) : SlideRecord :=
  {| slide_id := name; process := 1; status := "tbp";
     seg := {| seg_level := -1; sthresh := 8; mthresh := 7; close := 4;
               use_otsu := false; keep_ids := "3,,5"; exclude_ids := "none" |};
     filt := Demo.filter0; vis := Demo.vis0; pat := Demo.patch0; a := None |}.

Definition bad_ids : DataFrame :=
  {| has_a := false; rows := [bad_ids_row "c.svs"; Demo.row "d.svs"] |}.

(** A row that asks for level 7 of a three-level slide. *)
Definition bad_level_row (name : string) : SlideRecord :=
  {| slide_id := name; process := 1; status := "tbp";
     seg := {| seg_level := 7; sthresh := 8; mthresh := 7; close := 4;
               use_otsu := false; keep_ids := "none"; exclude_ids := "none" |};
     filt := Demo.filter0; vis := Demo.vis0; pat := Demo.patch0; a := None |}.

Definition bad_level : DataFrame :=
  {| has_a := false; rows := [bad_level_row "c.svs"; Demo.row "d.svs"] |}.

(** A slide whose properties give a spacing of zero. *)
Definition mpp_zero : Properties :=
  {| mpp_x := Some (PFloat 0); mpp_y := Some (PFloat 0) |}.

Definition world_zero_mpp : World :=
  {| WholeSlideImage := fun _ => Some Demo.pyramid;
     segmentTissue := segmentTissue Demo.world;
     visWSI := visWSI Demo.world; process_contours := process_contours Demo.world;
     StitchCoords := StitchCoords Demo.world; TiffSlide := fun _ => Some mpp_zero;
     OpenSlide := OpenSlide Demo.world; files := [] |}.

(** The configuration of the batch with the sizes in pixels. *)
Definition cfg_pixels : Config :=
  {| source := "slides"; save_dir := "out"; patch_save_dir := "out/patches";
     mask_save_dir := "out/masks"; stitch_save_dir := "out/stitches";
     patch_size := 256; step_size := 128;
     seg_params := Demo.seg0; filter_params := Demo.filter0; vis_params := Demo.vis0;
     patch_params := Demo.patch0; patch_level := 0; use_default_params := false;
     do_seg := true; save_mask := true; do_stitch := true; do_patch := true;
     auto_skip := true; patch_spacing := None |}.

(** The same with the defaults instead of the rows. *)
Definition cfg_defaults : Config :=
  {| source := "slides"; save_dir := "out"; patch_save_dir := "out/patches";
     mask_save_dir := "out/masks"; stitch_save_dir := "out/stitches";
     patch_size := 256; step_size := 128;
     seg_params := Demo.seg0; filter_params := Demo.filter0; vis_params := Demo.vis0;
     patch_params := Demo.patch0; patch_level := 0; use_default_params := true;
     do_seg := true; save_mask := true; do_stitch := true; do_patch := true;
     auto_skip := true; patch_spacing := None |}.

(** Stitching without patching. *)
Definition cfg_stitch_only : Config :=
  {| source := "slides"; save_dir := "out"; patch_save_dir := "out/patches";
     mask_save_dir := "out/masks"; stitch_save_dir := "out/stitches";
     patch_size := 256; step_size := 256;
     seg_params := Demo.seg0; filter_params := Demo.filter0; vis_params := Demo.vis0;
     patch_params := Demo.patch0; patch_level := 0; use_default_params := false;
     do_seg := false; save_mask := true; do_stitch := true; do_patch := false;
     auto_skip := true; patch_spacing := None |}.

(** A data frame with a row that is not selected. *)
Definition partly_done : DataFrame :=
  {| has_a := false;
     rows := [set_status "processed" (set_process 0 (Demo.row "a.svs"));
              Demo.row "c.svs"] |}.

(** The command line [--source slides --save_dir out --seg --patch
    --step_size 64]. *)
Definition args : Args :=
  {| arg_source := "slides"; arg_step_size := 64; arg_patch_size := 256;
     arg_patch := true; arg_seg := true; arg_stitch := false;
     arg_no_auto_skip := true; arg_save_dir := "out"; arg_preset := None;
     arg_patch_level := 0; arg_process_list := None; arg_patch_spacing := 1 # 4 |}.

End Demo2.

(** Proof automation for the frame lemmas. *)
Create HintDb frame.

Local Ltac split4 :=
  refine (conj _ (conj _ (conj _ _)));
  [auto with frame | by repeat split | done |].

(** * Properties *)

(** ** Writes to one row *)

Lemma same_elsewhere_refl idx d : same_elsewhere idx d d.
Proof. by repeat split. Qed.

Lemma same_elsewhere_trans idx d1 d2 d3 :
  same_elsewhere idx d1 d2 -> same_elsewhere idx d2 d3 -> same_elsewhere idx d1 d3.
Proof.
  intros (Ha & Hl & Hr) (Ha' & Hl' & Hr'). repeat split.
  - congruence.
  - congruence.
  - intros j Hj. rewrite Hr' by done. by apply Hr.
Qed.

Lemma same_elsewhere_loc_set f idx d : same_elsewhere idx d (loc_set f idx d).
Proof.
  repeat split; simpl.
  - apply length_alter.
  - intros j Hj. apply list_lookup_alter_ne. congruence.
Qed.

Lemma loc_set_lookup f idx d r :
  rows d !! idx = Some r -> rows (loc_set f idx d) !! idx = Some (f r).
Proof. intros H. simpl. by rewrite list_lookup_alter_eq, H. Qed.

Lemma loc_Ok d idx r : rows d !! idx = Some r -> loc d idx = Py.Ok r.
Proof. intros H. unfold loc. by rewrite H. Qed.

Lemma keeps_refl r : keeps r r.
Proof. by repeat split. Qed.

#[local] Hint Resolve same_elsewhere_refl same_elsewhere_loc_set keeps_refl : frame.

(** Lines 189-222 write to row [idx] only, and never to its flag, status,
    name or legacy area. *)
Lemma resolve_params_frame cfg legacy wsi d idx :
  same_elsewhere idx d (resolve_params cfg legacy wsi d idx).1.
Proof.
  unfold resolve_params.
  destruct (use_default_params cfg); simpl; [auto with frame|].
  set (d1 := if legacy then _ else d).
  assert (H1 : same_elsewhere idx d d1) by (subst d1; destruct legacy; auto with frame).
  destruct (loc d1 idx) as [r1|e]; simpl; [|done].
  destruct legacy; simpl.
  - destruct (adjusted_area wsi r1) as [v|e]; simpl; [|done].
    set (d2 := loc_set (set_a_t v) idx d1).
    assert (H2 : same_elsewhere idx d d2)
      by (eapply same_elsewhere_trans; [exact H1|subst d2; auto with frame]).
    destruct (loc d2 idx) as [r2|e]; simpl; [|done].
    destruct (loc _ idx) as [r3|e]; simpl;
      (eapply same_elsewhere_trans; [exact H2|auto with frame]).
  - destruct (loc d1 idx) as [r2|e]; simpl; [|done].
    by destruct (loc d1 idx) as [r3|e]; simpl.
Qed.

Lemma resolve_params_row cfg legacy wsi d idx r :
  rows d !! idx = Some r ->
  exists r', rows (resolve_params cfg legacy wsi d idx).1 !! idx = Some r' /\ keeps r r'.
Proof.
  intros Hr. unfold resolve_params.
  destruct (use_default_params cfg); simpl; [eauto with frame|].
  destruct legacy.
  - pose proof (loc_set_lookup (set_vis_level (-1)) idx d r Hr) as H1.
    rewrite (loc_Ok _ _ _ H1).
    destruct (adjusted_area wsi _) as [v|e]; simpl.
    + pose proof (loc_set_lookup (set_a_t v) idx _ _ H1) as H2.
      rewrite (loc_Ok _ _ _ H2).
      pose proof (loc_set_lookup (set_seg_level (-1)) idx _ _ H2) as H3.
      rewrite (loc_Ok _ _ _ H3). simpl.
      eexists. split; [exact H3|]. by repeat split.
    + eexists. split; [exact H1|]. by repeat split.
  - rewrite (loc_Ok _ _ _ Hr). simpl. eauto with frame.
Qed.

(** Lines 170-256. *)
Lemma prepare_frame cfg w legacy st idx slide :
  same_elsewhere idx (df st) (df (prepare cfg w legacy st idx slide).1.1).
Proof.
  unfold prepare.
  assert (H1 : same_elsewhere idx (df st) (loc_set (set_process 0) idx (df st)))
    by auto with frame.
  simpl fs. simpl df.
  destruct (auto_skip cfg && _); simpl.
  { eapply same_elsewhere_trans; [exact H1|auto with frame]. }
  destruct (WholeSlideImage w _) as [wsi|]; simpl; [|done].
  pose proof (resolve_params_frame cfg legacy wsi (loc_set (set_process 0) idx (df st)) idx) as H2.
  destruct (resolve_params _ _ _ _ _) as [d1 [cur|e]]; simpl in H2.
  2: { eapply same_elsewhere_trans; [exact H1|exact H2]. }
  assert (H3 : same_elsewhere idx (df st) d1)
    by (eapply same_elsewhere_trans; [exact H1|exact H2]).
  repeat (match goal with |- context [match ?x with _ => _ end] => destruct x end; simpl; try done).
Qed.

Lemma prepare_vars cfg w legacy st idx slide :
  let st' := (prepare cfg w legacy st idx slide).1.1 in
  fs st' = fs st /\ seg_times st' = seg_times st /\ patch_times st' = patch_times st /\
  stitch_times st' = stitch_times st /\ st_patch_size st' = st_patch_size st /\
  st_step_size st' = st_step_size st.
Proof.
  unfold prepare. simpl.
  destruct (auto_skip cfg && _); simpl; [done|].
  destruct (WholeSlideImage w _) as [wsi|]; simpl; [|done].
  destruct (resolve_params _ _ _ _ _) as [d1 [cur|e]]; simpl; [|done].
  repeat (match goal with |- context [match ?x with _ => _ end] => destruct x end; simpl; try done).
Qed.

(** Lines 170-256 end the iteration in three ways only. *)
Lemma prepare_flow cfg w legacy st idx slide :
  match (prepare cfg w legacy st idx slide).2 with
  | inl _ | inr (Next AlreadyExist) | inr (Next OpenFailed) | inr (Raise _) => True
  | inr _ => False
  end.
Proof.
  unfold prepare.
  destruct (auto_skip cfg && _); simpl; [done|].
  destruct (WholeSlideImage w _) as [wsi|]; simpl; [|done].
  destruct (resolve_params _ _ _ _ _) as [d1 [cur|e]]; simpl; [|done].
  destruct (resolve_ids (keep_ids _)); simpl; [|done].
  destruct (resolve_ids (exclude_ids _)); simpl; [|done].
  by destruct (Py.index _ _).
Qed.

Lemma prepare_row cfg w legacy st idx slide r :
  rows (df st) !! idx = Some r ->
  exists r', rows (df (prepare cfg w legacy st idx slide).1.1) !! idx = Some r' /\
    process r' = 0 /\ slide_id r' = slide_id r /\ a r' = a r /\
    match (prepare cfg w legacy st idx slide).2 with
    | inr (Next AlreadyExist) => status r' = "already_exist"
    | _ => status r' = status r
    end.
Proof.
  intros Hr. unfold prepare.
  pose proof (loc_set_lookup (set_process 0) idx _ _ Hr) as H1.
  simpl fs. simpl df.
  destruct (auto_skip cfg && _); simpl.
  { rewrite list_lookup_alter_eq. simpl in H1. rewrite H1. simpl. eauto 10. }
  destruct (WholeSlideImage w _) as [wsi|]; simpl; [|eauto 10].
  destruct (resolve_params_row cfg legacy wsi _ idx _ H1) as (r' & Hr' & Hk).
  destruct (resolve_params _ _ _ _ _) as [d1 [cur|e]]; simpl in *.
  2: { destruct Hk as (? & ? & ? & ?). eauto 10. }
  destruct Hk as (? & ? & ? & ?).
  repeat (match goal with |- context [match ?x with _ => _ end] => destruct x end; simpl; eauto 10).
Qed.

(** ** The stages *)


(** Patching never touches the data frame or the timers, and ends the
    iteration only through the spacing branch or an exception. *)
Lemma stage_patch_spec cfg w st full_path cp st1 evs x :
  stage_patch cfg w st full_path cp = (st1, evs, x) ->
  df st1 = df st /\ seg_times st1 = seg_times st /\ patch_times st1 = patch_times st /\
  stitch_times st1 = stitch_times st /\
  match x with
  | inl _ | inr (Next MppRaised) | inr (Next NoSpacing) | inr (Raise _) => True
  | inr _ => False
  end.
Proof.
  unfold stage_patch, stage_geometry.
  destruct (do_patch cfg); [|by intros [= <- <- <-]].
  destruct (patch_spacing cfg) as [sp|].
  - destruct (get_spacing w full_path) as [ev [| |mpp]]; try by intros [= <- <- <-].
    destruct (Qeq_bool mpp 0); [by intros [= <- <- <-]|].
    destruct (process_contours w _ _) as [[created t]|]; by intros [= <- <- <-].
  - destruct (process_contours w _ _) as [[created t]|]; by intros [= <- <- <-].
Qed.

(** Lines 269-361 write the status of row [idx] when every stage is through,
    and nothing else in the data frame. *)
Lemma run_stages_spec cfg w st idx slide vp sa fp cp st' evs fl :
  run_stages cfg w st idx slide vp sa fp cp = (st', evs, fl) ->
  same_elsewhere idx (df st) (df st') /\ timers_after fl st st' /\
  match fl with
  | Next AlreadyExist | Next FailedSeg | Next OpenFailed => False
  | _ => True
  end /\
  forall r, rows (df st) !! idx = Some r ->
    exists r', rows (df st') !! idx = Some r' /\ process r' = process r /\
      slide_id r' = slide_id r /\ seg r' = seg r /\ vis r' = vis r /\
      filt r' = filt r /\ status_after fl r r'.
Proof.
  unfold run_stages.
  destruct (stage_segment _ _ _ _ _) as [ev_seg [t_seg|]].
  2: { intros [= <- <- <-]. split4.
       intros r Hr. exists r. by repeat split. }
  destruct (stage_mask _ _ _ _ _) as [ev_mask [|]].
  2: { intros [= <- <- <-]. split4.
       intros r Hr. exists r. by repeat split. }
  destruct (stage_patch _ _ _ _ _) as [[st1 ev_patch] x] eqn:Hp.
  apply stage_patch_spec in Hp as (Hd & Hs & Hpt & Hst & Hx).
  destruct x as [t_patch|fl1].
  - destruct (stage_stitch _ _ _ _) as [ev_stitch [t_stitch|]]; intros [= <- <- <-].
    + simpl. rewrite Hd, Hs, Hpt, Hst. split4.
      intros r Hr. rewrite list_lookup_alter_eq, Hr. simpl.
      eexists. by repeat split.
    + simpl. rewrite Hd. split4.
      intros r Hr. exists r. by repeat split.
  - intros [= <- <- <-]. rewrite Hd.
    destruct fl1 as [[]|]; try done; simpl; split4;
      intros r Hr; exists r; by repeat split.
Qed.

(** ** One iteration *)

Lemma process_item_frame cfg w legacy st idx slide :
  same_elsewhere idx (df st) (df (process_item cfg w legacy st idx slide).1.1).
Proof.
  unfold process_item.
  pose proof (prepare_frame cfg w legacy st idx slide) as H1.
  destruct (prepare _ _ _ _ _ _) as [[st1 evs] [R|fl]]; simpl in *; [|done].
  destruct (too_large _); simpl.
  { eapply same_elsewhere_trans; [exact H1|auto with frame]. }
  destruct (run_stages _ _ _ _ _ _ _ _ _) as [[st2 evs'] fl] eqn:Hrun.
  apply run_stages_spec in Hrun as (H2 & _). simpl in *.
  eapply same_elsewhere_trans; [exact H1|].
  eapply same_elsewhere_trans; [|exact H2].
  eapply same_elsewhere_trans; auto with frame.
Qed.

(** The flag of the row is 0 whatever happens next, and the status column
    follows the way the iteration ended. *)
Lemma process_item_row cfg w legacy st idx slide r :
  rows (df st) !! idx = Some r ->
  exists r',
    rows (df (process_item cfg w legacy st idx slide).1.1) !! idx = Some r' /\
    process r' = 0 /\ slide_id r' = slide_id r /\
    status_after (process_item cfg w legacy st idx slide).2 r r'.
Proof.
  intros Hr. unfold process_item.
  destruct (prepare_row cfg w legacy st idx slide r Hr) as (r1 & H1 & Hp & Hid & _ & Hst).
  pose proof (prepare_flow cfg w legacy st idx slide) as Hpf.
  destruct (prepare _ _ _ _ _ _) as [[st1 evs] [R|fl]]; simpl in *.
  - destruct (too_large _); simpl.
    { rewrite list_lookup_alter_eq, H1. simpl. eauto 10. }
    destruct (run_stages _ _ _ _ _ _ _ _ _) as [[st2 evs'] fl] eqn:Hrun.
    apply run_stages_spec in Hrun as (_ & _ & Hfl & Hrow). simpl in *.
    destruct (Hrow (set_seg_level (rs_seg_level R) (set_vis_level (rs_vis_level R) r1)))
      as (r2 & H2 & Hp2 & Hid2 & _ & _ & _ & Hst2).
    { by rewrite !list_lookup_alter_eq, H1. }
    simpl in Hp2, Hid2. exists r2.
    split; [done|]. split; [congruence|]. split; [congruence|].
    destruct fl as [[]|]; simpl in *; congruence.
  - exists r1. repeat split; try done. destruct fl as [[]|]; simpl; done.
Qed.

(** The timers move only when the iteration reaches line 359. *)
Lemma process_item_timers cfg w legacy st idx slide :
  timers_after (process_item cfg w legacy st idx slide).2 st
    (process_item cfg w legacy st idx slide).1.1.
Proof.
  unfold process_item.
  pose proof (prepare_vars cfg w legacy st idx slide) as (_ & Hs & Hp & Ht & _).
  pose proof (prepare_flow cfg w legacy st idx slide) as Hpf.
  destruct (prepare _ _ _ _ _ _) as [[st1 evs] [R|fl]]; simpl in *.
  - destruct (too_large _); simpl; [done|].
    destruct (run_stages _ _ _ _ _ _ _ _ _) as [[st2 evs'] fl] eqn:Hrun.
    apply run_stages_spec in Hrun as (_ & Htm & _). simpl in *.
    unfold timers_after in *. destruct fl as [[]|]; simpl in *; intuition congruence.
  - destruct fl as [[]|]; simpl; done.
Qed.

(** ** The selection *)

Lemma select_from_In i rs idx slide :
  In (idx, slide) (select_from i rs) ->
  (i <= idx)%nat /\ exists r, rs !! (idx - i)%nat = Some r /\ slide_id r = slide /\ process r = 1.
Proof.
  revert i. induction rs as [|r rs IH]; intros i; simpl; [done|].
  assert (Hrec : In (idx, slide) (select_from (S i) rs) ->
    (i <= idx)%nat /\ exists r0, (r :: rs) !! (idx - i)%nat = Some r0 /\
      slide_id r0 = slide /\ process r0 = 1).
  { intros H. apply IH in H as (Hle & r0 & Hr0 & Hs & Hp).
    split; [lia|]. exists r0. split; [|done].
    replace (idx - i)%nat with (S (idx - S i)) by lia. done. }
  destruct (process r =? 1) eqn:Hp; [|done].
  intros [[= <- <-]|H]; [|by apply Hrec].
  split; [lia|]. exists r. rewrite Nat.sub_diag. split; [done|]. split; [done|].
  by apply Z.eqb_eq.
Qed.

Lemma select_from_NoDup i rs : NoDup (select_from i rs).*1.
Proof.
  revert i. induction rs as [|r rs IH]; intros i; simpl; [constructor|].
  destruct (process r =? 1); [|done].
  simpl. constructor; [|done].
  intros Hin. apply list_elem_of_fmap in Hin as ([idx slide] & Heq & Hin).
  simpl in Heq. subst idx. apply list_elem_of_In, select_from_In in Hin. lia.
Qed.

(** The rows the loop visits are distinct rows of the data frame, each with
    its flag at 1. *)
Lemma process_stack_In d idx slide :
  In (idx, slide) (process_stack d) ->
  exists r, rows d !! idx = Some r /\ slide_id r = slide /\ process r = 1.
Proof.
  intros H. apply select_from_In in H as (_ & r & Hr & ?).
  rewrite Nat.sub_0_r in Hr. eauto.
Qed.

Lemma process_stack_NoDup d : NoDup (process_stack d).*1.
Proof. apply select_from_NoDup. Qed.

(** ** The loop *)

Lemma final_state_cons st s l : final_state st (s :: l) = final_state (s_post s) l.
Proof.
  unfold final_state. rewrite last_cons. by destruct (last l).
Qed.

Lemma loop_In cfg w legacy stack st s :
  In s (loop cfg w legacy stack st) ->
  In (s_idx s, s_slide s) stack /\ step_ok cfg w legacy s.
Proof.
  revert st. induction stack as [|[idx slide] rest IH]; intros st; simpl; [done|].
  destruct (process_item cfg w legacy st idx slide) as [[st' evs] fl] eqn:E.
  assert (Hhd : forall s0, s0 = {| s_idx := idx; s_slide := slide; s_pre := st;
              s_events := evs; s_flow := fl; s_post := st' |} ->
            In (s_idx s0, s_slide s0) ((idx, slide) :: rest) /\ step_ok cfg w legacy s0).
  { intros s0 ->. split; [by left|exact E]. }
  destruct fl as [d|e].
  - intros [<-|H]; [by apply Hhd|]. apply IH in H as [H1 H2]. split; [by right|done].
  - intros [<-|[]]. by apply Hhd.
Qed.

(** Rows the loop does not visit keep their content; the shape of the data
    frame never changes. *)
Lemma loop_frame cfg w legacy stack st :
  let st' := final_state st (loop cfg w legacy stack st) in
  has_a (df st') = has_a (df st) /\ length (rows (df st')) = length (rows (df st)) /\
  forall j, ~ In j stack.*1 -> rows (df st') !! j = rows (df st) !! j.
Proof.
  revert st. induction stack as [|[idx slide] rest IH]; intros st; simpl; [done|].
  pose proof (process_item_frame cfg w legacy st idx slide) as (Ha & Hl & Hf).
  destruct (process_item cfg w legacy st idx slide) as [[st1 evs] fl]. simpl in *.
  destruct fl as [d|e].
  - rewrite final_state_cons. simpl. destruct (IH st1) as (Ha' & Hl' & Hf').
    split; [congruence|]. split; [congruence|].
    intros j Hj. rewrite Hf' by (intros ?; apply Hj; by right).
    apply Hf. intros ->. apply Hj. by left.
  - unfold final_state. simpl. split; [done|]. split; [done|].
    intros j Hj. apply Hf. intros ->. apply Hj. by left.
Qed.

(** When the loop reaches a row, the row is still as the run found it. *)
Lemma loop_pre_row cfg w legacy stack st s :
  NoDup stack.*1 -> In s (loop cfg w legacy stack st) ->
  rows (df (s_pre s)) !! s_idx s = rows (df st) !! s_idx s.
Proof.
  revert st. induction stack as [|[idx slide] rest IH]; intros st Hnd; [done|].
  rewrite fmap_cons in Hnd. apply NoDup_cons in Hnd as [Hidx Hnd].
  pose proof (process_item_frame cfg w legacy st idx slide) as (_ & _ & Hf).
  simpl loop.
  destruct (process_item cfg w legacy st idx slide) as [[st1 evs] fl]. simpl in Hf.
  destruct fl as [d|e].
  - intros [<-|H]; [done|]. rewrite (IH st1 Hnd H). apply Hf.
    apply loop_In in H as [H _]. intros Heq. apply Hidx.
    apply list_elem_of_fmap. exists (s_idx s, s_slide s). split; [done|].
    by apply list_elem_of_In.
  - by intros [<-|[]].
Qed.

(** What an iteration leaves in its row is what the loop ends with. *)
Lemma loop_final_row cfg w legacy stack st s :
  NoDup stack.*1 -> In s (loop cfg w legacy stack st) ->
  rows (df (final_state st (loop cfg w legacy stack st))) !! s_idx s
  = rows (df (s_post s)) !! s_idx s.
Proof.
  revert st. induction stack as [|[idx slide] rest IH]; intros st Hnd; [done|].
  rewrite fmap_cons in Hnd. apply NoDup_cons in Hnd as [Hidx Hnd].
  simpl loop.
  destruct (process_item cfg w legacy st idx slide) as [[st1 evs] fl].
  destruct fl as [d|e].
  - rewrite final_state_cons. intros [<-|H]; [|by apply IH].
    simpl. apply loop_frame. intros Hin. apply Hidx. by apply list_elem_of_In.
  - by intros [<-|[]].
Qed.

(** The [k]-th iteration works on the [k]-th selected row. *)
Lemma loop_lookup cfg w legacy stack st k s :
  loop cfg w legacy stack st !! k = Some s ->
  stack !! k = Some (s_idx s, s_slide s).
Proof.
  revert st k. induction stack as [|[idx slide] rest IH]; intros st k; simpl; [done|].
  destruct (process_item cfg w legacy st idx slide) as [[st' evs] fl].
  destruct fl as [d|e]; destruct k as [|k]; simpl; try by intros [= <-].
  apply IH.
Qed.

(** After an iteration that did not raise, the loop goes on with the next
    selected row, from the state the iteration left. *)
Lemma loop_next cfg w legacy stack st k s d entry :
  loop cfg w legacy stack st !! k = Some s ->
  s_flow s = Next d ->
  stack !! S k = Some entry ->
  exists s', loop cfg w legacy stack st !! S k = Some s' /\
    (s_idx s', s_slide s') = entry /\ s_pre s' = s_post s.
Proof.
  revert st k. induction stack as [|[idx slide] rest IH]; intros st k; simpl; [done|].
  destruct (process_item cfg w legacy st idx slide) as [[st' evs] fl].
  destruct fl as [d0|e]; destruct k as [|k]; simpl.
  - intros [= <-] _ Hentry. simpl.
    destruct rest as [|[idx' slide'] rest']; simpl in *; [done|].
    destruct (process_item cfg w legacy st' idx' slide') as [[st'' evs'] fl'].
    injection Hentry as <-.
    destruct fl'; simpl; eexists; by repeat split.
  - apply IH.
  - by intros [= <-] [=].
  - done.
Qed.

(** As long as nothing raises, every selected row gets its iteration. *)
Lemma loop_length cfg w legacy stack st :
  raised (loop cfg w legacy stack st) = None ->
  length (loop cfg w legacy stack st) = length stack.
Proof.
  revert st. induction stack as [|[idx slide] rest IH]; intros st; simpl; [done|].
  destruct (process_item cfg w legacy st idx slide) as [[st' evs] fl].
  destruct fl as [d|e]; [|done].
  intros H. simpl. f_equal. apply IH.
  revert H. unfold raised. rewrite last_cons.
  destruct (last (loop cfg w legacy rest st')); done.
Qed.

(** ** The run *)

Lemma initial_row cfg w df0 idx r0 :
  rows df0 !! idx = Some r0 ->
  exists r, rows (df (initial_state cfg w df0)) !! idx = Some r /\
    slide_id r = slide_id r0 /\ process r = process r0 /\ status r = status r0 /\
    seg r = seg r0 /\ a r = a r0.
Proof.
  intros H. unfold initial_state. simpl. destruct (has_a df0); simpl.
  - change (map (legacy_assign cfg) (rows df0)) with (legacy_assign cfg <$> rows df0).
    rewrite list_lookup_fmap, H. simpl. eexists. by repeat split.
  - eauto 10.
Qed.

(** Every iteration of a run, seen from the run: it is an iteration of the
    body on a selected row, it finds the row as [initialize_df] (and the
    legacy overwrite) left it, and what it leaves in the row is what the run
    ends with. *)
Lemma run_step cfg w df0 k s :
  r_steps (seg_and_patch cfg w df0) !! k = Some s ->
  step_ok cfg w (has_a df0) s /\
  process_stack df0 !! k = Some (s_idx s, s_slide s) /\
  rows (df (s_pre s)) !! s_idx s = rows (df (initial_state cfg w df0)) !! s_idx s /\
  rows (df (r_final (seg_and_patch cfg w df0))) !! s_idx s = rows (df (s_post s)) !! s_idx s.
Proof.
  unfold seg_and_patch. cbn [r_steps r_final]. intros H.
  assert (Hin : In s (loop cfg w (has_a df0) (process_stack df0) (initial_state cfg w df0))).
  { apply list_elem_of_In. by eapply list_elem_of_lookup_2. }
  split; [by eapply loop_In|].
  split; [by eapply loop_lookup|].
  split.
  - eapply loop_pre_row; [apply process_stack_NoDup|exact Hin].
  - eapply loop_final_row; [apply process_stack_NoDup|exact Hin].
Qed.

(** The row of an iteration exists, when the iteration starts and when it
    ends, and carries the slide name. *)
Lemma run_step_row cfg w df0 k s :
  r_steps (seg_and_patch cfg w df0) !! k = Some s ->
  exists r0 r r',
    rows df0 !! s_idx s = Some r0 /\ process r0 = 1 /\ slide_id r0 = s_slide s /\
    rows (df (s_pre s)) !! s_idx s = Some r /\ status r = status r0 /\
    seg r = seg r0 /\ a r = a r0 /\
    rows (df (s_post s)) !! s_idx s = Some r' /\
    rows (df (r_final (seg_and_patch cfg w df0))) !! s_idx s = Some r' /\
    process r' = 0 /\ slide_id r' = s_slide s /\ status_after (s_flow s) r r'.
Proof.
  intros H. destruct (run_step _ _ _ _ _ H) as (Hok & Hstack & Hpre & Hfin).
  apply list_elem_of_lookup_2, list_elem_of_In, process_stack_In in Hstack
    as (r0 & Hr0 & Hid & Hp).
  destruct (initial_row cfg w df0 _ _ Hr0) as (r & Hr & Hid' & _ & Hst & Hseg & Ha).
  rewrite <- Hpre in Hr.
  destruct (process_item_row cfg w (has_a df0) _ _ (s_slide s) _ Hr) as (r' & Hr' & Hp' & Hid'' & Hsa).
  rewrite Hok in Hr', Hsa. simpl in Hr', Hsa.
  exists r0, r, r'. rewrite Hfin. repeat split; try done; congruence.
Qed.

(** ** Auto-skip (lines 170-176) *)

Lemma process_item_auto_skip cfg w legacy st idx slide :
  auto_skip cfg = true ->
  Py.isfile (fs st) (h5_path cfg slide) = true ->
  process_item cfg w legacy st idx slide
  = (set_df (loc_set (set_status "already_exist") idx
               (loc_set (set_process 0) idx (df st))) st,
     [], Next AlreadyExist).
Proof.
  intros Ha Hf. unfold process_item, prepare. simpl fs. by rewrite Ha, Hf.
Qed.

(** C1.  In a run of [seg_and_patch], take any iteration [s] (the [k]-th).
    If auto-skip is on and the file [{patch_save_dir}/{slide_id}.h5] exists
    when the iteration starts, then the iteration makes no call at all (no
    open, no segmentation, no mask, no metadata reader, no patching, no
    stitching), it ends with [continue] as [AlreadyExist], the row has
    status ["already_exist"] (and flag 0) at the end of the run, the timers
    and the file system are as before, and the loop goes on with the next
    selected row if there is one. *)
Theorem auto_skip_already_exist cfg w df0 k s :
  r_steps (seg_and_patch cfg w df0) !! k = Some s ->
  auto_skip cfg = true ->
  Py.isfile (fs (s_pre s))
    (Py.path_join (patch_save_dir cfg) (Py.splitext_root (s_slide s) ++ ".h5")%string) = true ->
  s_events s = [] /\
  s_flow s = Next AlreadyExist /\
  (exists r, rows (df (r_final (seg_and_patch cfg w df0))) !! s_idx s = Some r /\
     status r = "already_exist" /\ process r = 0) /\
  fs (s_post s) = fs (s_pre s) /\
  timers_after (s_flow s) (s_pre s) (s_post s) /\
  (forall entry, process_stack df0 !! S k = Some entry ->
     exists s', r_steps (seg_and_patch cfg w df0) !! S k = Some s' /\
       (s_idx s', s_slide s') = entry).
Proof.
  intros Hs Hauto Hfile.
  destruct (run_step_row _ _ _ _ _ Hs) as (r0 & r & r' & _ & _ & _ & _ & _ & _ & _ & _ & Hfin & Hp & _ & Hst).
  destruct (run_step _ _ _ _ _ Hs) as (Hok & _).
  unfold step_ok in Hok.
  rewrite (process_item_auto_skip _ _ _ _ _ _ Hauto Hfile) in Hok.
  injection Hok as Hpost Hev Hfl.
  rewrite <- Hfl in Hst. simpl in Hst.
  split; [done|]. split; [done|]. split; [eauto|].
  split; [by rewrite <- Hpost|]. split; [by rewrite <- Hfl, <- Hpost|].
  intros entry Hentry.
  destruct (loop_next _ _ _ _ _ _ _ _ entry Hs (eq_sym Hfl) Hentry) as (s' & Hs' & He & _).
  eauto.
Qed.

(** C1 on the concrete batch: [a.svs] is skipped. *)
Lemma auto_skip_already_exist_witness :
  exists s, r_steps Demo.run !! 0%nat = Some s /\ s_events s = [] /\
    s_flow s = Next AlreadyExist.
Proof.
  eexists. split; [vm_compute; reflexivity|].
  refine (let H := auto_skip_already_exist Demo.cfg Demo.world Demo.df0 0 _ _ _ _ in
          conj (proj1 H) (proj1 (proj2 H))); vm_compute; reflexivity.
Defined.

(** ** What the calls of an iteration look like *)

(** When lines 170-256 get through, the only call so far is the opening of
    the slide, and the resolved values are those of the source. *)
Lemma prepare_inl cfg w legacy st idx slide st1 evs R :
  prepare cfg w legacy st idx slide = (st1, evs, inl R) ->
  evs = [EvOpen (full_path_of cfg slide)] /\
  auto_skip cfg && Py.isfile (fs st) (h5_path cfg slide) = false /\
  WholeSlideImage w (full_path_of cfg slide) = Some (rs_wsi R) /\
  resolve_params cfg legacy (rs_wsi R) (loc_set (set_process 0) idx (df st)) idx
    = (df st1, Py.Ok (rs_cur R)) /\
  rs_vis_level R = auto_level (rs_wsi R) (vis_level (c_vis (rs_cur R))) /\
  rs_seg_level R = auto_level (rs_wsi R) (seg_level (c_seg (rs_cur R))) /\
  resolve_ids (keep_ids (c_seg (rs_cur R))) = Py.Ok (rs_keep_ids R) /\
  resolve_ids (exclude_ids (c_seg (rs_cur R))) = Py.Ok (rs_exclude_ids R) /\
  Py.index (level_dim (rs_wsi R)) (rs_seg_level R) = Py.Ok (rs_dim R).
Proof.
  unfold prepare. simpl fs. simpl df.
  destruct (auto_skip cfg && _); [done|].
  destruct (WholeSlideImage w _) as [wsi|]; [|done].
  destruct (resolve_params _ _ _ _ _) as [d1 [cur|e]] eqn:Hres; [|done].
  destruct (resolve_ids (keep_ids _)) as [keep|] eqn:Hkeep; [|done].
  destruct (resolve_ids (exclude_ids _)) as [excl|] eqn:Hexcl; [|done].
  destruct (Py.index _ _) as [dim|] eqn:Hdim; [|done].
  intros [= <- <- <-]. simpl. by repeat split.
Qed.

(** Before line 256 the only call is the opening of the slide. *)
Lemma prepare_events cfg w legacy st idx slide e :
  In e (prepare cfg w legacy st idx slide).1.2 -> e = EvOpen (full_path_of cfg slide).
Proof.
  unfold prepare.
  destruct (auto_skip cfg && _); simpl; [done|].
  destruct (WholeSlideImage w _) as [wsi|]; simpl; [|by intros [<-|[]]].
  destruct (resolve_params _ _ _ _ _) as [d1 [cur|e']]; simpl; [|by intros [<-|[]]].
  destruct (resolve_ids (keep_ids _)) as [keep|]; simpl; [|by intros [<-|[]]].
  destruct (resolve_ids (exclude_ids _)) as [excl|]; simpl; [|by intros [<-|[]]].
  destruct (Py.index _ _) as [dim|]; simpl; by intros [<-|[]].
Qed.

(** The four groups of calls of lines 269-352. *)
Lemma run_stages_events cfg w st idx slide vp sa fp cp st' evs fl :
  run_stages cfg w st idx slide vp sa fp cp = (st', evs, fl) ->
  exists ev_seg ev_mask ev_patch ev_stitch,
    evs = ev_seg ++ ev_mask ++ ev_patch ++ ev_stitch /\
    (ev_seg = [] \/ do_seg cfg = true /\ ev_seg = [EvSegment (full_path_of cfg slide) sa fp]) /\
    (ev_mask = [] \/ exists mask_path, ev_mask = [EvSaveMask (full_path_of cfg slide) vp mask_path]) /\
    (ev_patch = [] \/ exists st1 x, stage_patch cfg w st (full_path_of cfg slide) cp = (st1, ev_patch, x)) /\
    (ev_stitch = [] \/ exists file_path stitch_path, ev_stitch = [EvStitching file_path stitch_path]).
Proof.
  unfold run_stages.
  destruct (stage_segment _ _ _ _ _) as [ev_seg o] eqn:Hseg.
  assert (Hs : ev_seg = [] \/ do_seg cfg = true /\ ev_seg = [EvSegment (full_path_of cfg slide) sa fp]).
  { revert Hseg. unfold stage_segment. destruct (do_seg cfg); intros [= <- _]; auto. }
  destruct o as [t_seg|].
  2: { intros [= <- <- <-]. exists ev_seg, [], [], []. rewrite !app_nil_r. auto 10. }
  destruct (stage_mask _ _ _ _ _) as [ev_mask b] eqn:Hmask.
  assert (Hm : ev_mask = [] \/ exists mask_path, ev_mask = [EvSaveMask (full_path_of cfg slide) vp mask_path]).
  { revert Hmask. unfold stage_mask. destruct (save_mask cfg); intros [= <- _]; eauto. }
  destruct b.
  2: { intros [= <- <- <-]. exists ev_seg, ev_mask, [], []. rewrite !app_nil_r. auto 10. }
  destruct (stage_patch _ _ _ _ _) as [[st1 ev_patch] x] eqn:Hpatch.
  destruct x as [t_patch|fl1].
  2: { intros [= <- <- <-]. exists ev_seg, ev_mask, ev_patch, []. rewrite !app_nil_r.
       eauto 10. }
  destruct (stage_stitch _ _ _ _) as [ev_stitch o] eqn:Hstitch.
  assert (Ht : ev_stitch = [] \/ exists file_path stitch_path, ev_stitch = [EvStitching file_path stitch_path]).
  { revert Hstitch. unfold stage_stitch. destruct (do_stitch cfg); [|intros [= <- _]; auto].
    destruct (Py.isfile _ _); intros [= <- _]; eauto. }
  destruct o; intros [= <- <- <-]; exists ev_seg, ev_mask, ev_patch, ev_stitch; eauto 10.
Qed.

(** The calls of the patching stage: at most the two metadata readers, then
    at most one call of [patching]. *)
Lemma stage_patch_events cfg w st full_path cp e :
  In e (stage_patch cfg w st full_path cp).1.2 ->
  e = EvMppTiffslide full_path \/ e = EvMppOpenslide full_path \/
  exists pa, e = EvPatching full_path pa.
Proof.
  unfold stage_patch, stage_geometry.
  destruct (do_patch cfg); simpl; [|done].
  assert (Hg : forall e, In e (get_spacing w full_path).1 ->
            e = EvMppTiffslide full_path \/ e = EvMppOpenslide full_path).
  { unfold get_spacing. intros e0.
    destruct (_get_mpp_tiffslide w full_path) as [[q|]|]; simpl; intuition. }
  destruct (patch_spacing cfg) as [sp|].
  - destruct (get_spacing w full_path) as [evg [| |mpp]]; simpl in *;
      try (intros H; apply Hg in H; tauto).
    destruct (Qeq_bool mpp 0); simpl; [intros H; apply Hg in H; tauto|].
    destruct (process_contours w _ _) as [[created t]|]; simpl;
      (intros H; apply in_app_or in H as [H|[<-|[]]]; [apply Hg in H; tauto|eauto]).
  - destruct (process_contours w _ _) as [[created t]|]; simpl; intros [<-|[]]; eauto.
Qed.

(** A call of [segment] comes from line 272: the slide got through lines
    170-256, the size guard let it pass, and the arguments are the resolved
    ones. *)
Lemma process_item_segment_event cfg w legacy st idx slide st' evs fl p sa fp :
  process_item cfg w legacy st idx slide = (st', evs, fl) ->
  In (EvSegment p sa fp) evs ->
  exists st1 evs1 R,
    prepare cfg w legacy st idx slide = (st1, evs1, inl R) /\
    too_large (rs_dim R) = false /\ do_seg cfg = true /\
    p = full_path_of cfg slide /\ sa = segment_args R /\ fp = c_filter (rs_cur R).
Proof.
  unfold process_item.
  pose proof (prepare_events cfg w legacy st idx slide) as Hev.
  destruct (prepare _ _ _ _ _ _) as [[st1 evs1] [R|fl1]]; simpl in Hev.
  2: { intros [= <- <- <-] Hin. by apply Hev in Hin. }
  destruct (too_large _) eqn:Hbig.
  { intros [= <- <- <-] Hin. by apply Hev in Hin. }
  destruct (run_stages _ _ _ _ _ _ _ _ _) as [[st2 evs2] fl2] eqn:Hrun.
  intros [= <- <- <-] Hin.
  apply in_app_or in Hin as [Hin|Hin]; [by apply Hev in Hin|].
  apply run_stages_events in Hrun
    as (ev_seg & ev_mask & ev_patch & ev_stitch & -> & Hseg & Hmask & Hpatch & Hstitch).
  exists st1, evs1, R. split; [done|]. split; [done|].
  apply in_app_or in Hin as [Hin|Hin].
  { destruct Hseg as [->|[Hdo ->]]; [done|].
    destruct Hin as [[= <- <- <-]|[]]. done. }
  exfalso.
  apply in_app_or in Hin as [Hin|Hin].
  { destruct Hmask as [->|[mp ->]]; [done|]. by destruct Hin as [|[]]. }
  apply in_app_or in Hin as [Hin|Hin].
  { destruct Hpatch as [->|(st3 & x & Hp)]; [done|].
    pose proof (stage_patch_events cfg w (write_back R idx st1) (full_path_of cfg slide)
                  (c_patch (rs_cur R)) (EvSegment p sa fp)) as Hpe.
    rewrite Hp in Hpe. simpl in Hpe.
    destruct (Hpe Hin) as [|[|[pa ?]]]; done. }
  destruct Hstitch as [->|(f1 & f2 & ->)]; [done|]. by destruct Hin as [|[]].
Qed.

(** ** The size guard (lines 256-264) *)

(** C2.  In a run of [seg_and_patch], take any iteration [s].
    (1) If the iteration got as far as line 256 with the dimensions
    [w_ x h_] of the resolved segmentation level and [w_ * h_ > 1e8], then
    it ends as [FailedSeg], the row has status ["failed_seg"] at the end of
    the run, and [segment] was not called.
    (2) Conversely every call of [segment] is for a slide that opened and
    whose level [seg_level] (the one passed to [segment]) has at most 1e8
    pixels. *)
Theorem size_guard cfg w df0 k s :
  r_steps (seg_and_patch cfg w df0) !! k = Some s ->
  (forall st1 evs R w_ h_,
      prepare cfg w (has_a df0) (s_pre s) (s_idx s) (s_slide s) = (st1, evs, inl R) ->
      Py.index (level_dim (rs_wsi R)) (rs_seg_level R) = Py.Ok (w_, h_) ->
      100000000 < w_ * h_ ->
      s_flow s = Next FailedSeg /\
      (exists r, rows (df (r_final (seg_and_patch cfg w df0))) !! s_idx s = Some r /\
         status r = "failed_seg") /\
      forall p sa fp, ~ In (EvSegment p sa fp) (s_events s)) /\
  (forall p sa fp, In (EvSegment p sa fp) (s_events s) ->
      exists wsi w_ h_,
        WholeSlideImage w p = Some wsi /\
        Py.index (level_dim wsi) (sa_seg_level sa) = Py.Ok (w_, h_) /\
        w_ * h_ <= 100000000).
Proof.
  intros Hs.
  destruct (run_step_row _ _ _ _ _ Hs) as (r0 & r & r' & _ & _ & _ & _ & _ & _ & _ & _ & Hfin & _ & _ & Hst).
  destruct (run_step _ _ _ _ _ Hs) as (Hok & _). unfold step_ok in Hok.
  split.
  - intros st1 evs R w_ h_ Hprep Hdim Hbig.
    pose proof (prepare_inl _ _ _ _ _ _ _ _ _ Hprep) as (-> & _ & _ & _ & _ & _ & _ & _ & Hdim').
    rewrite Hdim in Hdim'. injection Hdim' as Hdim'.
    assert (Htl : too_large (rs_dim R) = true).
    { unfold too_large. rewrite <- Hdim'. simpl. by apply Z.ltb_lt. }
    unfold process_item in Hok. rewrite Hprep, Htl in Hok.
    injection Hok as Hpost Hev Hfl.
    rewrite <- Hfl in Hst. simpl in Hst.
    split; [done|]. split; [eauto|].
    intros p sa fp Hin. rewrite <- Hev in Hin. by destruct Hin as [|[]].
  - intros p sa fp Hin.
    destruct (process_item_segment_event _ _ _ _ _ _ _ _ _ _ _ _ Hok Hin)
      as (st1 & evs1 & R & Hprep & Hbig & _ & -> & -> & _).
    pose proof (prepare_inl _ _ _ _ _ _ _ _ _ Hprep) as (_ & _ & Hopen & _ & _ & _ & _ & _ & Hdim).
    exists (rs_wsi R), (fst (rs_dim R)), (snd (rs_dim R)).
    split; [done|]. split; [by destruct (rs_dim R)|].
    unfold too_large in Hbig. by apply Z.ltb_ge.
Qed.

(** C2 on a slide of 20000 x 20000 pixels. *)
Lemma size_guard_witness :
  exists s, r_steps (seg_and_patch Demo.cfg Demo.world_huge Demo.df0) !! 0%nat = Some s /\
    s_flow s = Next FailedSeg /\ forall p sa fp, ~ In (EvSegment p sa fp) (s_events s).
Proof.
  eexists. split; [vm_compute; reflexivity|].
  refine (let H := proj1 (size_guard Demo.cfg Demo.world_huge Demo.df0 0 _ _) _ _ _
                     20000 20000 _ _ _ in
          conj (proj1 H) (proj2 (proj2 H))); vm_compute; reflexivity.
Defined.

(** ** Legacy data frames (lines 140-155 and 201-219) *)






(** The level of the rescaling is the stored one, not the selected one:
    with the stored level 1 (downsample 4 x 4) on the three-level pyramid,
    segmentation runs at level 2 (downsample 16 x 16) with the threshold
    computed at level 1. *)
Lemma legacy_area_stored_level :
  let run := seg_and_patch Demo.cfg Demo.world (Demo.legacy_df 400000 1) in
  exists s sa fp,
    r_steps run !! 0%nat = Some s /\
    In (EvSegment "slides/c.svs" sa fp) (s_events s) /\
    sa_seg_level sa = 2 /\
    a_t fp = 24 /\
    Py.int (400000 * (16 * 16) / inject_Z (512 * 512))%Q = 390.
Proof.
  eexists _, _, _. split; [vm_compute; reflexivity|].
  split; [vm_compute; right; left; reflexivity|].
  vm_compute. by repeat split.
Qed.

(** ** The id lists (lines 242-254) *)




Lemma digit_not_comma x d : Py.digit x = Some d -> x <> ","%char.
Proof. intros H ->. done. Qed.








(** ** The patching stage (lines 284-342) *)

Lemma other_calls_app l1 l2 : other_calls l1 -> other_calls l2 -> other_calls (l1 ++ l2).
Proof. intros H1 H2 e Hin. apply in_app_or in Hin as [?|?]; auto. Qed.

Lemma other_calls_nil : other_calls [].
Proof. by intros e []. Qed.

(** What the patching stage does, case by case. *)
Lemma stage_patch_shape cfg w st full_path cp st1 evs x :
  stage_patch cfg w st full_path cp = (st1, evs, x) ->
  if do_patch cfg then
    match patch_spacing cfg with
    | None =>
        evs = [EvPatching full_path (patch_args cfg st cp)] /\
        (x = inr (Raise Py.CollaboratorError) \/ exists t, x = inl t)
    | Some sp =>
        exists post, evs = (get_spacing w full_path).1 ++ post /\
          match (get_spacing w full_path).2 with
          | SpacingRaised => post = [] /\ x = inr (Next MppRaised)
          | SpacingNone => post = [] /\ x = inr (Next NoSpacing)
          | SpacingFound slide_mpp =>
              if Qeq_bool slide_mpp 0 then post = [] /\ x = inr (Raise Py.ZeroDivisionError)
              else
                let p := spaced_patch_size (patch_size cfg) sp slide_mpp in
                post = [EvPatching full_path (patch_args cfg (set_geometry p p st) cp)] /\
                (x = inr (Raise Py.CollaboratorError) \/ exists t, x = inl t)
          end
    end
  else evs = [] /\ exists t, x = inl t.
Proof.
  unfold stage_patch, stage_geometry.
  destruct (do_patch cfg); [|intros [= <- <- <-]; eauto].
  destruct (patch_spacing cfg) as [sp|].
  - destruct (get_spacing w full_path) as [evg [| |mpp]]; simpl.
    + intros [= <- <- <-]. exists []. by rewrite app_nil_r.
    + intros [= <- <- <-]. exists []. by rewrite app_nil_r.
    + destruct (Qeq_bool mpp 0).
      * intros [= <- <- <-]. exists []. by rewrite app_nil_r.
      * destruct (process_contours w _ _) as [[created t]|]; intros [= <- <- <-];
          eexists; eauto.
  - destruct (process_contours w _ _) as [[created t]|]; intros [= <- <- <-]; eauto.
Qed.

(** Lines 269-361 either stop before the patching stage, or run it and then
    follow the way it ended. *)
Lemma run_stages_patch cfg w st idx slide vp sa fp cp st' evs fl :
  run_stages cfg w st idx slide vp sa fp cp = (st', evs, fl) ->
  exists before, other_calls before /\
    ((evs = before /\ (fl = Next SegmentFailed \/ fl = Raise Py.CollaboratorError)) \/
     (exists st1 ev_patch x ev_stitch,
        stage_patch cfg w st (full_path_of cfg slide) cp = (st1, ev_patch, x) /\
        other_calls ev_stitch /\
        evs = before ++ ev_patch ++ ev_stitch /\
        match x with
        | inr f => fl = f /\ ev_stitch = []
        | inl t => fl = Raise Py.CollaboratorError \/ exists s t', fl = Next (Processed s t t')
        end)).
Proof.
  unfold run_stages.
  destruct (stage_segment _ _ _ _ _) as [ev_seg o] eqn:Hseg.
  assert (Hs : other_calls ev_seg).
  { revert Hseg. unfold stage_segment. destruct (do_seg cfg); intros [= <- _];
      [|apply other_calls_nil]. by intros e [<-|[]]. }
  destruct o as [t_seg|].
  2: { intros [= <- <- <-]. exists ev_seg. split; [done|]. left. auto. }
  destruct (stage_mask _ _ _ _ _) as [ev_mask b] eqn:Hmask.
  assert (Hm : other_calls ev_mask).
  { revert Hmask. unfold stage_mask. destruct (save_mask cfg); intros [= <- _];
      [|apply other_calls_nil]. by intros e [<-|[]]. }
  pose proof (other_calls_app _ _ Hs Hm) as Hsm.
  destruct b.
  2: { intros [= <- <- <-]. exists (ev_seg ++ ev_mask). split; [done|]. left. auto. }
  destruct (stage_patch _ _ _ _ _) as [[st1 ev_patch] x] eqn:Hpatch.
  destruct x as [t_patch|fl1].
  2: { intros [= <- <- <-]. exists (ev_seg ++ ev_mask). split; [done|]. right.
       exists st1, ev_patch, (inr fl1), []. rewrite !app_nil_r.
       split; [done|]. split; [apply other_calls_nil|]. by rewrite app_assoc. }
  destruct (stage_stitch _ _ _ _) as [ev_stitch o] eqn:Hstitch.
  assert (Ht : other_calls ev_stitch).
  { revert Hstitch. unfold stage_stitch.
    destruct (do_stitch cfg); [|intros [= <- _]; apply other_calls_nil].
    destruct (Py.isfile _ _); intros [= <- _]; [|apply other_calls_nil].
    by intros e [<-|[]]. }
  destruct o; intros [= <- <- <-]; exists (ev_seg ++ ev_mask); (split; [done|]); right;
    exists st1, ev_patch, (inl t_patch), ev_stitch; rewrite <- app_assoc; eauto 10.
Qed.

(** The same for a whole iteration: the patching stage, when it is reached,
    starts in some state [st0] with the patch dictionary [cp]. *)
Lemma process_item_patch cfg w legacy st idx slide st' evs fl :
  process_item cfg w legacy st idx slide = (st', evs, fl) ->
  exists before, other_calls before /\
    ((evs = before /\ fl <> Next MppRaised /\ fl <> Next NoSpacing) \/
     (exists st0 cp st1 ev_patch x ev_stitch,
        stage_patch cfg w st0 (full_path_of cfg slide) cp = (st1, ev_patch, x) /\
        other_calls ev_stitch /\
        evs = before ++ ev_patch ++ ev_stitch /\
        match x with
        | inr f => fl = f /\ ev_stitch = []
        | inl t => fl = Raise Py.CollaboratorError \/ exists s t', fl = Next (Processed s t t')
        end)).
Proof.
  unfold process_item.
  pose proof (prepare_events cfg w legacy st idx slide) as Hev.
  pose proof (prepare_flow cfg w legacy st idx slide) as Hfl.
  destruct (prepare _ _ _ _ _ _) as [[st1 evs1] [R|fl1]]; simpl in Hev, Hfl.
  2: { intros [= <- <- <-]. exists evs1. split.
       - intros e He. by rewrite (Hev e He).
       - left. destruct fl1 as [[]|]; done. }
  assert (Ho : other_calls evs1) by (intros e He; by rewrite (Hev e He)).
  destruct (too_large _).
  { intros [= <- <- <-]. exists evs1. split; [done|]. by left. }
  destruct (run_stages _ _ _ _ _ _ _ _ _) as [[st2 evs2] fl2] eqn:Hrun.
  intros [= <- <- <-].
  apply run_stages_patch in Hrun as (before & Hb & [(-> & Hf)|Hrun]).
  - exists (evs1 ++ before). split; [by apply other_calls_app|].
    left. split; [done|]. by destruct Hf as [->| ->].
  - destruct Hrun as (st3 & ev_patch & x & ev_stitch & Hp & Hst & -> & Hx).
    exists (evs1 ++ before). split; [by apply other_calls_app|].
    right. exists (write_back R idx st1), (c_patch (rs_cur R)), st3, ev_patch, x, ev_stitch.
    rewrite <- app_assoc. done.
Qed.

Lemma get_spacing_events w full_path e :
  In e (get_spacing w full_path).1 ->
  e = EvMppTiffslide full_path \/ e = EvMppOpenslide full_path.
Proof.
  unfold get_spacing.
  destruct (_get_mpp_tiffslide w full_path) as [[q|]|]; simpl; intuition.
Qed.





(** ** The metadata readers (lines 59-93 and 290-314) *)






(** ** Failures that end an iteration (lines 180-187 and 269-277) *)

(** The iteration ends as [OpenFailed] exactly when it is not auto-skipped
    and the slide does not open; the only call is the opening. *)
Lemma process_item_open_failed cfg w legacy st idx slide st' evs fl :
  process_item cfg w legacy st idx slide = (st', evs, fl) ->
  (fl = Next OpenFailed <->
   auto_skip cfg && Py.isfile (fs st) (h5_path cfg slide) = false /\
   WholeSlideImage w (full_path_of cfg slide) = None) /\
  (fl = Next OpenFailed -> evs = [EvOpen (full_path_of cfg slide)]).
Proof.
  unfold process_item.
  destruct (prepare _ _ _ _ _ _) as [[st1 evs1] [R|fl1]] eqn:Hprep.
  - pose proof (prepare_inl _ _ _ _ _ _ _ _ _ Hprep) as (_ & Hskip & Hopen & _).
    destruct (too_large _).
    + intros [= <- <- <-]. split; [|done]. split; [done|]. intros [_ H]. congruence.
    + destruct (run_stages _ _ _ _ _ _ _ _ _) as [[st2 evs2] fl2] eqn:Hrun.
      apply run_stages_spec in Hrun as (_ & _ & Hfl & _).
      intros [= <- <- <-]. split.
      * split; [intros ->; done|]. intros [_ H]. congruence.
      * intros ->. done.
  - intros [= <- <- <-]. revert Hprep. unfold prepare. simpl fs.
    destruct (auto_skip cfg && _); [intros [= <- <- <-]; by split; [split; [|intros []]|]|].
    destruct (WholeSlideImage w _) as [wsi|]; [|by intros [= <- <- <-]].
    destruct (resolve_params _ _ _ _ _) as [d1 [cur|e]].
    2: { intros [= <- <- <-]. split; [|done]. by split; [|intros []]. }
    destruct (resolve_ids (keep_ids _)).
    2: { intros [= <- <- <-]. split; [|done]. by split; [|intros []]. }
    destruct (resolve_ids (exclude_ids _)).
    2: { intros [= <- <- <-]. split; [|done]. by split; [|intros []]. }
    destruct (Py.index _ _); [done|].
    intros [= <- <- <-]. split; [|done]. by split; [|intros []].
Qed.

(** Lines 269-361 end as [SegmentFailed] exactly when segmentation is on and
    [segment] raises; nothing else is called and nothing is written. *)
Lemma run_stages_segment_failed cfg w st idx slide vp sa fp cp st' evs fl :
  run_stages cfg w st idx slide vp sa fp cp = (st', evs, fl) ->
  (fl = Next SegmentFailed <->
   do_seg cfg = true /\ segmentTissue w (full_path_of cfg slide) sa fp = None) /\
  (fl = Next SegmentFailed ->
   st' = st /\ evs = [EvSegment (full_path_of cfg slide) sa fp]).
Proof.
  unfold run_stages, stage_segment.
  destruct (do_seg cfg).
  - destruct (segmentTissue w _ sa fp) as [t|].
    + destruct (stage_mask _ _ _ _ _) as [ev_mask [|]].
      2: { intros [= <- <- <-]. split; [|done]. split; [done|]. by intros [_ ?]. }
      destruct (stage_patch _ _ _ _ _) as [[st1 ev_patch] x] eqn:Hp.
      apply stage_patch_spec in Hp as (_ & _ & _ & _ & Hx).
      destruct x as [tp|fl1].
      * destruct (stage_stitch _ _ _ _) as [ev_stitch [ts|]]; intros [= <- <- <-];
          (split; [|done]); (split; [done|]); by intros [_ ?].
      * intros [= <- <- <-]. destruct fl1 as [[]|]; try done;
          (split; [|done]); (split; [done|]); by intros [_ ?].
    + intros [= <- <- <-]. done.
  - destruct (stage_mask _ _ _ _ _) as [ev_mask [|]].
    2: { intros [= <- <- <-]. split; [|done]. split; [done|]. by intros [? _]. }
    destruct (stage_patch _ _ _ _ _) as [[st1 ev_patch] x] eqn:Hp.
    apply stage_patch_spec in Hp as (_ & _ & _ & _ & Hx).
    destruct x as [tp|fl1].
    + destruct (stage_stitch _ _ _ _) as [ev_stitch [ts|]]; intros [= <- <- <-];
        (split; [|done]); (split; [done|]); by intros [? _].
    + intros [= <- <- <-]. destruct fl1 as [[]|]; try done;
        (split; [|done]); (split; [done|]); by intros [? _].
Qed.

(** The same for a whole iteration: the levels are written back (lines
    266-267) before [segment] is called. *)
Lemma process_item_segment_failed cfg w legacy st idx slide st' evs fl :
  process_item cfg w legacy st idx slide = (st', evs, fl) ->
  fl = Next SegmentFailed ->
  exists st1 R,
    prepare cfg w legacy st idx slide = (st1, [EvOpen (full_path_of cfg slide)], inl R) /\
    too_large (rs_dim R) = false /\
    do_seg cfg = true /\
    segmentTissue w (full_path_of cfg slide) (segment_args R) (c_filter (rs_cur R)) = None /\
    st' = write_back R idx st1 /\
    evs = [EvOpen (full_path_of cfg slide);
           EvSegment (full_path_of cfg slide) (segment_args R) (c_filter (rs_cur R))].
Proof.
  unfold process_item.
  pose proof (prepare_flow cfg w legacy st idx slide) as Hpf.
  destruct (prepare _ _ _ _ _ _) as [[st1 evs1] [R|fl1]] eqn:Hprep; simpl in Hpf.
  2: { intros [= <- <- <-] ->. done. }
  pose proof (prepare_inl _ _ _ _ _ _ _ _ _ Hprep) as (-> & _).
  destruct (too_large _) eqn:Hbig; [by intros [= <- <- <-]|].
  destruct (run_stages _ _ _ _ _ _ _ _ _) as [[st2 evs2] fl2] eqn:Hrun.
  intros [= <- <- <-] ->.
  apply run_stages_segment_failed in Hrun as [[H1 _] H2].
  destruct (H1 eq_refl) as [Hdo Hseg]. destruct (H2 eq_refl) as [-> ->].
  exists st1, R. by repeat split.
Qed.

(** C8.  In a run of [seg_and_patch], take any iteration [s] that ended
    because the slide did not open ([OpenFailed]) or because [segment]
    raised ([SegmentFailed]).  Then the status of its row at the end of the
    run is the one it had in the data frame given to the run; what was
    called is only the opening, or the opening and [segment] (no mask, no
    reader, no patching, no stitching); the timers are as before; and the
    loop goes on with the next selected row if there is one.  The two ways
    of ending are exactly: the slide does not open (and is not auto-skipped),
    and [segment] was called and raised. *)
Theorem failure_keeps_status cfg w df0 k s :
  r_steps (seg_and_patch cfg w df0) !! k = Some s ->
  s_flow s = Next OpenFailed \/ s_flow s = Next SegmentFailed ->
  let p := full_path_of cfg (s_slide s) in
  (exists r0 r',
     rows df0 !! s_idx s = Some r0 /\
     rows (df (r_final (seg_and_patch cfg w df0))) !! s_idx s = Some r' /\
     status r' = status r0) /\
  (s_flow s = Next OpenFailed ->
     WholeSlideImage w p = None /\ s_events s = [EvOpen p]) /\
  (s_flow s = Next SegmentFailed ->
     exists sa fp, segmentTissue w p sa fp = None /\
       s_events s = [EvOpen p; EvSegment p sa fp]) /\
  timers_after (s_flow s) (s_pre s) (s_post s) /\
  (forall entry, process_stack df0 !! S k = Some entry ->
     exists s', r_steps (seg_and_patch cfg w df0) !! S k = Some s' /\
       (s_idx s', s_slide s') = entry).
Proof.
  intros Hs Hfl p.
  destruct (run_step_row _ _ _ _ _ Hs)
    as (r0 & r & r' & Hr0 & _ & _ & _ & Hst0 & _ & _ & _ & Hfin & _ & _ & Hst).
  destruct (run_step _ _ _ _ _ Hs) as (Hok & _). unfold step_ok in Hok.
  split.
  { exists r0, r'. split; [done|]. split; [done|].
    destruct Hfl as [Hf|Hf]; rewrite Hf in Hst; simpl in Hst; congruence. }
  split.
  { intros Hf. destruct (process_item_open_failed _ _ _ _ _ _ _ _ _ Hok) as [[H1 _] H2].
    split; [by apply H1|by apply H2]. }
  split.
  { intros Hf.
    destruct (process_item_segment_failed _ _ _ _ _ _ _ _ _ Hok Hf)
      as (st1 & R & _ & _ & _ & Hseg & _ & Hev).
    eauto. }
  split.
  { pose proof (process_item_timers cfg w (has_a df0) (s_pre s) (s_idx s) (s_slide s)) as Ht.
    by rewrite Hok in Ht. }
  intros entry Hentry.
  assert (Hd : exists d, s_flow s = Next d) by (destruct Hfl as [->| ->]; eauto).
  destruct Hd as [d Hd].
  destruct (loop_next _ _ _ _ _ _ _ _ entry Hs Hd Hentry) as (s' & Hs' & He & _).
  eauto.
Qed.

(** C8 on the concrete batch: [b.svs] does not open and keeps ["tbp"]. *)
Lemma failure_keeps_status_witness :
  exists s r', r_steps Demo.run !! 1%nat = Some s /\
    rows (df (r_final Demo.run)) !! 1%nat = Some r' /\ status r' = "tbp" /\
    s_events s = [EvOpen "slides/b.svs"].
Proof.
  eexists _, _. split; [vm_compute; reflexivity|].
  destruct (failure_keeps_status Demo.cfg Demo.world Demo.df0 1 _ eq_refl (or_introl eq_refl))
    as ((r0 & r' & Hr0 & Hr' & Hst) & Hopen & _).
  vm_compute in Hr0. injection Hr0 as <-.
  split; [vm_compute; reflexivity|].
  split; [reflexivity|]. exact (proj2 (Hopen eq_refl)).
Defined.

(** ** The flag (line 170) and the levels (lines 266-267) *)

(** C10.  In a run of [seg_and_patch], take any iteration [s].  Its row had
    the flag 1 in the data frame given to the run, and has the flag 0 when
    the iteration ends, however it ends (auto-skip, failure to open, size
    guard, failure of [segment], no spacing, an exception, or completion),
    and still at the end of the run.  If the iteration ended because
    [segment] raised, the row's [seg_level] and [vis_level] are the resolved
    levels (the former is the one [segment] was called with), while its
    status is still the one it came with. *)
Theorem flag_cleared cfg w df0 k s :
  r_steps (seg_and_patch cfg w df0) !! k = Some s ->
  exists r0 r',
    rows df0 !! s_idx s = Some r0 /\ process r0 = 1 /\
    rows (df (s_post s)) !! s_idx s = Some r' /\
    rows (df (r_final (seg_and_patch cfg w df0))) !! s_idx s = Some r' /\
    process r' = 0 /\
    (s_flow s = Next SegmentFailed ->
     exists st1 evs1 R sa fp,
       prepare cfg w (has_a df0) (s_pre s) (s_idx s) (s_slide s) = (st1, evs1, inl R) /\
       In (EvSegment (full_path_of cfg (s_slide s)) sa fp) (s_events s) /\
       sa_seg_level sa = rs_seg_level R /\
       seg_level (seg r') = rs_seg_level R /\
       vis_level (vis r') = rs_vis_level R /\
       rs_seg_level R = auto_level (rs_wsi R) (seg_level (c_seg (rs_cur R))) /\
       rs_vis_level R = auto_level (rs_wsi R) (vis_level (c_vis (rs_cur R))) /\
       status r' = status r0).
Proof.
  intros Hs.
  destruct (run_step_row _ _ _ _ _ Hs)
    as (r0 & r & r' & Hr0 & Hp0 & _ & Hr & Hst0 & _ & _ & Hpost & Hfin & Hp & _ & Hst).
  destruct (run_step _ _ _ _ _ Hs) as (Hok & _). unfold step_ok in Hok.
  exists r0, r'. repeat (split; [done|]).
  intros Hf.
  destruct (process_item_segment_failed _ _ _ _ _ _ _ _ _ Hok Hf)
    as (st1 & R & Hprep & _ & _ & _ & Hst' & Hev).
  destruct (prepare_row cfg w (has_a df0) _ _ (s_slide s) _ Hr) as (r1 & Hr1 & _).
  rewrite Hprep in Hr1. simpl in Hr1.
  pose proof (prepare_inl _ _ _ _ _ _ _ _ _ Hprep) as (_ & _ & _ & _ & Hvl & Hsl & _).
  rewrite Hst' in Hpost. unfold write_back in Hpost. simpl in Hpost.
  rewrite !list_lookup_alter_eq, Hr1 in Hpost. simpl in Hpost.
  injection Hpost as <-.
  exists st1, [EvOpen (full_path_of cfg (s_slide s))], R, (segment_args R), (c_filter (rs_cur R)).
  split; [done|]. split; [rewrite Hev; right; by left|].
  repeat (split; [done|]).
  rewrite Hf in Hst. simpl in Hst. simpl. congruence.
Qed.

(** C10 on the concrete batch: [b.svs] did not open, its flag is 0. *)
Lemma flag_cleared_witness :
  exists r', rows (df (r_final Demo.run)) !! 1%nat = Some r' /\ process r' = 0.
Proof.
  destruct (flag_cleared Demo.cfg Demo.world Demo.df0 1 _ eq_refl)
    as (r0 & r' & _ & _ & Hpost & Hfin & Hp & _).
  exists r'. split; [exact Hfin|exact Hp].
Defined.

(** ** The averages (lines 157-159 and 359-370) *)

(** The timers at the end of the loop are the timers at its start plus what
    the iterations added. *)
Lemma loop_timers cfg w legacy stack st :
  let steps := loop cfg w legacy stack st in
  let st' := final_state st steps in
  (seg_times st' == seg_times st + Qsum (map seg_added steps))%Q /\
  (patch_times st' == patch_times st + Qsum (map patch_added steps))%Q /\
  (stitch_times st' == stitch_times st + Qsum (map stitch_added steps))%Q.
Proof.
  revert st. induction stack as [|[idx slide] rest IH]; intros st.
  { simpl. unfold final_state. simpl. repeat split; ring. }
  simpl loop.
  pose proof (process_item_timers cfg w legacy st idx slide) as Ht.
  destruct (process_item cfg w legacy st idx slide) as [[st1 evs] fl]. simpl in Ht.
  assert (Hone :
    (seg_times st1 == seg_times st + (added_times fl).1.1)%Q /\
    (patch_times st1 == patch_times st + (added_times fl).1.2)%Q /\
    (stitch_times st1 == stitch_times st + (added_times fl).2)%Q).
  { unfold timers_after in Ht.
    destruct fl as [[]|]; simpl; destruct Ht as (-> & -> & ->); repeat split; ring. }
  destruct Hone as (H1 & H2 & H3).
  destruct fl as [d|e].
  - cbv zeta. rewrite final_state_cons. simpl s_post.
    destruct (IH st1) as (I1 & I2 & I3). cbv zeta in I1, I2, I3.
    rewrite I1, I2, I3, H1, H2, H3.
    unfold seg_added, patch_added, stitch_added. simpl. repeat split; ring.
  - cbv zeta. unfold final_state. simpl.
    unfold seg_added, patch_added, stitch_added. simpl.
    rewrite H1, H2, H3. simpl. repeat split; ring.
Qed.

(** A stage that is switched off contributes the sentinel -1 to an
    iteration that completes. *)
Lemma run_stages_processed cfg w st idx slide vp sa fp cp st' evs tse tpa tst :
  run_stages cfg w st idx slide vp sa fp cp = (st', evs, Next (Processed tse tpa tst)) ->
  (do_seg cfg = false -> tse = (-1 # 1)%Q) /\
  (do_patch cfg = false -> tpa = (-1 # 1)%Q) /\
  (do_stitch cfg = false -> tst = (-1 # 1)%Q).
Proof.
  unfold run_stages.
  destruct (stage_segment _ _ _ _ _) as [ev_seg [t_seg|]] eqn:Hseg; [|done].
  destruct (stage_mask _ _ _ _ _) as [ev_mask [|]]; [|done].
  destruct (stage_patch _ _ _ _ _) as [[st1 ev_patch] [t_patch|fl1]] eqn:Hpatch.
  2: { intros [= _ _ ->]. by apply stage_patch_spec in Hpatch as (_ & _ & _ & _ & ?). }
  destruct (stage_stitch _ _ _ _) as [ev_stitch [t_stitch|]] eqn:Hstitch; [|done].
  intros [= _ _ -> -> ->].
  split; [|split]; intros Hoff.
  - revert Hseg. unfold stage_segment. rewrite Hoff. by intros [= _ <-].
  - revert Hpatch. unfold stage_patch. rewrite Hoff. by intros [= _ _ <-].
  - revert Hstitch. unfold stage_stitch. rewrite Hoff. by intros [= _ <-].
Qed.

(** C7, as the code has it.  When a run returns, every selected row had its
    iteration, there is at least one, and each reported average is the sum
    of what the iterations added to the timer, divided by the number of
    selected rows.  An iteration adds something only if it completed (it
    reached line 359): then it adds the elapsed time of each stage, which is
    the sentinel -1 for a stage that is switched off.  An iteration that
    was skipped or failed adds nothing, and still counts in the divisor. *)
Theorem averages_over_selected cfg w df0 avg :
  r_outcome (seg_and_patch cfg w df0) = Returned avg ->
  let steps := r_steps (seg_and_patch cfg w df0) in
  let total := length (process_stack df0) in
  let n := inject_Z (Z.of_nat total) in
  length steps = total /\ (0 < total)%nat /\
  (avg_seg avg == Qsum (map seg_added steps) / n)%Q /\
  (avg_patch avg == Qsum (map patch_added steps) / n)%Q /\
  (avg_stitch avg == Qsum (map stitch_added steps) / n)%Q /\
  forall s, In s steps ->
    match s_flow s with
    | Next (Processed tse tpa tst) =>
        added_times (s_flow s) = (tse, tpa, tst) /\
        (do_seg cfg = false -> tse = (-1 # 1)%Q) /\
        (do_patch cfg = false -> tpa = (-1 # 1)%Q) /\
        (do_stitch cfg = false -> tst = (-1 # 1)%Q)
    | _ => added_times (s_flow s) = (0, 0, 0)%Q
    end.
Proof.
  unfold seg_and_patch. cbn [r_outcome r_steps].
  set (stack := process_stack df0). set (st0 := initial_state cfg w df0).
  set (steps := loop cfg w (has_a df0) stack st0).
  destruct (raised steps) eqn:Hraised; [done|].
  destruct (length stack =? 0)%nat eqn:Hlen; [done|].
  intros [= <-]. cbn [avg_seg avg_patch avg_stitch].
  apply Nat.eqb_neq in Hlen.
  split; [by apply loop_length|]. split; [lia|].
  destruct (loop_timers cfg w (has_a df0) stack st0) as (H1 & H2 & H3).
  cbv zeta in H1, H2, H3. fold steps in H1, H2, H3.
  assert (Hn : ~ (inject_Z (Z.of_nat (length stack)) == 0)%Q).
  { unfold Qeq. simpl. lia. }
  split; [rewrite H1; simpl; by field|].
  split; [rewrite H2; simpl; by field|].
  split; [rewrite H3; simpl; by field|].
  intros s Hin. apply loop_In in Hin as [_ Hok]. unfold step_ok in Hok.
  destruct (s_flow s) as [[| | | | | |tse tpa tst]|e] eqn:Hfl; try done.
  split; [done|].
  revert Hok. unfold process_item.
  pose proof (prepare_flow cfg w (has_a df0) (s_pre s) (s_idx s) (s_slide s)) as Hpf.
  destruct (prepare _ _ _ _ _ _) as [[st1 evs1] [R|fl1]]; simpl in Hpf.
  2: { intros [= _ _ ->]. done. }
  destruct (too_large _); [done|].
  destruct (run_stages _ _ _ _ _ _ _ _ _) as [[st2 evs2] fl2] eqn:Hrun.
  intros [= _ _ ->]. by eapply run_stages_processed.
Qed.

(** C7 on the concrete batch: three selected rows, one completes. *)
Lemma averages_over_selected_witness :
  exists avg, r_outcome Demo.run = Returned avg /\
    (avg_seg avg == Qsum (map seg_added (r_steps Demo.run)) / 3)%Q /\
    (avg_seg avg == 2)%Q.
Proof.
  eexists. split; [vm_compute; reflexivity|].
  split; [|vm_compute; reflexivity].
  exact (proj1 (proj2 (proj2
    (averages_over_selected Demo.cfg Demo.world Demo.df0 _ eq_refl)))).
Defined.

(** C7 as the specification words it fails: in the concrete batch [a.svs] is
    skipped, [b.svs] does not open and [c.svs] completes with 6 seconds of
    segmentation.  The reported average is 6 / 3 = 2; with -1 for each of
    the two rows that did not complete it would be (6 - 1 - 1) / 3 = 4/3. *)
Lemma averages_without_sentinels :
  exists avg,
    r_outcome Demo.run = Returned avg /\
    map s_flow (r_steps Demo.run)
      = [Next AlreadyExist; Next OpenFailed; Next (Processed (6 # 1) (3 # 1) (-1 # 1))] /\
    (avg_seg avg == 2)%Q /\
    (Qsum (map (fun s => (claimed_times (s_flow s)).1.1) (r_steps Demo.run)) / 3 == 4 # 3)%Q /\
    ~ (avg_seg avg
       == Qsum (map (fun s => (claimed_times (s_flow s)).1.1) (r_steps Demo.run)) / 3)%Q.
Proof.
  eexists. split; [vm_compute; reflexivity|].
  split; [vm_compute; reflexivity|].
  split; [vm_compute; reflexivity|].
  split; [vm_compute; reflexivity|].
  vm_compute. discriminate.
Qed.

(** With no row selected the run does not return: line 363 divides by
    zero, and nothing has been written. *)
Lemma empty_selection_raises cfg w df0 :
  process_stack df0 = [] ->
  r_outcome (seg_and_patch cfg w df0) = Raised Py.ZeroDivisionError /\
  trace cfg (seg_and_patch cfg w df0) = [].
Proof.
  intros H. unfold trace, seg_and_patch. cbn [r_outcome r_steps r_final].
  rewrite H. done.
Qed.

(** ** The checkpoints (lines 163-164 and 367) *)

(** An iteration never writes the data frame itself: line 164 belongs to
    the loop. *)
Lemma process_item_no_write cfg w legacy st idx slide st' evs fl e :
  process_item cfg w legacy st idx slide = (st', evs, fl) ->
  In e evs -> is_write e = false.
Proof.
  intros Hitem Hin.
  apply process_item_patch in Hitem as (before & Hb & [(-> & _)|Hrun]).
  { by destruct (Hb _ Hin) as (_ & _ & ?). }
  destruct Hrun as (st0 & cp & st1 & ev_patch & x & ev_stitch & Hp & Hst & -> & _).
  apply in_app_or in Hin as [Hin|Hin]; [by destruct (Hb _ Hin) as (_ & _ & ?)|].
  apply in_app_or in Hin as [Hin|Hin]; [|by destruct (Hst _ Hin) as (_ & _ & ?)].
  pose proof (stage_patch_events cfg w st0 (full_path_of cfg slide) cp e) as He.
  rewrite Hp in He. simpl in He.
  by destruct (He Hin) as [->|[->|[pa ->]]].
Qed.

Lemma stored_after_app cur l1 l2 :
  stored_after cur (l1 ++ l2) = stored_after (stored_after cur l1) l2.
Proof.
  revert cur. induction l1 as [|e l1 IH]; intros cur; [done|].
  destruct e; simpl; apply IH.
Qed.

Lemma writes_app l1 l2 : writes (l1 ++ l2) = (writes l1 + writes l2)%nat.
Proof. unfold writes. by rewrite List.filter_app, length_app. Qed.

Lemma no_write_stored cur l :
  (forall e, In e l -> is_write e = false) ->
  stored_after cur l = cur /\ writes l = 0%nat.
Proof.
  induction l as [|e l IH]; [done|].
  intros H. destruct IH as [IH1 IH2]; [intros e' He'; apply H; by right|].
  pose proof (H e (or_introl eq_refl)) as He.
  unfold writes in *. simpl. rewrite He. split; [|done].
  destruct e; try done.
Qed.







Lemma writes_steps cfg steps :
  (forall s, In s steps -> forall e, In e (s_events s) -> is_write e = false) ->
  writes (concat (map (step_trace cfg) steps)) = length steps /\
  forall cur, steps <> [] ->
    exists s, last steps = Some s /\
      stored_after cur (concat (map (step_trace cfg) steps)) = Some (df (s_pre s)).
Proof.
  induction steps as [|s rest IH]; intros Hnw; [done|].
  destruct IH as [IHw IHs]; [intros s' Hs'; apply Hnw; by right|].
  destruct (no_write_stored (Some (df (s_pre s))) (s_events s)) as [Hst Hz];
    [apply Hnw; by left|].
  cbn [map concat]. split.
  - rewrite writes_app. change (writes (step_trace cfg s)) with (S (writes (s_events s))).
    rewrite Hz, IHw. done.
  - intros cur _. rewrite stored_after_app.
    change (stored_after cur (step_trace cfg s))
      with (stored_after (Some (df (s_pre s))) (s_events s)).
    rewrite Hst.
    destruct rest as [|s' rest'].
    + exists s. done.
    + destruct (IHs (Some (df (s_pre s)))) as (sl & Hl & Hs); [done|].
      exists sl. split; [|done]. by rewrite last_cons, Hl.
Qed.

(** A run that returns made one iteration per selected row, and at least
    one. *)
Lemma returned_length cfg w df0 avg :
  r_outcome (seg_and_patch cfg w df0) = Returned avg ->
  length (r_steps (seg_and_patch cfg w df0)) = length (process_stack df0) /\
  (0 < length (process_stack df0))%nat.
Proof.
  unfold seg_and_patch. cbn [r_outcome r_steps].
  destruct (raised _) eqn:Hraised; [done|].
  destruct (length (process_stack df0) =? 0)%nat eqn:Hlen; [done|].
  intros _. apply Nat.eqb_neq in Hlen. split; [by apply loop_length|lia].
Qed.

Lemma run_no_write cfg w df0 s :
  In s (r_steps (seg_and_patch cfg w df0)) -> forall e, In e (s_events s) -> is_write e = false.
Proof.
  unfold seg_and_patch. cbn [r_steps]. intros Hin e He.
  apply loop_In in Hin as [_ Hok]. by eapply process_item_no_write.
Qed.





(** ** The Python primitives on examples *)

Example split_ex : Py.split "," "3,5,9" = ["3"; "5"; "9"].
Proof. reflexivity. Qed.
Example split_empty : Py.split "," "" = [""].
Proof. reflexivity. Qed.
Example int_ex : Py.int_of_str " -1_0 " = Some (-10).
Proof. reflexivity. Qed.
Example round_ex : (Py.round (5 # 2), Py.round (7 # 2), Py.round (-5 # 2), Py.round (-8 # 3)) = (2, 4, -2, -3).
Proof. reflexivity. Qed.
Example int_trunc_ex : (Py.int (-8 # 3), Py.int (8 # 3)) = (-2, 2).
Proof. reflexivity. Qed.
Example splitext_ex :
  (Py.splitext_root "a.b.svs", Py.splitext_root ".hidden", Py.splitext_root "d.x/file", Py.splitext_root "..a.b")
  = ("a.b", ".hidden", "d.x/file", "..a").
Proof. reflexivity. Qed.
Example join_ex : (Py.path_join "out/patches" "s.h5", Py.path_join "out/" "s.h5", Py.path_join "out" "/abs") = ("out/patches/s.h5", "out/s.h5", "/abs").
Proof. reflexivity. Qed.
Example index_ex : (Py.index [10; 20; 30] (-1), Py.index [10; 20; 30] 3, Py.index [10; 20; 30] (-4)) = (Py.Ok 30, Py.Err Py.IndexError, Py.Err Py.IndexError).
Proof. reflexivity. Qed.

(** * Further properties *)

(** ** The two metadata readers (lines 59-93) *)

(** X1.  Once the slide is open, a metadata reader does not raise: it
    returns the mean of the two spacings when both properties are there and
    [float] accepts them, and [None] in every other case (a key is missing,
    a value is [None], a value is not a number).  This holds for
    [_get_mpp_tiffslide] on the properties TiffSlide gives and for
    [_get_mpp_openslide] on those OpenSlide gives. *)
Theorem mpp_reader_result w slide_path tprops oprops :
  TiffSlide w slide_path = Some tprops ->
  OpenSlide w slide_path = Some oprops ->
  let mean props :=
    match mpp_x props, mpp_y props with
    | Some (PFloat mppx), Some (PFloat mppy) => Some ((mppx + mppy) / 2)%Q
    | _, _ => None
    end in
  _get_mpp_tiffslide w slide_path = Py.Ok (mean tprops) /\
  _get_mpp_openslide w slide_path = Py.Ok (mean oprops).
Proof.
  intros Ht Ho mean. subst mean. unfold _get_mpp_tiffslide, _get_mpp_openslide.
  rewrite Ht, Ho.
  split; [destruct tprops as [[[|x|]|] [[|y|]|]]|destruct oprops as [[[|x|]|] [[|y|]|]]];
    reflexivity.
Qed.

Lemma mpp_reader_result_witness :
  exists m, _get_mpp_tiffslide Demo.world "slides/c.svs" = Py.Ok (Some m) /\ Qeq m (1 # 4).
Proof.
  eexists. split.
  - exact (proj1 (mpp_reader_result Demo.world "slides/c.svs" Demo.mpp_quarter
                    Demo.mpp_quarter eq_refl eq_refl)).
  - vm_compute. reflexivity.
Defined.

(** X2.  When TiffSlide and OpenSlide give the same properties for a slide,
    the two readers return the same thing; so when the first one returns
    [None] the second does too, and lines 290-314 find no spacing. *)
Theorem mpp_readers_agree w slide_path props :
  TiffSlide w slide_path = Some props ->
  OpenSlide w slide_path = Some props ->
  _get_mpp_tiffslide w slide_path = _get_mpp_openslide w slide_path /\
  (_get_mpp_tiffslide w slide_path = Py.Ok None ->
   (get_spacing w slide_path).2 = SpacingNone).
Proof.
  intros Ht Ho.
  assert (Heq : _get_mpp_tiffslide w slide_path = _get_mpp_openslide w slide_path).
  { unfold _get_mpp_tiffslide, _get_mpp_openslide. rewrite Ht, Ho.
    destruct props as [[[|x|]|] [[|y|]|]]; reflexivity. }
  split; [done|].
  intros Hnone. unfold get_spacing. rewrite <- Heq, Hnone. done.
Qed.

Lemma mpp_readers_agree_witness :
  _get_mpp_tiffslide Demo.world "slides/c.svs" = _get_mpp_openslide Demo.world "slides/c.svs".
Proof.
  exact (proj1 (mpp_readers_agree Demo.world "slides/c.svs" Demo.mpp_quarter eq_refl eq_refl)).
Defined.

(** ** Which rows a run visits (lines 135-138 and 163-170) *)

Lemma select_from_complete i rs j r :
  rs !! j = Some r -> process r = 1 -> In ((i + j)%nat, slide_id r) (select_from i rs).
Proof.
  revert i j. induction rs as [|r0 rs IH]; intros i j; [done|].
  destruct j as [|j]; simpl.
  - intros [= ->] ->. simpl. left. by rewrite Nat.add_0_r.
  - intros Hr Hp. specialize (IH (S i) j Hr Hp).
    replace (i + S j)%nat with (S i + j)%nat by lia.
    destruct (process r0 =? 1); [by right|done].
Qed.

Lemma select_from_sorted i rs : StronglySorted lt (select_from i rs).*1.
Proof.
  revert i. induction rs as [|r rs IH]; intros i; simpl; [constructor|].
  destruct (process r =? 1); [|done].
  rewrite fmap_cons. constructor; [done|].
  apply Forall_forall. intros idx Hin.
  apply list_elem_of_fmap in Hin as ([idx' slide] & -> & Hin).
  apply list_elem_of_In, select_from_In in Hin. simpl. lia.
Qed.

Lemma select_from_legacy_assign cfg i rs :
  select_from i (map (legacy_assign cfg) rs) = select_from i rs.
Proof.
  revert i. induction rs as [|r rs IH]; intros i; simpl; [done|].
  by rewrite IH.
Qed.

Lemma initial_process_stack cfg w df0 :
  process_stack (df (initial_state cfg w df0)) = process_stack df0.
Proof.
  unfold process_stack, initial_state. simpl.
  destruct (has_a df0); simpl; [apply select_from_legacy_assign|done].
Qed.

(** Taking the flag of the first selected row away leaves the other
    selected rows, in the same order. *)
Lemma select_from_head_cleared i rs rs' idx slide rest :
  select_from i rs = (idx, slide) :: rest ->
  length rs' = length rs ->
  (forall j, (i + j)%nat <> idx -> rs' !! j = rs !! j) ->
  (forall r', rs' !! (idx - i)%nat = Some r' -> process r' <> 1) ->
  select_from i rs' = rest.
Proof.
  revert i rs'. induction rs as [|r rs IH]; intros i rs' Hsel Hlen Hsame Hidx; [done|].
  destruct rs' as [|r' rs']; [done|].
  simpl in Hsel, Hlen. injection Hlen as Hlen.
  destruct (process r =? 1) eqn:Hp.
  - injection Hsel as <- <- <-.
    rewrite Nat.sub_diag in Hidx. specialize (Hidx r' eq_refl).
    simpl. apply Z.eqb_neq in Hidx. rewrite Hidx.
    f_equal. apply list_eq. intros j.
    apply (Hsame (S j)). lia.
  - assert (Hle : (S i <= idx)%nat).
    { assert (Hin : In (idx, slide) (select_from (S i) rs)) by (rewrite Hsel; by left).
      apply select_from_In in Hin. lia. }
    assert (Hr : r' = r).
    { specialize (Hsame 0%nat). simpl in Hsame.
      assert (Some r' = Some r) by (apply Hsame; lia). congruence. }
    subst r'. simpl. rewrite Hp.
    apply (IH (S i) rs' Hsel Hlen).
    + intros j Hj. apply (Hsame (S j)). lia.
    + intros r' Hr'. apply Hidx.
      replace (idx - i)%nat with (S (idx - S i)) by lia. done.
Qed.

(** Whatever holds of the loop state at the start and is kept by an
    iteration holds all along. *)
Lemma loop_state_invariant (P : State -> Prop) cfg w legacy stack st :
  (forall st idx slide, P st -> P (process_item cfg w legacy st idx slide).1.1) ->
  P st ->
  (forall s, In s (loop cfg w legacy stack st) -> P (s_pre s) /\ P (s_post s)) /\
  P (final_state st (loop cfg w legacy stack st)).
Proof.
  intros Hkeep. revert st. induction stack as [|[idx slide] rest IH]; intros st Hst.
  { by split. }
  simpl loop. specialize (Hkeep st idx slide Hst).
  destruct (process_item cfg w legacy st idx slide) as [[st1 evs] fl]. simpl in Hkeep.
  destruct fl as [d|e].
  - destruct (IH st1 Hkeep) as [IH1 IH2]. rewrite final_state_cons. split; [|done].
    intros s [<-|Hin]; [done|by apply IH1].
  - split; [|done]. by intros s [<-|[]].
Qed.

(** After [k] iterations the rows that still have the flag 1 are the
    selected rows from the [k]-th on. *)
Lemma loop_remaining cfg w legacy stack st :
  process_stack (df st) = stack ->
  (forall k s, loop cfg w legacy stack st !! k = Some s ->
     process_stack (df (s_pre s)) = drop k stack) /\
  process_stack (df (final_state st (loop cfg w legacy stack st)))
  = drop (length (loop cfg w legacy stack st)) stack.
Proof.
  revert st. induction stack as [|[idx slide] rest IH]; intros st Hst.
  { split; [done|]. simpl. done. }
  assert (Hrow : exists r, rows (df st) !! idx = Some r).
  { destruct (process_stack_In (df st) idx slide) as (r & Hr & _); [|eauto].
    rewrite Hst. by left. }
  destruct Hrow as [r Hr].
  assert (Hnext : process_stack (df (process_item cfg w legacy st idx slide).1.1) = rest).
  { destruct (process_item_row cfg w legacy st idx slide r Hr) as (r' & Hr' & Hp & _).
    destruct (process_item_frame cfg w legacy st idx slide) as (_ & Hl & Hf).
    apply (select_from_head_cleared 0 (rows (df st)) _ idx slide rest Hst Hl).
    - intros j Hj. apply Hf. simpl in Hj. congruence.
    - rewrite Nat.sub_0_r, Hr'. intros r0 [= <-]. lia. }
  simpl loop.
  destruct (process_item cfg w legacy st idx slide) as [[st1 evs] fl]. simpl in Hnext.
  destruct fl as [d|e].
  - destruct (IH st1 Hnext) as [IH1 IH2]. rewrite final_state_cons. split; [|done].
    intros [|k] s; simpl; [by intros [= <-]|apply IH1].
  - split; [|done]. intros [|k] s; simpl; [by intros [= <-]|done].
Qed.

(** X3.  A row whose flag is not 1 is not visited by the run, and ends the
    run as the run found it: unchanged when the data frame has no legacy
    column, and with the five columns of lines 143-155 overwritten by the
    defaults when it has one. *)
Theorem unselected_rows_untouched cfg w df0 j r :
  rows df0 !! j = Some r ->
  process r <> 1 ->
  (forall s, In s (r_steps (seg_and_patch cfg w df0)) -> s_idx s <> j) /\
  rows (df (r_final (seg_and_patch cfg w df0))) !! j
  = Some (if has_a df0 then legacy_assign cfg r else r).
Proof.
  intros Hr Hp.
  assert (Hnot : ~ In j (process_stack df0).*1).
  { intros Hin. apply list_elem_of_In, list_elem_of_fmap in Hin as ([idx slide] & -> & Hin).
    apply list_elem_of_In, process_stack_In in Hin as (r' & Hr' & _ & Hp').
    simpl in Hr. congruence. }
  split.
  - unfold seg_and_patch. cbn [r_steps]. intros s Hs <-.
    apply loop_In in Hs as [Hs _]. apply Hnot.
    apply list_elem_of_In, list_elem_of_fmap. exists (s_idx s, s_slide s).
    split; [done|]. by apply list_elem_of_In.
  - unfold seg_and_patch. cbn [r_final].
    destruct (loop_frame cfg w (has_a df0) (process_stack df0) (initial_state cfg w df0))
      as (_ & _ & Hf).
    rewrite (Hf j Hnot). unfold initial_state. simpl.
    destruct (has_a df0); simpl; [|done].
    change (map (legacy_assign cfg) (rows df0)) with (legacy_assign cfg <$> rows df0).
    by rewrite list_lookup_fmap, Hr.
Qed.

Lemma unselected_rows_untouched_witness :
  rows (df (r_final (seg_and_patch Demo.cfg Demo2.world_empty Demo2.partly_done))) !! 0%nat
  = Some (set_status "processed" (set_process 0 (Demo.row "a.svs"))).
Proof.
  exact (proj2 (unselected_rows_untouched Demo.cfg Demo2.world_empty Demo2.partly_done 0
                  _ eq_refl ltac:(vm_compute; discriminate))).
Defined.

(** X4.  The selection is the rows with flag 1, in the order of the data
    frame, each once; the [k]-th iteration of a run works on the [k]-th of
    them, under the name in its column [slide_id]; and a run that returns
    has made exactly one iteration for each. *)
Theorem run_visits_selected cfg w df0 :
  (forall idx slide,
      In (idx, slide) (process_stack df0) <->
      exists r, rows df0 !! idx = Some r /\ process r = 1 /\ slide_id r = slide) /\
  StronglySorted lt (process_stack df0).*1 /\
  (forall k s, r_steps (seg_and_patch cfg w df0) !! k = Some s ->
     process_stack df0 !! k = Some (s_idx s, s_slide s)) /\
  (forall avg, r_outcome (seg_and_patch cfg w df0) = Returned avg ->
     map (fun s => (s_idx s, s_slide s)) (r_steps (seg_and_patch cfg w df0))
     = process_stack df0).
Proof.
  split; [|split; [|split]].
  - intros idx slide. split.
    + intros Hin. apply process_stack_In in Hin as (r & ? & ? & ?). eauto.
    + intros (r & Hr & Hp & <-).
      apply (select_from_complete 0 _ _ _ Hr Hp).
  - apply select_from_sorted.
  - intros k s Hs. by apply run_step in Hs as (_ & ? & _).
  - intros avg Hret.
    destruct (returned_length cfg w df0 avg Hret) as [Hlen _].
    apply list_eq_same_length with (length (process_stack df0)); [done|by rewrite length_map|].
    intros k x y _ Hx Hy.
    change (map (fun s => (s_idx s, s_slide s)) (r_steps (seg_and_patch cfg w df0)))
      with ((fun s => (s_idx s, s_slide s)) <$> r_steps (seg_and_patch cfg w df0)) in Hx.
    rewrite list_lookup_fmap in Hx.
    destruct (r_steps (seg_and_patch cfg w df0) !! k) as [s|] eqn:Hs; [|done].
    injection Hx as <-. apply run_step in Hs as (_ & Hs & _). congruence.
Qed.

(** X5.  The data frame written at the top of the [k]-th iteration (line
    164) selects exactly the rows the loop has not started yet: the
    selection of the run without its first [k] rows.  The row of the
    iteration that is starting is still selected in it. *)
Theorem checkpoint_selects_remaining cfg w df0 k s :
  r_steps (seg_and_patch cfg w df0) !! k = Some s ->
  In (EvToCsv (csv_path cfg) (df (s_pre s))) (trace cfg (seg_and_patch cfg w df0)) /\
  process_stack (df (s_pre s)) = drop k (process_stack df0) /\
  exists rest, process_stack (df (s_pre s)) = (s_idx s, s_slide s) :: rest.
Proof.
  intros Hs.
  assert (Hrem : process_stack (df (s_pre s)) = drop k (process_stack df0)).
  { revert Hs. unfold seg_and_patch. cbn [r_steps].
    apply (loop_remaining cfg w (has_a df0) (process_stack df0) (initial_state cfg w df0)).
    apply initial_process_stack. }
  split; [|split; [done|]].
  - unfold trace, trace_of. apply in_or_app. left.
    apply in_concat. exists (step_trace cfg s). split; [|by left].
    apply in_map. apply list_elem_of_In. by eapply list_elem_of_lookup_2.
  - rewrite Hrem. apply run_step in Hs as (_ & Hs & _).
    exists (drop (S k) (process_stack df0)). by apply drop_S.
Qed.

Lemma checkpoint_selects_remaining_witness :
  exists s, r_steps Demo.run !! 1%nat = Some s /\
    process_stack (df (s_pre s)) = [(1%nat, "b.svs"); (2%nat, "c.svs")].
Proof.
  eexists. split; [vm_compute; reflexivity|].
  exact (proj1 (proj2 (checkpoint_selects_remaining Demo.cfg Demo.world Demo.df0 1 _ eq_refl))).
Defined.

(** X6.  A run that returns leaves no row with the flag 1; and
    [seg_and_patch] on a data frame without such a row does not return: line
    363 divides by zero before anything is written.  So feeding the data
    frame of a finished run back raises [ZeroDivisionError]. *)
Theorem rerun_of_finished_run_raises cfg w df0 avg cfg' w' :
  r_outcome (seg_and_patch cfg w df0) = Returned avg ->
  let done_df := df (r_final (seg_and_patch cfg w df0)) in
  process_stack done_df = [] /\
  r_outcome (seg_and_patch cfg' w' done_df) = Raised Py.ZeroDivisionError /\
  trace cfg' (seg_and_patch cfg' w' done_df) = [].
Proof.
  intros Hret done_df.
  assert (Hnone : process_stack done_df = []).
  { destruct (returned_length cfg w df0 avg Hret) as [Hlen _].
    subst done_df. revert Hlen. unfold seg_and_patch. cbn [r_steps r_final].
    intros Hlen.
    destruct (loop_remaining cfg w (has_a df0) (process_stack df0) (initial_state cfg w df0))
      as [_ Hfin]; [apply initial_process_stack|].
    rewrite Hfin, Hlen. apply drop_all. }
  split; [done|]. by apply empty_selection_raises.
Qed.

Lemma rerun_of_finished_run_raises_witness :
  r_outcome (seg_and_patch Demo.cfg Demo.world (df (r_final Demo.run)))
  = Raised Py.ZeroDivisionError.
Proof.
  exact (proj1 (proj2 (rerun_of_finished_run_raises Demo.cfg Demo.world Demo.df0
    {| avg_seg := 6 # 3; avg_patch := 3 # 3; avg_stitch := -1 # 3 |}
    Demo.cfg Demo.world eq_refl))).
Defined.

(** ** Exceptions that nothing catches *)

Lemma loop_raise_last cfg w legacy stack st k s e :
  loop cfg w legacy stack st !! k = Some s ->
  s_flow s = Raise e ->
  last (loop cfg w legacy stack st) = Some s /\
  length (loop cfg w legacy stack st) = S k.
Proof.
  revert st k. induction stack as [|[idx slide] rest IH]; intros st k; [done|].
  simpl loop.
  destruct (process_item cfg w legacy st idx slide) as [[st1 evs] fl].
  destruct fl as [d|e0].
  - destruct k as [|k]; simpl.
    + by intros [= <-] [=].
    + intros Hs He. destruct (IH st1 k Hs He) as [Hl Hn].
      rewrite last_cons, Hl. simpl. by rewrite Hn.
  - destruct k as [|k]; simpl; [|done]. by intros [= <-] _.
Qed.

Lemma run_raise cfg w df0 k s e :
  r_steps (seg_and_patch cfg w df0) !! k = Some s ->
  s_flow s = Raise e ->
  r_outcome (seg_and_patch cfg w df0) = Raised e /\
  last (r_steps (seg_and_patch cfg w df0)) = Some s /\
  length (r_steps (seg_and_patch cfg w df0)) = S k.
Proof.
  unfold seg_and_patch. cbn [r_steps r_outcome]. intros Hs He.
  destruct (loop_raise_last _ _ _ _ _ _ _ _ Hs He) as [Hl Hn].
  split; [|done]. unfold raised. by rewrite Hl, He.
Qed.

(** X7.  An exception that no handler of the loop catches ends the run: the
    iteration that raised is the last one, [seg_and_patch] raises the same
    exception, line 367 is not reached, and the file holds the data frame
    written at the top of that iteration, in which the row of the failing
    slide and every later selected row still have the flag 1. *)
Theorem uncaught_exception_stops_run cfg w df0 k s e :
  r_steps (seg_and_patch cfg w df0) !! k = Some s ->
  s_flow s = Raise e ->
  r_outcome (seg_and_patch cfg w df0) = Raised e /\
  length (r_steps (seg_and_patch cfg w df0)) = S k /\
  writes (trace cfg (seg_and_patch cfg w df0)) = S k /\
  stored (trace cfg (seg_and_patch cfg w df0)) = Some (df (s_pre s)) /\
  process_stack (df (s_pre s)) = drop k (process_stack df0).
Proof.
  intros Hs He.
  destruct (run_raise _ _ _ _ _ _ Hs He) as (Hout & Hlast & Hlen).
  split; [done|]. split; [done|].
  assert (Hnw := run_no_write cfg w df0).
  destruct (writes_steps cfg _ Hnw) as [Hw Hst].
  unfold trace, trace_of, final_write. rewrite Hout, app_nil_r.
  split; [by rewrite Hw|].
  split.
  - destruct (Hst None) as (sl & Hsl & Hstored).
    { intros Hnil. by rewrite Hnil in Hlast. }
    unfold stored. rewrite Hstored. congruence.
  - revert Hs. unfold seg_and_patch. cbn [r_steps].
    apply (loop_remaining cfg w (has_a df0) (process_stack df0) (initial_state cfg w df0)).
    apply initial_process_stack.
Qed.

(** Lines 201-222 without the legacy column: the dictionaries are the
    columns of the row, and nothing is written. *)
Lemma resolve_params_plain cfg wsi d idx r :
  use_default_params cfg = false ->
  rows d !! idx = Some r ->
  resolve_params cfg false wsi d idx
  = (d, Py.Ok {| c_vis := vis r; c_filter := filt r; c_seg := seg r; c_patch := pat r |}).
Proof.
  intros Hdef Hr. unfold resolve_params. rewrite Hdef. by rewrite !(loc_Ok _ _ _ Hr).
Qed.

Lemma resolve_ids_error ids e : resolve_ids ids = Py.Err e -> e = Py.ValueError.
Proof.
  unfold resolve_ids. destruct (_ && _); [|done].
  induction (Py.split "," ids) as [|p ps IH]; simpl; [done|].
  destruct (Py.int_of_str p); [|by intros [= <-]].
  destruct (Py.astype_int ps); [done|]. intros [= <-]. by apply IH.
Qed.

(** X8.  With per-record parameters and no legacy column, a row whose
    [keep_ids] or [exclude_ids] is neither ["none"], nor empty, nor a list of
    integers makes its iteration raise [ValueError] right after the slide
    is opened, and so stops the whole run. *)
Theorem malformed_ids_stop_run cfg w df0 k s r0 wsi :
  r_steps (seg_and_patch cfg w df0) !! k = Some s ->
  has_a df0 = false ->
  use_default_params cfg = false ->
  auto_skip cfg && Py.isfile (fs (s_pre s)) (h5_path cfg (s_slide s)) = false ->
  WholeSlideImage w (full_path_of cfg (s_slide s)) = Some wsi ->
  rows df0 !! s_idx s = Some r0 ->
  (exists e, resolve_ids (keep_ids (seg r0)) = Py.Err e) \/
  (exists e, resolve_ids (exclude_ids (seg r0)) = Py.Err e) ->
  s_flow s = Raise Py.ValueError /\
  s_events s = [EvOpen (full_path_of cfg (s_slide s))] /\
  r_outcome (seg_and_patch cfg w df0) = Raised Py.ValueError.
Proof.
  intros Hs Hleg Hdef Hskip Hopen Hr0 Hbad.
  destruct (run_step_row _ _ _ _ _ Hs)
    as (r0' & r & r' & Hr0' & _ & _ & Hr & _ & Hseg & _).
  assert (r0' = r0) by congruence. subst r0'.
  destruct (run_step _ _ _ _ _ Hs) as (Hok & _). unfold step_ok in Hok.
  pose proof (loc_set_lookup (set_process 0) _ _ _ Hr) as Hr1.
  assert (Hflow : s_flow s = Raise Py.ValueError /\
                  s_events s = [EvOpen (full_path_of cfg (s_slide s))]).
  { revert Hok. unfold process_item, prepare. simpl fs. simpl df.
    rewrite Hskip, Hopen, Hleg, (resolve_params_plain _ _ _ _ _ Hdef Hr1).
    cbn [c_seg c_vis]. change (seg (set_process 0 r)) with (seg r). rewrite Hseg.
    destruct (resolve_ids (keep_ids (seg r0))) as [keep|e1] eqn:Hk.
    - destruct Hbad as [[e Hbad]|[e Hbad]]; [done|]. rewrite Hbad.
      apply resolve_ids_error in Hbad as ->. by intros [= _ <- <-].
    - apply resolve_ids_error in Hk as ->. by intros [= _ <- <-]. }
  destruct Hflow as [Hfl Hev]. split; [done|]. split; [done|].
  by destruct (run_raise _ _ _ _ _ _ Hs Hfl).
Qed.

Lemma malformed_ids_stop_run_witness :
  r_outcome (seg_and_patch Demo.cfg Demo2.world_empty Demo2.bad_ids) = Raised Py.ValueError.
Proof.
  exact (proj2 (proj2 (malformed_ids_stop_run Demo.cfg Demo2.world_empty Demo2.bad_ids
    0 _ _ _ eq_refl eq_refl eq_refl eq_refl eq_refl eq_refl
    (or_introl (ex_intro _ Py.ValueError eq_refl))))).
Defined.

(** X9.  With per-record parameters and no legacy column, a row whose
    [seg_level] is not negative and not a level of the slide makes its
    iteration raise [IndexError] at line 256, and so stops the whole run;
    the level is not clamped and the slide is not marked. *)
Theorem level_out_of_range_stops_run cfg w df0 k s r0 wsi keep excl :
  r_steps (seg_and_patch cfg w df0) !! k = Some s ->
  has_a df0 = false ->
  use_default_params cfg = false ->
  auto_skip cfg && Py.isfile (fs (s_pre s)) (h5_path cfg (s_slide s)) = false ->
  WholeSlideImage w (full_path_of cfg (s_slide s)) = Some wsi ->
  rows df0 !! s_idx s = Some r0 ->
  resolve_ids (keep_ids (seg r0)) = Py.Ok keep ->
  resolve_ids (exclude_ids (seg r0)) = Py.Ok excl ->
  Z.of_nat (length (level_dim wsi)) <= seg_level (seg r0) ->
  s_flow s = Raise Py.IndexError /\
  s_events s = [EvOpen (full_path_of cfg (s_slide s))] /\
  r_outcome (seg_and_patch cfg w df0) = Raised Py.IndexError /\
  exists r', rows (df (s_post s)) !! s_idx s = Some r' /\ status r' = status r0.
Proof.
  intros Hs Hleg Hdef Hskip Hopen Hr0 Hkeep Hexcl Hlvl.
  destruct (run_step_row _ _ _ _ _ Hs)
    as (r0' & r & r' & Hr0' & _ & _ & Hr & Hst0 & Hseg & _ & Hpost & _ & _ & _ & Hst).
  assert (r0' = r0) by congruence. subst r0'.
  destruct (run_step _ _ _ _ _ Hs) as (Hok & _). unfold step_ok in Hok.
  pose proof (loc_set_lookup (set_process 0) _ _ _ Hr) as Hr1.
  assert (Hidx : Py.index (level_dim wsi) (auto_level wsi (seg_level (seg r0)))
                 = Py.Err Py.IndexError).
  { unfold auto_level, Py.index.
    destruct (seg_level (seg r0) <? 0) eqn:Hneg; [apply Z.ltb_lt in Hneg; lia|].
    rewrite Hneg.
    assert (Hlt : (seg_level (seg r0) <? Z.of_nat (length (level_dim wsi))) = false)
      by (apply Z.ltb_ge; lia).
    by rewrite Hlt, andb_false_r. }
  assert (Hflow : s_flow s = Raise Py.IndexError /\
                  s_events s = [EvOpen (full_path_of cfg (s_slide s))]).
  { revert Hok. unfold process_item, prepare. simpl fs. simpl df.
    rewrite Hskip, Hopen, Hleg, (resolve_params_plain _ _ _ _ _ Hdef Hr1).
    cbn [c_seg c_vis]. change (seg (set_process 0 r)) with (seg r). rewrite Hseg.
    rewrite Hkeep, Hexcl, Hidx. by intros [= _ <- <-]. }
  destruct Hflow as [Hfl Hev]. split; [done|]. split; [done|].
  split; [by destruct (run_raise _ _ _ _ _ _ Hs Hfl)|].
  exists r'. split; [done|]. rewrite Hfl in Hst. simpl in Hst. congruence.
Qed.

Lemma level_out_of_range_stops_run_witness :
  r_outcome (seg_and_patch Demo.cfg Demo2.world_empty Demo2.bad_level) = Raised Py.IndexError.
Proof.
  exact (proj1 (proj2 (proj2 (level_out_of_range_stops_run Demo.cfg Demo2.world_empty
    Demo2.bad_level 0 _ _ _ [] [] eq_refl eq_refl eq_refl eq_refl eq_refl eq_refl
    eq_refl eq_refl ltac:(vm_compute; discriminate))))).
Defined.

Lemma uncaught_exception_stops_run_witness :
  exists s, r_steps (seg_and_patch Demo.cfg Demo2.world_empty Demo2.bad_ids) !! 0%nat = Some s /\
    stored (trace Demo.cfg (seg_and_patch Demo.cfg Demo2.world_empty Demo2.bad_ids))
    = Some (df (s_pre s)) /\
    process_stack (df (s_pre s)) = [(0%nat, "c.svs"); (1%nat, "d.svs")].
Proof.
  eexists. split; [vm_compute; reflexivity|].
  destruct (uncaught_exception_stops_run Demo.cfg Demo2.world_empty Demo2.bad_ids 0 _
              Py.ValueError eq_refl eq_refl) as (_ & _ & _ & Hst & Hsel).
  split; [exact Hst|exact Hsel].
Defined.

(** ** What the stages are called with (lines 269-352) *)

Lemma isfile_In l p : Py.isfile l p = true <-> In p l.
Proof.
  unfold Py.isfile. rewrite existsb_exists. split.
  - intros (x & Hx & Heq). apply String.eqb_eq in Heq. by subst.
  - intros Hin. exists p. split; [done|apply String.eqb_refl].
Qed.

(** The patching stage only adds files, and leaves the sizes alone when they
    are in pixels. *)
Lemma stage_patch_state cfg w st full_path cp st1 evs x :
  stage_patch cfg w st full_path cp = (st1, evs, x) ->
  (exists created, fs st1 = created ++ fs st /\ (do_patch cfg = false -> created = [])) /\
  (patch_spacing cfg = None ->
   st_patch_size st1 = st_patch_size st /\ st_step_size st1 = st_step_size st).
Proof.
  unfold stage_patch, stage_geometry.
  destruct (do_patch cfg).
  2: { intros [= <- <- <-]. split; [by exists []|done]. }
  destruct (patch_spacing cfg) as [sp|].
  - destruct (get_spacing w full_path) as [ev [| |mpp]];
      try (intros [= <- <- <-]; split; [by exists []|done]).
    destruct (Qeq_bool mpp 0); [intros [= <- <- <-]; split; [by exists []|done]|].
    destruct (process_contours w _ _) as [[created t]|]; intros [= <- <- <-].
    + split; [by exists created|done].
    + split; [by exists []|done].
  - destruct (process_contours w _ _) as [[created t]|]; intros [= <- <- <-].
    + split; [by exists created|done].
    + split; [by exists []|done].
Qed.

(** What a call of [patching] leaves on disk. *)
Lemma stage_patch_created cfg w st full_path cp st1 evs x p pa :
  stage_patch cfg w st full_path cp = (st1, evs, x) ->
  In (EvPatching p pa) evs ->
  p = full_path /\ do_patch cfg = true /\
  match process_contours w p pa with
  | Some (created, t) => fs st1 = created ++ fs st /\ x = inl t
  | None => fs st1 = fs st /\ x = inr (Raise Py.CollaboratorError)
  end.
Proof.
  unfold stage_patch. destruct (do_patch cfg); [|by intros [= <- <- <-]].
  destruct (stage_geometry cfg w st full_path) as [ev_geo [st0|fl]] eqn:Hgeo.
  - assert (Hst0 : fs st0 = fs st /\ forall e, In e ev_geo -> is_patching_call e = false).
    { revert Hgeo. unfold stage_geometry. destruct (patch_spacing cfg) as [sp|].
      - pose proof (get_spacing_events w full_path) as Hev.
        destruct (get_spacing w full_path) as [ev [| |mpp]]; try done.
        destruct (Qeq_bool mpp 0); [done|]. intros [= <- <-]. split; [done|].
        intros e He. by destruct (Hev e He) as [->| ->].
      - intros [= <- <-]. by split. }
    destruct Hst0 as [Hfs Hno].
    destruct (process_contours w full_path (patch_args cfg st0 cp)) as [[created t]|] eqn:Hpc;
      intros [= <- <- <-] Hin; apply in_app_or in Hin as [Hin|[[= <- <-]|[]]];
      try (by apply Hno in Hin).
    + rewrite Hpc. simpl. by rewrite Hfs.
    + rewrite Hpc. by rewrite Hfs.
  - intros [= <- <- <-] Hin. exfalso.
    revert Hgeo. unfold stage_geometry. destruct (patch_spacing cfg) as [sp|]; [|done].
    pose proof (get_spacing_events w full_path) as Hev.
    destruct (get_spacing w full_path) as [ev [| |mpp]].
    + intros [= <- _]. by destruct (Hev _ Hin).
    + intros [= <- _]. by destruct (Hev _ Hin).
    + destruct (Qeq_bool mpp 0); [|done]. intros [= <- _]. by destruct (Hev _ Hin).
Qed.

(** The files on disk after the patching stage: those before it, and what
    the call of [patching] created. *)
Lemma stage_patch_files cfg w st full_path cp st1 evs x :
  stage_patch cfg w st full_path cp = (st1, evs, x) ->
  fs st1 = fs st \/
  exists pa created t,
    In (EvPatching full_path pa) evs /\
    process_contours w full_path pa = Some (created, t) /\
    fs st1 = created ++ fs st.
Proof.
  intros Hpatch. pose proof Hpatch as Hp. revert Hp.
  unfold stage_patch. destruct (do_patch cfg); [|intros [= <- _ _]; by left].
  destruct (stage_geometry cfg w st full_path) as [ev_geo [st0|fl]];
    [|intros [= <- _ _]; by left].
  destruct (process_contours w full_path (patch_args cfg st0 cp)) as [[created t]|] eqn:Hpc;
    intros [= Hst1 Hevs _].
  - assert (Hin : In (EvPatching full_path (patch_args cfg st0 cp)) evs).
    { rewrite <- Hevs. apply in_or_app. right. by left. }
    destruct (stage_patch_created _ _ _ _ _ _ _ _ _ _ Hpatch Hin) as (_ & _ & Hc).
    rewrite Hpc in Hc. destruct Hc as [Hfs _].
    right. by exists (patch_args cfg st0 cp), created, t.
  - assert (Hin : In (EvPatching full_path (patch_args cfg st0 cp)) evs).
    { rewrite <- Hevs. apply in_or_app. right. by left. }
    destruct (stage_patch_created _ _ _ _ _ _ _ _ _ _ Hpatch Hin) as (_ & _ & Hc).
    rewrite Hpc in Hc. destruct Hc as [Hfs _]. by left.
Qed.

(** Every call of lines 269-352, with its arguments. *)
Lemma run_stages_calls cfg w st idx slide vp sa fp cp st' evs fl e :
  run_stages cfg w st idx slide vp sa fp cp = (st', evs, fl) ->
  In e evs ->
  let p := full_path_of cfg slide in
  (do_seg cfg = true /\ e = EvSegment p sa fp) \/
  (save_mask cfg = true /\
   e = EvSaveMask p vp (Py.path_join (mask_save_dir cfg) (Py.splitext_root slide ++ ".jpg")%string)) \/
  (exists st1 ev_patch x,
     stage_patch cfg w st p cp = (st1, ev_patch, x) /\ In e ev_patch /\
     fs st' = fs st1) \/
  (do_stitch cfg = true /\
   e = EvStitching (h5_path cfg slide)
         (Py.path_join (stitch_save_dir cfg) (Py.splitext_root slide ++ ".jpg")%string) /\
   (Py.isfile (fs st) (h5_path cfg slide) = true \/
    exists pa created t,
      In (EvPatching p pa) evs /\ process_contours w p pa = Some (created, t) /\
      In (h5_path cfg slide) created)).
Proof.
  unfold run_stages. intros Hrun Hin. cbv zeta.
  set (p := full_path_of cfg slide) in *.
  destruct (stage_segment _ _ _ _ _) as [ev_seg o] eqn:Hseg.
  assert (Hs : forall e, In e ev_seg -> do_seg cfg = true /\ e = EvSegment p sa fp).
  { revert Hseg. unfold stage_segment. destruct (do_seg cfg); intros [= <- _] e0; [|done].
    by intros [<-|[]]. }
  destruct o as [t_seg|].
  2: { injection Hrun as _ <- _. left. by apply Hs. }
  destruct (stage_mask _ _ _ _ _) as [ev_mask b] eqn:Hmask.
  assert (Hm : forall e, In e ev_mask -> save_mask cfg = true /\
    e = EvSaveMask p vp (Py.path_join (mask_save_dir cfg) (Py.splitext_root slide ++ ".jpg")%string)).
  { revert Hmask. unfold stage_mask. destruct (save_mask cfg); intros [= <- _] e0; [|done].
    by intros [<-|[]]. }
  destruct b.
  2: { injection Hrun as _ <- _. apply in_app_or in Hin as [Hin|Hin]; [left|right; left]; auto. }
  destruct (stage_patch _ _ _ _ _) as [[st1 ev_patch] x] eqn:Hpatch.
  destruct x as [t_patch|fl1].
  2: { injection Hrun as <- <- _.
       apply in_app_or in Hin as [Hin|Hin]; [left; auto|].
       apply in_app_or in Hin as [Hin|Hin]; [right; left; auto|right; right; left].
       by exists st1, ev_patch, (inr fl1). }
  destruct (stage_stitch _ _ _ _) as [ev_stitch o] eqn:Hstitch.
  assert (Ht : forall e, In e ev_stitch ->
    do_stitch cfg = true /\
    e = EvStitching (h5_path cfg slide)
          (Py.path_join (stitch_save_dir cfg) (Py.splitext_root slide ++ ".jpg")%string) /\
    (Py.isfile (fs st) (h5_path cfg slide) = true \/
     exists pa created t,
       In (EvPatching p pa) ev_patch /\ process_contours w p pa = Some (created, t) /\
       In (h5_path cfg slide) created)).
  { revert Hstitch. unfold stage_stitch.
    destruct (do_stitch cfg); [|by intros [= <- _] e0].
    destruct (Py.isfile _ _) eqn:Hfile; intros [= <- _] e0; [|done].
    intros [<-|[]]. split; [done|]. split; [done|].
    destruct (stage_patch_files _ _ _ _ _ _ _ _ Hpatch) as [Hfs|(pa & created & t & Hpa & Hpc & Hfs)].
    - left. by rewrite <- Hfs.
    - rewrite Hfs in Hfile. apply isfile_In in Hfile. apply in_app_or in Hfile as [Hc|Hold].
      + right. by exists pa, created, t.
      + left. by apply isfile_In. }
  assert (Hevs : evs = ev_seg ++ ev_mask ++ ev_patch ++ ev_stitch /\ fs st' = fs st1).
  { destruct o; by injection Hrun as <- <- _. }
  destruct Hevs as [-> Hfs'].
  apply in_app_or in Hin as [Hin|Hin]; [left; auto|].
  apply in_app_or in Hin as [Hin|Hin]; [right; left; auto|].
  apply in_app_or in Hin as [Hin|Hin]; [right; right; left|right; right; right].
  - by exists st1, ev_patch, (inl t_patch).
  - destruct (Ht _ Hin) as (Hd & He & [Hold|(pa & created & t & Hpa & Hpc & Hc)]).
    + split; [done|]. split; [done|]. by left.
    + split; [done|]. split; [done|]. right. exists pa, created, t.
      split; [|done]. apply in_or_app. right. apply in_or_app. right.
      apply in_or_app. by left.
Qed.

(** The same for a whole iteration, from the state it starts in. *)
Lemma process_item_calls cfg w legacy st idx slide st' evs fl e :
  process_item cfg w legacy st idx slide = (st', evs, fl) ->
  In e evs ->
  let p := full_path_of cfg slide in
  e = EvOpen p \/
  exists st1 R,
    prepare cfg w legacy st idx slide = (st1, [EvOpen p], inl R) /\
    too_large (rs_dim R) = false /\
    ((do_seg cfg = true /\ e = EvSegment p (segment_args R) (c_filter (rs_cur R))) \/
     (save_mask cfg = true /\
      e = EvSaveMask p (vis_args R)
            (Py.path_join (mask_save_dir cfg) (Py.splitext_root slide ++ ".jpg")%string)) \/
     (exists st0 st2 ev_patch x,
        stage_patch cfg w st0 p (c_patch (rs_cur R)) = (st2, ev_patch, x) /\ In e ev_patch /\
        fs st0 = fs st /\ st_patch_size st0 = st_patch_size st /\
        st_step_size st0 = st_step_size st /\ fs st' = fs st2) \/
     (do_stitch cfg = true /\
      e = EvStitching (h5_path cfg slide)
            (Py.path_join (stitch_save_dir cfg) (Py.splitext_root slide ++ ".jpg")%string) /\
      (Py.isfile (fs st) (h5_path cfg slide) = true \/
       exists pa created t,
         In (EvPatching p pa) evs /\ process_contours w p pa = Some (created, t) /\
         In (h5_path cfg slide) created))).
Proof.
  unfold process_item. intros Hitem Hin. cbv zeta.
  set (p := full_path_of cfg slide) in *.
  pose proof (prepare_events cfg w legacy st idx slide) as Hev.
  pose proof (prepare_vars cfg w legacy st idx slide) as (Hfs & _ & _ & _ & Hps & Hss).
  destruct (prepare _ _ _ _ _ _) as [[st1 evs1] [R|fl1]] eqn:Hprep; simpl in Hev, Hfs, Hps, Hss.
  2: { injection Hitem as _ <- _. left. by apply Hev. }
  pose proof (prepare_inl _ _ _ _ _ _ _ _ _ Hprep) as (-> & _).
  destruct (too_large _) eqn:Hbig.
  { injection Hitem as _ <- _. left. by apply Hev. }
  destruct (run_stages _ _ _ _ _ _ _ _ _) as [[st2 evs2] fl2] eqn:Hrun.
  injection Hitem as <- <- _.
  destruct Hin as [<-|Hin]; [by left|]. right.
  exists st1, R. split; [done|]. split; [done|].
  pose proof (run_stages_calls _ _ _ _ _ _ _ _ _ _ _ _ _ Hrun Hin) as Hc.
  cbv zeta in Hc. simpl fs in Hc.
  destruct Hc as [Hc|[Hc|[(st3 & ev_patch & x & Hpatch & He & Hfs')|(Hd & He & Hc)]]].
  - by left.
  - right. by left.
  - right. right. left. exists (write_back R idx st1), st3, ev_patch, x.
    simpl. by rewrite Hfs, Hps, Hss.
  - right. right. right. split; [done|]. split; [done|].
    destruct Hc as [Hold|(pa & created & t & Hpa & Hpc & Hcr)].
    + left. by rewrite <- Hfs.
    + right. exists pa, created, t. split; [by right|done].
Qed.

(** An iteration only adds files, and leaves the sizes alone when they are
    in pixels. *)
Lemma process_item_state cfg w legacy st idx slide :
  let st' := (process_item cfg w legacy st idx slide).1.1 in
  (exists created, fs st' = created ++ fs st /\ (do_patch cfg = false -> created = [])) /\
  (patch_spacing cfg = None ->
   st_patch_size st' = st_patch_size st /\ st_step_size st' = st_step_size st).
Proof.
  unfold process_item.
  pose proof (prepare_vars cfg w legacy st idx slide) as (Hfs & _ & _ & _ & Hps & Hss).
  destruct (prepare _ _ _ _ _ _) as [[st1 evs1] [R|fl1]]; simpl in Hfs, Hps, Hss; simpl.
  2: { split; [exists []; by rewrite Hfs|by rewrite Hps, Hss]. }
  destruct (too_large _); simpl.
  { split; [exists []; by rewrite Hfs|by rewrite Hps, Hss]. }
  unfold run_stages.
  destruct (stage_segment _ _ _ _ _) as [ev_seg [t_seg|]]; simpl.
  2: { split; [exists []; by rewrite Hfs|by rewrite Hps, Hss]. }
  destruct (stage_mask _ _ _ _ _) as [ev_mask [|]]; simpl.
  2: { split; [exists []; by rewrite Hfs|by rewrite Hps, Hss]. }
  destruct (stage_patch _ _ _ _ _) as [[st2 ev_patch] x] eqn:Hpatch.
  apply stage_patch_state in Hpatch as [(created & Hc & Hcr) Hgeo].
  simpl in Hc, Hgeo. rewrite Hfs in Hc. rewrite Hps, Hss in Hgeo.
  destruct x as [t|fl1]; simpl; [|split; [by exists created|done]].
  destruct (stage_stitch _ _ _ _) as [ev_stitch [t_stitch|]]; simpl;
    (split; [by exists created|done]).
Qed.


(** Between the iterations files are only added, and the sizes in pixels
    stay those of the arguments. *)
Lemma run_state cfg w df0 s :
  In s (r_steps (seg_and_patch cfg w df0)) ->
  (exists created, fs (s_pre s) = created ++ files w /\
     (do_patch cfg = false -> created = [])) /\
  (patch_spacing cfg = None ->
   st_patch_size (s_pre s) = patch_size cfg /\ st_step_size (s_pre s) = step_size cfg).
Proof.
  intros Hin.
  set (P := fun st : State =>
    (exists created, fs st = created ++ files w /\ (do_patch cfg = false -> created = [])) /\
    (patch_spacing cfg = None ->
     st_patch_size st = patch_size cfg /\ st_step_size st = step_size cfg)).
  destruct (loop_state_invariant P cfg w (has_a df0) (process_stack df0)
              (initial_state cfg w df0)) as [Hall _].
  - intros st idx slide [(created & Hfs & Hcr) Hgeo].
    destruct (process_item_state cfg w (has_a df0) st idx slide)
      as [(created' & Hfs' & Hcr') Hgeo'].
    split.
    + exists (created' ++ created). split.
      * by rewrite Hfs', Hfs, app_assoc.
      * intros Hp. by rewrite Hcr', Hcr.
    + intros Hsp. destruct (Hgeo' Hsp) as [-> ->]. by apply Hgeo.
  - split; [by exists []|done].
  - by apply Hall.
Qed.

(** ** Sizes in pixels (lines 290 and 330-342) *)

(** X10.  Without [patch_spacing] no metadata reader is ever called, and
    every call of [patching] in the run, whatever came before it, is for
    the slide of its iteration with the [patch_size], [step_size],
    [patch_level] and [patch_save_dir] that [seg_and_patch] was called
    with. *)
Theorem pixel_sizes_every_slide cfg w df0 k s e :
  patch_spacing cfg = None ->
  r_steps (seg_and_patch cfg w df0) !! k = Some s ->
  In e (s_events s) ->
  is_spacing_call e = false /\
  forall p pa, e = EvPatching p pa ->
    p = full_path_of cfg (s_slide s) /\
    pa_patch_size pa = patch_size cfg /\ pa_step_size pa = step_size cfg /\
    pa_patch_level pa = patch_level cfg /\ pa_save_path pa = patch_save_dir cfg.
Proof.
  intros Hsp Hk Hin.
  pose proof (run_step _ _ _ _ _ Hk) as (Hok & _).
  assert (Hs : In s (r_steps (seg_and_patch cfg w df0))).
  { apply list_elem_of_In. by eapply list_elem_of_lookup_2. }
  destruct (run_state _ _ _ _ Hs) as [_ Hgeo]. destruct (Hgeo Hsp) as [Hps Hss].
  destruct (process_item_calls _ _ _ _ _ _ _ _ _ _ Hok Hin) as [->|(st1 & R & _ & _ & Hc)].
  { by split. }
  destruct Hc as [[_ ->]|[[_ ->]|[(st0 & st2 & ev_patch & x & Hpatch & He & _ & Hps0 & Hss0 & _)
                                  |(_ & -> & _)]]]; try by split.
  apply stage_patch_shape in Hpatch. rewrite Hsp in Hpatch.
  destruct (do_patch cfg).
  - destruct Hpatch as [-> _]. destruct He as [<-|[]].
    split; [done|]. intros p pa [= <- <-]. simpl.
    by rewrite Hps0, Hss0, Hps, Hss.
  - destruct Hpatch as [-> _]. done.
Qed.

Lemma pixel_sizes_every_slide_witness :
  exists s pa, r_steps (seg_and_patch Demo2.cfg_pixels Demo2.world_empty Demo.df0) !! 0%nat = Some s /\
    In (EvPatching "slides/a.svs" pa) (s_events s) /\
    pa_patch_size pa = 256 /\ pa_step_size pa = 128.
Proof.
  eexists _, {| pa_use_padding := true; pa_contour_fn := "four_pt"; pa_patch_level := 0;
                pa_patch_size := 256; pa_step_size := 128; pa_save_path := "out/patches" |}.
  split; [vm_compute; reflexivity|].
  match goal with
  | |- ?A /\ _ => assert (Hin : A) by (vm_compute; do 3 right; left; reflexivity)
  end.
  split; [exact Hin|].
  destruct (pixel_sizes_every_slide Demo2.cfg_pixels Demo2.world_empty Demo.df0 0 _ _
              eq_refl eq_refl Hin) as [_ Hpa].
  destruct (Hpa _ _ eq_refl) as (_ & Hps & Hss & _).
  split; [exact Hps|exact Hss].
Defined.

(** ** A spacing of zero (lines 316-317) *)

(** X11.  When the metadata of a slide give a spacing of 0 and the
    iteration gets as far as the readers, line 316 divides by zero: nothing
    catches the [ZeroDivisionError], [patching] is not called for the slide,
    and the whole run ends with that exception. *)
Theorem zero_spacing_stops_run cfg w df0 k s sp slide_mpp :
  patch_spacing cfg = Some sp ->
  r_steps (seg_and_patch cfg w df0) !! k = Some s ->
  In (EvMppTiffslide (full_path_of cfg (s_slide s))) (s_events s) ->
  (get_spacing w (full_path_of cfg (s_slide s))).2 = SpacingFound slide_mpp ->
  Qeq slide_mpp 0 ->
  s_flow s = Raise Py.ZeroDivisionError /\
  (forall p pa, ~ In (EvPatching p pa) (s_events s)) /\
  r_outcome (seg_and_patch cfg w df0) = Raised Py.ZeroDivisionError.
Proof.
  intros Hsp Hk Hin Hfound Hzero.
  pose proof (run_step _ _ _ _ _ Hk) as (Hok & _).
  assert (Hflow : s_flow s = Raise Py.ZeroDivisionError /\
                  forall p pa, ~ In (EvPatching p pa) (s_events s)).
  { destruct (process_item_patch _ _ _ _ _ _ _ _ _ Hok) as (before & Hbefore & Hcases).
    destruct Hcases as [(Hevs & _)|(st0 & cp & st1 & ev_patch & x & ev_stitch & Hpatch & Hst & Hevs & Hx)].
    { rewrite Hevs in Hin. by destruct (Hbefore _ Hin) as [[=] _]. }
    apply stage_patch_shape in Hpatch. rewrite Hsp in Hpatch.
    destruct (do_patch cfg).
    2: { destruct Hpatch as [-> _]. rewrite Hevs in Hin.
         apply in_app_or in Hin as [Hin|Hin]; [by destruct (Hbefore _ Hin) as [[=] _]|].
         by destruct (Hst _ Hin) as [[=] _]. }
    destruct Hpatch as (post & Hev & Hpost). rewrite Hfound in Hpost.
    apply Qeq_bool_iff in Hzero. rewrite Hzero in Hpost. destruct Hpost as [-> ->].
    destruct Hx as [Hfl ->]. split; [done|].
    intros p pa Hpa. rewrite Hevs, Hev, !app_nil_r in Hpa.
    apply in_app_or in Hpa as [Hpa|Hpa].
    - by destruct (Hbefore _ Hpa) as (_ & [=] & _).
    - by apply get_spacing_events in Hpa as [[=]|[=]]. }
  destruct Hflow as [Hfl Hno]. split; [done|]. split; [done|].
  by destruct (run_raise _ _ _ _ _ _ Hk Hfl) as [-> _].
Qed.

Lemma zero_spacing_stops_run_witness :
  exists s, r_steps (seg_and_patch Demo.cfg Demo2.world_zero_mpp Demo.df0) !! 0%nat = Some s /\
    In (EvMppTiffslide "slides/a.svs") (s_events s) /\
    s_flow s = Raise Py.ZeroDivisionError /\
    r_outcome (seg_and_patch Demo.cfg Demo2.world_zero_mpp Demo.df0)
    = Raised Py.ZeroDivisionError.
Proof.
  eexists. split; [vm_compute; reflexivity|].
  match goal with
  | |- ?A /\ _ => assert (Hin : A) by (vm_compute; do 3 right; left; reflexivity)
  end.
  split; [exact Hin|].
  assert (Hzero : Qeq ((0 + 0) / 2) 0) by reflexivity.
  destruct (zero_spacing_stops_run Demo.cfg Demo2.world_zero_mpp Demo.df0 0 _ (1 # 2) _
              eq_refl eq_refl Hin eq_refl Hzero) as (Hfl & _ & Hout).
  split; [exact Hfl|exact Hout].
Defined.

(** ** Stitching and the coordinate files (lines 173-176 and 344-352) *)

(** Files stay: what is on disk when an iteration starts was there at the
    start of the loop or was added since. *)
Lemma loop_fs_pre cfg w legacy stack st s :
  In s (loop cfg w legacy stack st) -> exists l, fs (s_pre s) = l ++ fs st.
Proof.
  intros Hin.
  destruct (loop_state_invariant (fun st1 => exists l, fs st1 = l ++ fs st)
              cfg w legacy stack st) as [Hall _].
  - intros st1 idx slide [l Hl].
    destruct (process_item_state cfg w legacy st1 idx slide) as [(created & Hfs & _) _].
    exists (created ++ l). by rewrite Hfs, Hl, app_assoc.
  - by exists [].
  - by apply Hall.
Qed.

Lemma loop_fs_between cfg w legacy stack st j k sj sk :
  loop cfg w legacy stack st !! j = Some sj ->
  loop cfg w legacy stack st !! k = Some sk ->
  (j < k)%nat ->
  exists l, fs (s_pre sk) = l ++ fs (s_post sj).
Proof.
  revert st j k. induction stack as [|[idx slide] rest IH]; intros st j k; [done|].
  simpl loop.
  destruct (process_item cfg w legacy st idx slide) as [[st1 evs] fl].
  destruct fl as [d|e].
  - destruct k as [|k]; [lia|]. destruct j as [|j]; simpl.
    + intros [= <-] Hk _. simpl.
      eapply loop_fs_pre. apply list_elem_of_In. by eapply list_elem_of_lookup_2.
    + intros Hj Hk Hlt. eapply IH; [exact Hj|exact Hk|lia].
  - destruct k as [|k]; [lia|]. by destruct j.
Qed.

(** What a successful call of [patching] adds to the disk. *)
Lemma process_item_created cfg w legacy st idx slide st' evs fl p pa created t :
  process_item cfg w legacy st idx slide = (st', evs, fl) ->
  In (EvPatching p pa) evs ->
  process_contours w p pa = Some (created, t) ->
  p = full_path_of cfg slide /\ do_patch cfg = true /\ fs st' = created ++ fs st.
Proof.
  intros Hitem Hin Hpc.
  destruct (process_item_calls _ _ _ _ _ _ _ _ _ _ Hitem Hin) as [[=]|(st1 & R & _ & _ & Hc)].
  destruct Hc as [[_ [=]]|[[_ [=]]|[(st0 & st2 & ev_patch & x & Hpatch & He & Hfs & _ & _ & Hfs')
                                    |(_ & [=] & _)]]].
  destruct (stage_patch_created _ _ _ _ _ _ _ _ _ _ Hpatch He) as (-> & Hdo & Hcr).
  rewrite Hpc in Hcr. destruct Hcr as [Hcr _].
  split; [done|]. split; [done|]. by rewrite Hfs', Hcr, Hfs.
Qed.


(** X12.  Every call of [stitching] in a run is made with [stitch] on, on
    the file [{patch_save_dir}/{slide_id}.h5] of the slide of its iteration,
    and the picture goes to [{stitch_save_dir}/{slide_id}.jpg].  With
    [auto_skip] on, that file was created by the call of [patching] of the
    same iteration; so a run with [auto_skip] on and [patch] off never
    calls [stitching]: without [patch], a call needs [auto_skip] off and a
    file that was there before the run. *)
Theorem stitching_calls cfg w df0 k s f out :
  r_steps (seg_and_patch cfg w df0) !! k = Some s ->
  In (EvStitching f out) (s_events s) ->
  do_stitch cfg = true /\
  f = h5_path cfg (s_slide s) /\
  out = Py.path_join (stitch_save_dir cfg) (Py.splitext_root (s_slide s) ++ ".jpg")%string /\
  (auto_skip cfg = true ->
   exists pa created t,
     In (EvPatching (full_path_of cfg (s_slide s)) pa) (s_events s) /\
     process_contours w (full_path_of cfg (s_slide s)) pa = Some (created, t) /\
     In f created) /\
  (do_patch cfg = false -> auto_skip cfg = false /\ Py.isfile (files w) f = true).
Proof.
  intros Hk Hin.
  pose proof (run_step _ _ _ _ _ Hk) as (Hok & _).
  assert (Hs : In s (r_steps (seg_and_patch cfg w df0))).
  { apply list_elem_of_In. by eapply list_elem_of_lookup_2. }
  destruct (run_state _ _ _ _ Hs) as [(made & Hmade & Hnone) _].
  destruct (process_item_calls _ _ _ _ _ _ _ _ _ _ Hok Hin) as [[=]|(st1 & R & Hprep & _ & Hc)].
  destruct Hc as [[_ [=]]|[[_ [=]]|[(st0 & st2 & ev_patch & x & Hpatch & He & _)
                                    |(Hdo & [= -> ->] & Hfile)]]].
  { pose proof (stage_patch_events cfg w st0 (full_path_of cfg (s_slide s))
                  (c_patch (rs_cur R)) (EvStitching f out)) as Hev.
    rewrite Hpatch in Hev. by destruct (Hev He) as [[=]|[[=]|[pa [=]]]]. }
  apply prepare_inl in Hprep as (_ & Hskip & _).
  split; [done|]. split; [done|]. split; [done|]. split.
  - intros Hauto. rewrite Hauto in Hskip. simpl in Hskip.
    destruct Hfile as [Hold|Hnew]; [congruence|done].
  - intros Hpatch.
    destruct Hfile as [Hold|(pa & created & t & Hpa & Hpc & _)].
    + rewrite Hold, andb_true_r in Hskip. split; [done|].
      by rewrite Hmade, (Hnone Hpatch) in Hold.
    + destruct (process_item_created _ _ _ _ _ _ _ _ _ _ _ _ _ Hok Hpa Hpc) as (_ & Hdo' & _).
      congruence.
Qed.

Lemma stitching_calls_witness :
  exists s, r_steps (seg_and_patch Demo2.cfg_pixels Demo2.world_empty Demo2.twins) !! 0%nat
            = Some s /\
    In (EvStitching "out/patches/c.h5" "out/stitches/c.jpg") (s_events s) /\
    do_stitch Demo2.cfg_pixels = true.
Proof.
  eexists. split; [vm_compute; reflexivity|].
  match goal with
  | |- ?A /\ _ => assert (Hin : A) by (vm_compute; do 4 right; left; reflexivity)
  end.
  split; [exact Hin|].
  exact (proj1 (stitching_calls Demo2.cfg_pixels Demo2.world_empty Demo2.twins 0 _ _ _
                  eq_refl Hin)).
Defined.

(** X13.  With [auto_skip] on, a row whose coordinate file was created by
    the call of [patching] of an earlier iteration of the same run (two
    slides with the same name up to the extension, for one) is skipped: no
    call is made for it and its status ends as [already_exist]. *)
Theorem same_destination_skipped cfg w df0 j k sj sk p pa created t :
  auto_skip cfg = true ->
  r_steps (seg_and_patch cfg w df0) !! j = Some sj ->
  r_steps (seg_and_patch cfg w df0) !! k = Some sk ->
  (j < k)%nat ->
  In (EvPatching p pa) (s_events sj) ->
  process_contours w p pa = Some (created, t) ->
  In (h5_path cfg (s_slide sk)) created ->
  s_flow sk = Next AlreadyExist /\ s_events sk = [] /\
  exists r, rows (df (r_final (seg_and_patch cfg w df0))) !! s_idx sk = Some r /\
    status r = "already_exist".
Proof.
  intros Hauto Hj Hk Hlt Hpa Hpc Hin.
  pose proof (run_step _ _ _ _ _ Hj) as (Hokj & _).
  pose proof (run_step _ _ _ _ _ Hk) as (Hokk & _).
  destruct (process_item_created _ _ _ _ _ _ _ _ _ _ _ _ _ Hokj Hpa Hpc) as (_ & _ & Hfs).
  destruct (loop_fs_between _ _ _ _ _ _ _ _ _ Hj Hk Hlt) as [l Hl].
  assert (Hfile : Py.isfile (fs (s_pre sk)) (h5_path cfg (s_slide sk)) = true).
  { apply isfile_In. rewrite Hl, Hfs. apply in_or_app. right. apply in_or_app. by left. }
  unfold step_ok in Hokk.
  rewrite (process_item_auto_skip _ _ _ _ _ _ Hauto Hfile) in Hokk.
  injection Hokk as _ Hev Hfl.
  split; [done|]. split; [done|].
  destruct (run_step_row _ _ _ _ _ Hk)
    as (r0 & r & r' & _ & _ & _ & _ & _ & _ & _ & _ & Hfin & _ & _ & Hst).
  exists r'. split; [done|]. rewrite <- Hfl in Hst. exact Hst.
Qed.

Lemma same_destination_skipped_witness :
  exists sk, r_steps (seg_and_patch Demo2.cfg_pixels Demo2.world_empty Demo2.twins) !! 1%nat
             = Some sk /\
    s_slide sk = "c.tif" /\ s_flow sk = Next AlreadyExist /\ s_events sk = [].
Proof.
  eexists. split; [vm_compute; reflexivity|]. split; [reflexivity|].
  assert (Hin : In (EvPatching "slides/c.svs"
                      {| pa_use_padding := true; pa_contour_fn := "four_pt";
                         pa_patch_level := 0; pa_patch_size := 256; pa_step_size := 128;
                         pa_save_path := "out/patches" |})
                   [EvOpen "slides/c.svs";
                    EvSegment "slides/c.svs" (seg_args Demo.seg0 2 [] []) Demo.filter0;
                    EvSaveMask "slides/c.svs" {| vis_level := 2; line_thickness := 250 |}
                      "out/masks/c.jpg";
                    EvPatching "slides/c.svs"
                      {| pa_use_padding := true; pa_contour_fn := "four_pt";
                         pa_patch_level := 0; pa_patch_size := 256; pa_step_size := 128;
                         pa_save_path := "out/patches" |};
                    EvStitching "out/patches/c.h5" "out/stitches/c.jpg"]).
  { do 3 right. left. reflexivity. }
  destruct (same_destination_skipped Demo2.cfg_pixels Demo2.world_empty Demo2.twins 0 1 _ _
              _ _ ["out/patches/c.h5"] (3 # 1) eq_refl eq_refl eq_refl (Nat.lt_0_1) Hin eq_refl
              (or_introl eq_refl)) as (Hfl & Hev & _).
  split; [exact Hfl|exact Hev].
Defined.

(** ** An iteration that completes (lines 269-361) *)

Lemma stage_patch_done cfg w st full_path cp st1 evs t :
  stage_patch cfg w st full_path cp = (st1, evs, inl t) ->
  if do_patch cfg then
    exists pa created,
      In (EvPatching full_path pa) evs /\ process_contours w full_path pa = Some (created, t)
  else t = (-1 # 1)%Q /\ evs = [].
Proof.
  unfold stage_patch. destruct (do_patch cfg); [|by intros [= _ <- <-]].
  destruct (stage_geometry cfg w st full_path) as [ev_geo [st0|fl]]; [|done].
  destruct (process_contours w full_path (patch_args cfg st0 cp)) as [[created t0]|] eqn:Hpc;
    [|done].
  intros [= _ <- <-]. exists (patch_args cfg st0 cp), created. split; [|done].
  apply in_or_app. right. by left.
Qed.

Lemma run_stages_completed cfg w st idx slide vp sa fp cp st' evs tse tpa tst :
  run_stages cfg w st idx slide vp sa fp cp = (st', evs, Next (Processed tse tpa tst)) ->
  let p := full_path_of cfg slide in
  (if do_seg cfg
   then In (EvSegment p sa fp) evs /\ segmentTissue w p sa fp = Some tse
   else tse = (-1 # 1)%Q) /\
  (save_mask cfg = true ->
   exists out, In (EvSaveMask p vp out) evs /\ visWSI w p vp = true) /\
  (if do_patch cfg
   then exists pa created,
          In (EvPatching p pa) evs /\ process_contours w p pa = Some (created, tpa)
   else tpa = (-1 # 1)%Q) /\
  ((exists out, In (EvStitching (h5_path cfg slide) out) evs /\
      StitchCoords w (h5_path cfg slide) = Some tst) \/
   (tst = (-1 # 1)%Q /\ forall f out, ~ In (EvStitching f out) evs)).
Proof.
  unfold run_stages. intros Hrun. cbv zeta.
  set (p := full_path_of cfg slide) in *.
  destruct (stage_segment _ _ _ _ _) as [ev_seg [t_seg|]] eqn:Hseg; [|done].
  destruct (stage_mask _ _ _ _ _) as [ev_mask [|]] eqn:Hmask; [|done].
  destruct (stage_patch _ _ _ _ _) as [[st1 ev_patch] [t_patch|fl1]] eqn:Hpatch.
  2: { injection Hrun as _ _ Hfl. revert Hpatch.
       unfold stage_patch. destruct (do_patch cfg); [|done].
       unfold stage_geometry. destruct (patch_spacing cfg) as [sp|].
       - destruct (get_spacing w p) as [ev [| |mpp]]; try (intros [= _ _ <-]; done).
         destruct (Qeq_bool mpp 0); [intros [= _ _ <-]; done|].
         destruct (process_contours w p _) as [[? ?]|]; [done|]. by intros [= _ _ <-].
       - destruct (process_contours w p _) as [[? ?]|]; [done|]. by intros [= _ _ <-]. }
  destruct (stage_stitch _ _ _ _) as [ev_stitch [t_stitch|]] eqn:Hstitch; [|done].
  injection Hrun as _ <- <- <- <-.
  assert (Hnot_seg : forall f out, ~ In (EvStitching f out) ev_seg).
  { revert Hseg. unfold stage_segment. destruct (do_seg cfg); intros [= <- _] f out Hin; [|done].
    by destruct Hin as [[=]|[]]. }
  assert (Hnot_mask : forall f out, ~ In (EvStitching f out) ev_mask).
  { revert Hmask. unfold stage_mask. destruct (save_mask cfg); intros Heq f out Hin.
    - injection Heq as <- _. by destruct Hin as [[=]|[]].
    - injection Heq as <-. done. }
  assert (Hnot_patch : forall f out, ~ In (EvStitching f out) ev_patch).
  { intros f out Hin.
    pose proof (stage_patch_events cfg w st p cp (EvStitching f out)) as Hev.
    rewrite Hpatch in Hev. by destruct (Hev Hin) as [[=]|[[=]|[pa [=]]]]. }
  split; [|split; [|split]].
  - revert Hseg. unfold stage_segment. destruct (do_seg cfg).
    + intros [= <- Hres]. split; [by left|done].
    + by intros [= _ <-].
  - intros Hsave. revert Hmask. unfold stage_mask. rewrite Hsave. intros [= <- Hres].
    eexists. split; [|done]. apply in_or_app. right. apply in_or_app. left. by left.
  - apply stage_patch_done in Hpatch. destruct (do_patch cfg); [|by destruct Hpatch].
    destruct Hpatch as (pa & created & Hin & Hpc). exists pa, created. split; [|done].
    apply in_or_app. right. apply in_or_app. right. apply in_or_app. by left.
  - revert Hstitch. unfold stage_stitch.
    assert (Hno : forall f out,
              ~ In (EvStitching f out) (ev_seg ++ ev_mask ++ ev_patch ++ [])).
    { intros f out Hin. rewrite app_nil_r in Hin.
      apply in_app_or in Hin as [Hin|Hin]; [by eapply Hnot_seg|].
      apply in_app_or in Hin as [Hin|Hin]; [by eapply Hnot_mask|by eapply Hnot_patch]. }
    destruct (do_stitch cfg); [|intros [= <- <-]; by right].
    destruct (Py.isfile _ _); [|intros [= <- <-]; by right].
    intros [= <- Hres]. left. eexists. split; [|done].
    do 3 (apply in_or_app; right). by left.
Qed.

(** X14.  An iteration that reaches line 357 called every stage that is
    switched on, for its own slide, and every one of these calls returned:
    the times added to the timers are those that [segment], [patching] and
    [stitching] returned (-1 for a stage that is off, or for [stitching]
    when the coordinate file does not exist, in which case it is not
    called), and the row ends the run with status [processed]. *)
Theorem processed_after_every_stage cfg w df0 k s tse tpa tst :
  r_steps (seg_and_patch cfg w df0) !! k = Some s ->
  s_flow s = Next (Processed tse tpa tst) ->
  let p := full_path_of cfg (s_slide s) in
  (if do_seg cfg
   then exists sa fp, In (EvSegment p sa fp) (s_events s) /\ segmentTissue w p sa fp = Some tse
   else tse = (-1 # 1)%Q) /\
  (save_mask cfg = true ->
   exists vp out, In (EvSaveMask p vp out) (s_events s) /\ visWSI w p vp = true) /\
  (if do_patch cfg
   then exists pa created,
          In (EvPatching p pa) (s_events s) /\ process_contours w p pa = Some (created, tpa)
   else tpa = (-1 # 1)%Q) /\
  ((exists out, In (EvStitching (h5_path cfg (s_slide s)) out) (s_events s) /\
      StitchCoords w (h5_path cfg (s_slide s)) = Some tst) \/
   (tst = (-1 # 1)%Q /\ forall f out, ~ In (EvStitching f out) (s_events s))) /\
  exists r, rows (df (r_final (seg_and_patch cfg w df0))) !! s_idx s = Some r /\
    status r = "processed".
Proof.
  intros Hk Hfl. cbv zeta.
  pose proof (run_step _ _ _ _ _ Hk) as (Hok & _).
  destruct (run_step_row _ _ _ _ _ Hk)
    as (r0 & r & r' & _ & _ & _ & _ & _ & _ & _ & _ & Hfin & _ & _ & Hst).
  rewrite Hfl in Hst. simpl in Hst.
  unfold step_ok in Hok. rewrite Hfl in Hok. revert Hok. unfold process_item.
  pose proof (prepare_events cfg w (has_a df0) (s_pre s) (s_idx s) (s_slide s)) as Hev.
  destruct (prepare _ _ _ _ _ _) as [[st1 evs1] [R|fl1]] eqn:Hprep.
  2: { intros [= _ _ ->]. revert Hprep. unfold prepare.
       destruct (auto_skip cfg && _); [done|].
       destruct (WholeSlideImage w _) as [wsi|]; [|done].
       destruct (resolve_params _ _ _ _ _) as [d1 [cur|e]]; [|done].
       destruct (resolve_ids (keep_ids _)); [|done].
       destruct (resolve_ids (exclude_ids _)); [|done].
       by destruct (Py.index _ _). }
  destruct (too_large _); [done|].
  destruct (run_stages _ _ _ _ _ _ _ _ _) as [[st2 evs2] fl2] eqn:Hrun.
  intros [= _ <- ->].
  pose proof (run_stages_completed _ _ _ _ _ _ _ _ _ _ _ _ _ _ Hrun) as (Hs & Hm & Hp & Ht).
  split; [|split; [|split; [|split]]].
  - destruct (do_seg cfg); [|done]. destruct Hs as [Hin Hres].
    eexists _, _. split; [|exact Hres]. apply in_or_app. by right.
  - intros Hsave. destruct (Hm Hsave) as (out & Hin & Hres).
    eexists _, out. split; [|exact Hres]. apply in_or_app. by right.
  - destruct (do_patch cfg); [|done]. destruct Hp as (pa & created & Hin & Hres).
    exists pa, created. split; [|done]. apply in_or_app. by right.
  - destruct Ht as [(out & Hin & Hres)|[-> Hno]].
    + left. exists out. split; [|done]. apply in_or_app. by right.
    + right. split; [done|]. intros f out Hin. apply in_app_or in Hin as [Hin|Hin].
      * by apply Hev in Hin.
      * by eapply Hno.
  - by exists r'.
Qed.

Lemma processed_after_every_stage_witness :
  exists s, r_steps Demo.run !! 2%nat = Some s /\
    s_flow s = Next (Processed (6 # 1) (3 # 1) (-1 # 1)) /\
    exists r, rows (df (r_final Demo.run)) !! s_idx s = Some r /\ status r = "processed".
Proof.
  eexists. split; [vm_compute; reflexivity|]. split; [reflexivity|].
  exact (proj2 (proj2 (proj2 (proj2
           (processed_after_every_stage Demo.cfg Demo.world Demo.df0 2 _ _ _ _
              eq_refl eq_refl))))).
Defined.

(** ** Where the parameters of the calls come from (lines 143-155 and 189-222) *)

Lemma resolve_params_default cfg legacy wsi d idx :
  use_default_params cfg = true ->
  resolve_params cfg legacy wsi d idx
  = (d, Py.Ok {| c_vis := vis_params cfg; c_filter := filter_params cfg;
                 c_seg := seg_params cfg; c_patch := patch_params cfg |}).
Proof. intros H. unfold resolve_params. by rewrite H. Qed.

(** With the legacy column only [vis_level], [a_t] and [seg_level] are
    changed before the row is read. *)
Lemma resolve_params_legacy_cur cfg wsi d idx r d' cur :
  use_default_params cfg = false ->
  rows d !! idx = Some r ->
  resolve_params cfg true wsi d idx = (d', Py.Ok cur) ->
  c_patch cur = pat r /\
  line_thickness (c_vis cur) = line_thickness (vis r) /\
  a_h (c_filter cur) = a_h (filt r) /\
  max_n_holes (c_filter cur) = max_n_holes (filt r) /\
  sthresh (c_seg cur) = sthresh (seg r) /\ mthresh (c_seg cur) = mthresh (seg r) /\
  close (c_seg cur) = close (seg r) /\ use_otsu (c_seg cur) = use_otsu (seg r).
Proof.
  intros Hdef Hr. unfold resolve_params. rewrite Hdef.
  pose proof (loc_set_lookup (set_vis_level (-1)) idx d r Hr) as H1.
  rewrite (loc_Ok _ _ _ H1).
  destruct (adjusted_area wsi (set_vis_level (-1) r)) as [v|e]; [|done].
  pose proof (loc_set_lookup (set_a_t v) idx _ _ H1) as H2.
  rewrite (loc_Ok _ _ _ H2).
  pose proof (loc_set_lookup (set_seg_level (-1)) idx _ _ H2) as H3.
  rewrite (loc_Ok _ _ _ H3).
  intros [= <- <-]. by repeat split.
Qed.

Lemma stage_patch_params cfg w st full_path cp st1 evs x p pa :
  stage_patch cfg w st full_path cp = (st1, evs, x) ->
  In (EvPatching p pa) evs ->
  pa_use_padding pa = use_padding cp /\ pa_contour_fn pa = contour_fn cp.
Proof.
  intros Hpatch Hin. apply stage_patch_shape in Hpatch.
  destruct (do_patch cfg); [|by destruct Hpatch as [-> _]].
  destruct (patch_spacing cfg) as [sp|].
  - destruct Hpatch as (post & -> & Hpost).
    apply in_app_or in Hin as [Hin|Hin].
    { by apply get_spacing_events in Hin as [[=]|[=]]. }
    destruct ((get_spacing w full_path).2) as [| |mpp].
    + by destruct Hpost as [-> _].
    + by destruct Hpost as [-> _].
    + destruct (Qeq_bool mpp 0); [by destruct Hpost as [-> _]|].
      destruct Hpost as [-> _]. by destruct Hin as [[= <- <-]|[]].
  - destruct Hpatch as [-> _]. by destruct Hin as [[= <- <-]|[]].
Qed.

(** The row an iteration starts from, in terms of the data frame given to
    the run. *)
Lemma run_step_pre_row cfg w df0 k s r0 :
  r_steps (seg_and_patch cfg w df0) !! k = Some s ->
  rows df0 !! s_idx s = Some r0 ->
  rows (df (s_pre s)) !! s_idx s
  = Some (if has_a df0 then legacy_assign cfg r0 else r0).
Proof.
  intros Hk Hr0. destruct (run_step _ _ _ _ _ Hk) as (_ & _ & -> & _).
  unfold initial_state. simpl. destruct (has_a df0); simpl; [|done].
  change (map (legacy_assign cfg) (rows df0)) with (legacy_assign cfg <$> rows df0).
  by rewrite list_lookup_fmap, Hr0.
Qed.

(** The dictionaries of lines 189-222 for an iteration of a run, in each of
    the three modes. *)
Lemma run_step_cur cfg w df0 k s st1 evs R r0 :
  r_steps (seg_and_patch cfg w df0) !! k = Some s ->
  rows df0 !! s_idx s = Some r0 ->
  prepare cfg w (has_a df0) (s_pre s) (s_idx s) (s_slide s) = (st1, evs, inl R) ->
  (use_default_params cfg = true ->
   rs_cur R = {| c_vis := vis_params cfg; c_filter := filter_params cfg;
                 c_seg := seg_params cfg; c_patch := patch_params cfg |}) /\
  (use_default_params cfg = false -> has_a df0 = false ->
   rs_cur R = {| c_vis := vis r0; c_filter := filt r0; c_seg := seg r0; c_patch := pat r0 |}) /\
  (use_default_params cfg = false -> has_a df0 = true ->
   c_patch (rs_cur R) = pat (legacy_assign cfg r0) /\
   line_thickness (c_vis (rs_cur R)) = line_thickness (vis (legacy_assign cfg r0)) /\
   a_h (c_filter (rs_cur R)) = a_h (filt (legacy_assign cfg r0)) /\
   max_n_holes (c_filter (rs_cur R)) = max_n_holes (filt (legacy_assign cfg r0)) /\
   sthresh (c_seg (rs_cur R)) = sthresh (seg r0) /\
   mthresh (c_seg (rs_cur R)) = mthresh (seg r0) /\
   close (c_seg (rs_cur R)) = close (seg r0) /\
   use_otsu (c_seg (rs_cur R)) = use_otsu (seg r0)).
Proof.
  intros Hk Hr0 Hprep.
  pose proof (run_step_pre_row _ _ _ _ _ _ Hk Hr0) as Hpre.
  apply prepare_inl in Hprep as (_ & _ & _ & Hres & _).
  pose proof (loc_set_lookup (set_process 0) _ _ _ Hpre) as Hrow.
  split; [|split].
  - intros Hdef. rewrite (resolve_params_default _ _ _ _ _ Hdef) in Hres.
    by injection Hres as _ <-.
  - intros Hdef Hleg. rewrite Hleg in Hres, Hrow.
    rewrite (resolve_params_plain _ _ _ _ _ Hdef Hrow) in Hres.
    by injection Hres as _ <-.
  - intros Hdef Hleg. rewrite Hleg in Hres, Hrow.
    exact (resolve_params_legacy_cur _ _ _ _ _ _ _ Hdef Hrow Hres).
Qed.

(** The calls of an iteration that take parameters, against its
    dictionaries. *)
Lemma run_step_call cfg w df0 k s e :
  r_steps (seg_and_patch cfg w df0) !! k = Some s ->
  In e (s_events s) ->
  (forall p sa fp, e <> EvSegment p sa fp) /\ (forall p vp out, e <> EvSaveMask p vp out) /\
  (forall p pa, e <> EvPatching p pa) \/
  exists st1 evs R,
    prepare cfg w (has_a df0) (s_pre s) (s_idx s) (s_slide s) = (st1, evs, inl R) /\
    (forall p sa fp, e = EvSegment p sa fp ->
       sa = segment_args R /\ fp = c_filter (rs_cur R)) /\
    (forall p vp out, e = EvSaveMask p vp out -> vp = vis_args R) /\
    (forall p pa, e = EvPatching p pa ->
       pa_use_padding pa = use_padding (c_patch (rs_cur R)) /\
       pa_contour_fn pa = contour_fn (c_patch (rs_cur R))).
Proof.
  intros Hk Hin.
  pose proof (run_step _ _ _ _ _ Hk) as (Hok & _).
  destruct (process_item_calls _ _ _ _ _ _ _ _ _ _ Hok Hin) as [->|(st1 & R & Hprep & _ & Hc)].
  { left. by repeat split. }
  destruct Hc as [[_ ->]|[[_ ->]|[(st0 & st2 & ev_patch & x & Hpatch & He & _)
                                  |(_ & -> & _)]]].
  - right. eexists st1, _, R. split; [exact Hprep|]. split; [|split]; try done.
    by intros p sa fp [= _ <- <-].
  - right. eexists st1, _, R. split; [exact Hprep|]. split; [|split]; try done.
    by intros p vp out [= _ <- _].
  - right. eexists st1, _, R. split; [exact Hprep|].
    pose proof (stage_patch_events cfg w st0 (full_path_of cfg (s_slide s))
                  (c_patch (rs_cur R)) e) as Hev.
    rewrite Hpatch in Hev. destruct (Hev He) as [->|[->|[pa ->]]]; try by repeat split.
    split; [done|]. split; [done|]. intros p pa' [= <- <-].
    by eapply stage_patch_params.
  - left. by repeat split.
Qed.

(** X15.  With [use_default_params] every call of [segment], of the mask
    and of [patching] in the run is made with the dictionaries given to
    [seg_and_patch], whatever the rows of the data frame hold, with or
    without the legacy column. *)
Theorem default_parameters_used cfg w df0 k s e :
  use_default_params cfg = true ->
  r_steps (seg_and_patch cfg w df0) !! k = Some s ->
  In e (s_events s) ->
  (forall p sa fp, e = EvSegment p sa fp ->
     fp = filter_params cfg /\
     sa_sthresh sa = sthresh (seg_params cfg) /\ sa_mthresh sa = mthresh (seg_params cfg) /\
     sa_close sa = close (seg_params cfg) /\ sa_use_otsu sa = use_otsu (seg_params cfg)) /\
  (forall p vp out, e = EvSaveMask p vp out ->
     line_thickness vp = line_thickness (vis_params cfg)) /\
  (forall p pa, e = EvPatching p pa ->
     pa_use_padding pa = use_padding (patch_params cfg) /\
     pa_contour_fn pa = contour_fn (patch_params cfg)).
Proof.
  intros Hdef Hk Hin.
  destruct (run_step_row _ _ _ _ _ Hk) as (r0 & _ & _ & Hr0 & _).
  destruct (run_step_call _ _ _ _ _ _ Hk Hin)
    as [(Hs & Hm & Hp)|(st1 & evs & R & Hprep & Hs & Hm & Hp)].
  { split; [|split];
      [intros p sa fp He; by destruct (Hs _ _ _ He)
      |intros p vp out He; by destruct (Hm _ _ _ He)
      |intros p pa He; by destruct (Hp _ _ He)]. }
  destruct (run_step_cur _ _ _ _ _ _ _ _ _ Hk Hr0 Hprep) as (Hcur & _).
  specialize (Hcur Hdef).
  split; [|split].
  - intros p sa fp He. destruct (Hs _ _ _ He) as [-> ->].
    unfold segment_args, seg_args. simpl. by rewrite Hcur.
  - intros p vp out He. rewrite (Hm _ _ _ He). simpl. by rewrite Hcur.
  - intros p pa He. destruct (Hp _ _ He) as [-> ->]. by rewrite Hcur.
Qed.

Lemma default_parameters_used_witness :
  exists s sa fp,
    r_steps (seg_and_patch Demo2.cfg_defaults Demo2.world_empty Demo2.bad_level) !! 0%nat
    = Some s /\
    In (EvSegment "slides/c.svs" sa fp) (s_events s) /\ fp = Demo.filter0.
Proof.
  eexists _, (seg_args Demo.seg0 2 [] []), Demo.filter0.
  split; [vm_compute; reflexivity|].
  match goal with
  | |- ?A /\ _ => assert (Hin : A) by (vm_compute; do 1 right; left; reflexivity)
  end.
  split; [exact Hin|].
  destruct (default_parameters_used Demo2.cfg_defaults Demo2.world_empty Demo2.bad_level
              0 _ _ eq_refl eq_refl Hin) as [Hs _].
  exact (proj1 (Hs _ _ _ eq_refl)).
Defined.

(** X16.  Without [use_default_params] and without the legacy column, every
    call of [segment], of the mask and of [patching] is made with the
    values of the row of its slide in the data frame given to the run:
    what the iterations before it wrote does not reach them. *)
Theorem row_parameters_used cfg w df0 k s e r0 :
  use_default_params cfg = false ->
  has_a df0 = false ->
  r_steps (seg_and_patch cfg w df0) !! k = Some s ->
  rows df0 !! s_idx s = Some r0 ->
  In e (s_events s) ->
  (forall p sa fp, e = EvSegment p sa fp ->
     fp = filt r0 /\
     sa_sthresh sa = sthresh (seg r0) /\ sa_mthresh sa = mthresh (seg r0) /\
     sa_close sa = close (seg r0) /\ sa_use_otsu sa = use_otsu (seg r0)) /\
  (forall p vp out, e = EvSaveMask p vp out ->
     line_thickness vp = line_thickness (vis r0)) /\
  (forall p pa, e = EvPatching p pa ->
     pa_use_padding pa = use_padding (pat r0) /\ pa_contour_fn pa = contour_fn (pat r0)).
Proof.
  intros Hdef Hleg Hk Hr0 Hin.
  destruct (run_step_call _ _ _ _ _ _ Hk Hin)
    as [(Hs & Hm & Hp)|(st1 & evs & R & Hprep & Hs & Hm & Hp)].
  { split; [|split];
      [intros p sa fp He; by destruct (Hs _ _ _ He)
      |intros p vp out He; by destruct (Hm _ _ _ He)
      |intros p pa He; by destruct (Hp _ _ He)]. }
  destruct (run_step_cur _ _ _ _ _ _ _ _ _ Hk Hr0 Hprep) as (_ & Hcur & _).
  specialize (Hcur Hdef Hleg).
  split; [|split].
  - intros p sa fp He. destruct (Hs _ _ _ He) as [-> ->].
    unfold segment_args, seg_args. simpl. by rewrite Hcur.
  - intros p vp out He. rewrite (Hm _ _ _ He). simpl. by rewrite Hcur.
  - intros p pa He. destruct (Hp _ _ He) as [-> ->]. by rewrite Hcur.
Qed.

Lemma row_parameters_used_witness :
  exists s sa fp, r_steps Demo.run !! 2%nat = Some s /\
    In (EvSegment "slides/c.svs" sa fp) (s_events s) /\ fp = filt (Demo.row "c.svs").
Proof.
  eexists _, (seg_args Demo.seg0 2 [] []), Demo.filter0.
  split; [vm_compute; reflexivity|].
  match goal with
  | |- ?A /\ _ => assert (Hin : A) by (vm_compute; do 1 right; left; reflexivity)
  end.
  split; [exact Hin|].
  destruct (row_parameters_used Demo.cfg Demo.world Demo.df0 2 _ _ (Demo.row "c.svs")
              eq_refl eq_refl eq_refl eq_refl Hin) as [Hs _].
  exact (proj1 (Hs _ _ _ eq_refl)).
Defined.

(** X17.  With the legacy column and without [use_default_params], the
    columns [a_h], [max_n_holes], [line_thickness] and [contour_fn] of the
    file are not used: when the defaults fit in 32 bits, [segment], the
    mask and [patching] get the defaults given to [seg_and_patch] for
    these, and the values of the row for the thresholds and
    [use_padding]. *)
Theorem legacy_defaults_used cfg w df0 k s e r0 :
  use_default_params cfg = false ->
  has_a df0 = true ->
  0 <= a_h (filter_params cfg) < 2 ^ 32 ->
  0 <= max_n_holes (filter_params cfg) < 2 ^ 32 ->
  0 <= line_thickness (vis_params cfg) < 2 ^ 32 ->
  r_steps (seg_and_patch cfg w df0) !! k = Some s ->
  rows df0 !! s_idx s = Some r0 ->
  In e (s_events s) ->
  (forall p sa fp, e = EvSegment p sa fp ->
     a_h fp = a_h (filter_params cfg) /\
     max_n_holes fp = max_n_holes (filter_params cfg) /\
     sa_sthresh sa = sthresh (seg r0) /\ sa_mthresh sa = mthresh (seg r0) /\
     sa_close sa = close (seg r0) /\ sa_use_otsu sa = use_otsu (seg r0)) /\
  (forall p vp out, e = EvSaveMask p vp out ->
     line_thickness vp = line_thickness (vis_params cfg)) /\
  (forall p pa, e = EvPatching p pa ->
     pa_use_padding pa = use_padding (pat r0) /\
     pa_contour_fn pa = contour_fn (patch_params cfg)).
Proof.
  intros Hdef Hleg Hah Hmax Hline Hk Hr0 Hin.
  destruct (run_step_call _ _ _ _ _ _ Hk Hin)
    as [(Hs & Hm & Hp)|(st1 & evs & R & Hprep & Hs & Hm & Hp)].
  { split; [|split];
      [intros p sa fp He; by destruct (Hs _ _ _ He)
      |intros p vp out He; by destruct (Hm _ _ _ He)
      |intros p pa He; by destruct (Hp _ _ He)]. }
  destruct (run_step_cur _ _ _ _ _ _ _ _ _ Hk Hr0 Hprep) as (_ & _ & Hcur).
  destruct (Hcur Hdef Hleg) as (Hpat & Hlt & Ha_h & Hholes & Hst & Hmt & Hcl & Hot).
  simpl in Hpat, Hlt, Ha_h, Hholes. unfold uint32 in Hlt, Ha_h, Hholes.
  rewrite Z.mod_small in Hlt, Ha_h, Hholes by done.
  split; [|split].
  - intros p sa fp He. destruct (Hs _ _ _ He) as [-> ->].
    unfold segment_args, seg_args. simpl. by repeat split.
  - intros p vp out He. by rewrite (Hm _ _ _ He).
  - intros p pa He. destruct (Hp _ _ He) as [-> ->]. by rewrite Hpat.
Qed.

Lemma legacy_defaults_used_witness :
  exists s sa fp,
    r_steps (seg_and_patch Demo.cfg Demo.world_two_levels (Demo.legacy_df 400000 (-1))) !! 0%nat
    = Some s /\
    In (EvSegment "slides/c.svs" sa fp) (s_events s) /\
    a_h fp = 16 /\ max_n_holes fp = 8.
Proof.
  eexists _, (seg_args (seg (Demo.legacy_row "c.svs" 400000 (-1))) 1 [3; 5; 9] []),
    {| a_t := 24; a_h := 16; max_n_holes := 8 |}.
  split; [vm_compute; reflexivity|].
  match goal with
  | |- ?A /\ _ => assert (Hin : A) by (vm_compute; do 1 right; left; reflexivity)
  end.
  split; [exact Hin|].
  assert (H1 : 0 <= a_h (filter_params Demo.cfg) < 2 ^ 32) by (vm_compute; split; [discriminate|reflexivity]).
  assert (H2 : 0 <= max_n_holes (filter_params Demo.cfg) < 2 ^ 32)
    by (vm_compute; split; [discriminate|reflexivity]).
  assert (H3 : 0 <= line_thickness (vis_params Demo.cfg) < 2 ^ 32)
    by (vm_compute; split; [discriminate|reflexivity]).
  destruct (legacy_defaults_used Demo.cfg Demo.world_two_levels (Demo.legacy_df 400000 (-1))
              0 _ _ (Demo.legacy_row "c.svs" 400000 (-1))
              eq_refl eq_refl H1 H2 H3 eq_refl eq_refl Hin) as [Hs _].
  destruct (Hs _ _ _ eq_refl) as (Ha & Hm & _).
  split; [exact Ha|exact Hm].
Defined.

(** ** The command line (lines 375-484) *)




(** ** The levels in the data frame (lines 224-240 and 266-267) *)

(** Once the size guard is passed, the row holds the two resolved levels
    when the iteration ends, however it ends. *)
Lemma process_item_levels cfg w legacy st idx slide st' evs fl st1 evs1 R r :
  process_item cfg w legacy st idx slide = (st', evs, fl) ->
  prepare cfg w legacy st idx slide = (st1, evs1, inl R) ->
  too_large (rs_dim R) = false ->
  rows (df st) !! idx = Some r ->
  exists r', rows (df st') !! idx = Some r' /\
    seg_level (seg r') = rs_seg_level R /\ vis_level (vis r') = rs_vis_level R.
Proof.
  unfold process_item. intros Hitem Hprep Hbig Hr.
  destruct (prepare_row cfg w legacy st idx slide r Hr) as (r1 & Hr1 & _).
  rewrite Hprep in Hitem, Hr1. rewrite Hbig in Hitem. simpl in Hr1.
  destruct (run_stages _ _ _ _ _ _ _ _ _) as [[st2 evs2] fl2] eqn:Hrun.
  injection Hitem as <- _ _.
  apply run_stages_spec in Hrun as (_ & _ & _ & Hrow).
  destruct (Hrow (set_seg_level (rs_seg_level R) (set_vis_level (rs_vis_level R) r1)))
    as (r' & Hr' & _ & _ & Hseg & Hvis & _).
  { unfold write_back. simpl. by rewrite !list_lookup_alter_eq, Hr1. }
  exists r'. split; [done|]. by rewrite Hseg, Hvis.
Qed.

(** X19.  The data frame that a run leaves records, for every slide, the
    levels its calls were made with: the [seg_level] of a call of [segment]
    and the [vis_level] of a call of the mask are the values in the columns
    [seg_level] and [vis_level] of the row of that slide at the end of the
    run, whether the iteration completed or not. *)
Theorem levels_recorded cfg w df0 k s e :
  r_steps (seg_and_patch cfg w df0) !! k = Some s ->
  In e (s_events s) ->
  exists r, rows (df (r_final (seg_and_patch cfg w df0))) !! s_idx s = Some r /\
    (forall p sa fp, e = EvSegment p sa fp -> sa_seg_level sa = seg_level (seg r)) /\
    (forall p vp out, e = EvSaveMask p vp out -> vis_level vp = vis_level (vis r)).
Proof.
  intros Hk Hin.
  pose proof (run_step _ _ _ _ _ Hk) as (Hok & _).
  destruct (run_step_row _ _ _ _ _ Hk)
    as (r0 & r & r' & _ & _ & _ & Hpre & _ & _ & _ & Hpost & Hfin & _).
  exists r'. split; [done|].
  destruct (process_item_calls _ _ _ _ _ _ _ _ _ _ Hok Hin) as [->|(st1 & R & Hprep & Hbig & Hc)].
  { by split. }
  destruct (process_item_levels _ _ _ _ _ _ _ _ _ _ _ _ _ Hok Hprep Hbig Hpre)
    as (r'' & Hr'' & Hseg & Hvis).
  rewrite Hpost in Hr''. injection Hr'' as <-.
  destruct Hc as [[_ ->]|[[_ ->]|[(st0 & st2 & ev_patch & x & Hpatch & He & _)
                                  |(_ & -> & _)]]].
  - split; [|done]. intros p sa fp [= _ <- _]. by rewrite Hseg.
  - split; [done|]. intros p vp out [= _ <- _]. by rewrite Hvis.
  - pose proof (stage_patch_events cfg w st0 (full_path_of cfg (s_slide s))
                  (c_patch (rs_cur R)) e) as Hev.
    rewrite Hpatch in Hev. by destruct (Hev He) as [->|[->|[pa ->]]].
  - by split.
Qed.

Lemma levels_recorded_witness :
  exists s sa fp r, r_steps Demo.run !! 2%nat = Some s /\
    In (EvSegment "slides/c.svs" sa fp) (s_events s) /\
    rows (df (r_final Demo.run)) !! 2%nat = Some r /\
    sa_seg_level sa = 2 /\ seg_level (seg r) = 2.
Proof.
  eexists _, (seg_args Demo.seg0 2 [] []), Demo.filter0, _.
  split; [vm_compute; reflexivity|].
  match goal with
  | |- ?A /\ _ => assert (Hin : A) by (vm_compute; do 1 right; left; reflexivity)
  end.
  split; [exact Hin|].
  destruct (levels_recorded Demo.cfg Demo.world Demo.df0 2 _ _ eq_refl Hin)
    as (r & Hr & Hseg & _).
  split; [vm_compute; reflexivity|].
  split; [reflexivity|].
  vm_compute in Hr. injection Hr as <-. reflexivity.
Defined.
